(** * A Transformer encoder written from scratch: shallow embedding

    The development follows [model.py] and [utils.py].  Tensors carry their
    shape and their entries; every operation of the tensor library that the
    sources call is modelled with the shape rule it enforces, so that a call
    that raises in Python returns [Raise] here.

    Entries are real numbers: the model is the exact-arithmetic reading of
    the float32 computation.  Rounding, overflow, NaN and infinities are
    outside of it. *)

From Stdlib Require Import String Reals ZArith QArith Qreals Lia Lra Bool List.
Import ListNotations.
Local Open Scope string_scope.
Local Open Scope list_scope.
Local Open Scope nat_scope.

(** ** Exceptions *)

Inductive error : Type :=
| RuntimeError (msg : string)
| IndexError (msg : string)
| ValueError (msg : string).

Inductive result (A : Type) : Type :=
| Ok (a : A)
| Raise (e : error).

Arguments Ok {A} a.
Arguments Raise {A} e.

Definition rbind {A B : Type} (r : result A) (k : A -> result B) : result B :=
  match r with
  | Ok a => k a
  | Raise e => Raise e
  end.

Declare Scope result_scope.
Delimit Scope result_scope with result.
Notation "x <- e ;; k" := (rbind e (fun x => k))
  (at level 61, e at next level, right associativity) : result_scope.

(** ** Tensors *)

Definition index := list nat.

Record Tensor : Type := mkTensor {
  shape : list nat;
  data : index -> R
}.

Definition rank (t : Tensor) : nat := length (shape t).

(** [rsum n f] is f 0 + ... + f (n-1). *)
Fixpoint rsum (n : nat) (f : nat -> R) : R :=
  match n with
  | O => 0%R
  | S m => (rsum m f + f m)%R
  end.

Fixpoint set_nth (l : list nat) (i : nat) (v : nat) : list nat :=
  match l, i with
  | [], _ => []
  | _ :: t, O => v :: t
  | x :: t, S j => x :: set_nth t j v
  end.

Definition index_eqb (a b : index) : bool :=
  if list_eq_dec Nat.eq_dec a b then true else false.

(** The rows of a 2-D tensor, as lists. *)
Definition tolist2 (t : Tensor) : list (list R) :=
  map (fun i => map (fun j => data t [i; j]) (seq 0 (nth 1 (shape t) 0)))
      (seq 0 (nth 0 (shape t) 0)).

(** Sum of row [i] of a 2-D tensor. *)
Definition row_sum (t : Tensor) (i : nat) : R :=
  rsum (nth 1 (shape t) 0) (fun j => data t [i; j]).

(** ** The tensor library *)

Module torch.

Local Open Scope result_scope.

(** [torch.zeros(dims)]: a negative dimension raises. *)
Definition zeros (dims : list Z) : result Tensor :=
  if forallb (fun d => 0 <=? d)%Z dims
  then Ok (mkTensor (map Z.to_nat dims) (fun _ => 0%R))
  else Raise (RuntimeError "Trying to create tensor with negative dimension").

Definition ones (dims : list Z) : result Tensor :=
  if forallb (fun d => 0 <=? d)%Z dims
  then Ok (mkTensor (map Z.to_nat dims) (fun _ => 1%R))
  else Raise (RuntimeError "Trying to create tensor with negative dimension").

(** [torch.tensor(v)] for a Python number: a 0-dimensional tensor. *)
Definition tensor (v : R) : Tensor := mkTensor [] (fun _ => v).

(** [t.shape[i]] *)
Definition shape_at (t : Tensor) (i : nat) : result nat :=
  match nth_error (shape t) i with
  | Some n => Ok n
  | None => Raise (IndexError "tuple index out of range")
  end.

(** Broadcasting: shapes are aligned on the right; two sizes are
    compatible when they are equal or one of them is 1. *)
Fixpoint broadcast_rev (a b : list nat) : option (list nat) :=
  match a, b with
  | [], _ => Some b
  | _, [] => Some a
  | x :: a', y :: b' =>
      match broadcast_rev a' b' with
      | None => None
      | Some r =>
          if x =? y then Some (x :: r)
          else if x =? 1 then Some (y :: r)
          else if y =? 1 then Some (x :: r)
          else None
      end
  end.

Definition broadcast_shapes (a b : list nat) : option (list nat) :=
  option_map (@rev nat) (broadcast_rev (rev a) (rev b)).

Fixpoint expand_zip (s : list nat) (idx : index) : index :=
  match s, idx with
  | d :: s', i :: idx' => (if d =? 1 then 0 else i) :: expand_zip s' idx'
  | _, _ => []
  end.

(** The entry of an operand of shape [s] that is read at index [idx] of
    the broadcast result. *)
Definition expand_index (s : list nat) (idx : index) : index :=
  expand_zip s (skipn (length idx - length s) idx).

Definition pointwise2 (op : R -> R -> R) (a b : Tensor) : result Tensor :=
  match broadcast_shapes (shape a) (shape b) with
  | Some s =>
      Ok (mkTensor s (fun idx =>
            op (data a (expand_index (shape a) idx))
               (data b (expand_index (shape b) idx))))
  | None =>
      Raise (RuntimeError
        "The size of tensor a must match the size of tensor b")
  end.

(** [a + b] and [a / b] *)
Definition add : Tensor -> Tensor -> result Tensor := pointwise2 Rplus.
Definition div : Tensor -> Tensor -> result Tensor := pointwise2 Rdiv.

Definition pointwise1 (op : R -> R) (a : Tensor) : Tensor :=
  mkTensor (shape a) (fun idx => op (data a idx)).

Definition sqrt : Tensor -> Tensor := pointwise1 R_sqrt.sqrt.
Definition sin : Tensor -> Tensor := pointwise1 Rtrigo_def.sin.
Definition cos : Tensor -> Tensor := pointwise1 Rtrigo_def.cos.
Definition relu : Tensor -> Tensor := pointwise1 (Rmax 0).

(** [torch.pow(n, e)] for a positive Python number [n]. *)
Definition pow (n : R) (e : Tensor) : Tensor := pointwise1 (Rpower n) e.

(** [t.transpose(dim0, dim1)] *)
Definition swap (l : list nat) (i j : nat) : list nat :=
  map (fun k => nth (if k =? i then j else if k =? j then i else k) l 0)
      (seq 0 (length l)).

Definition transpose (t : Tensor) (dim0 dim1 : nat) : result Tensor :=
  if (dim0 <? rank t) && (dim1 <? rank t)
  then Ok (mkTensor (swap (shape t) dim0 dim1)
                    (fun idx => data t (swap idx dim0 dim1)))
  else Raise (IndexError "Dimension out of range").

(** [torch.matmul]: vectors are promoted to matrices, the leading (batch)
    dimensions are broadcast, the inner sizes must agree. *)
Definition split_last2 (s : list nat) : option (list nat * nat * nat) :=
  match rev s with
  | m :: n :: rb => Some (rev rb, n, m)
  | _ => None
  end.

Definition mat_mismatch : error :=
  RuntimeError "mat1 and mat2 shapes cannot be multiplied".

Definition matmul (a b : Tensor) : result Tensor :=
  match shape a, shape b with
  | [], _ | _, [] =>
      Raise (RuntimeError "both arguments to matmul need to be at least 1D")
  | [n], [m] =>
      if n =? m
      then Ok (mkTensor [] (fun _ => rsum n (fun k => data a [k] * data b [k])%R))
      else Raise mat_mismatch
  | [n], sb =>
      match split_last2 sb with
      | Some (batch, k, m) =>
          if n =? k
          then Ok (mkTensor (batch ++ [m]) (fun idx =>
                 let bi := removelast idx in
                 let j := last idx 0 in
                 rsum n (fun k => data a [k] * data b (bi ++ [k; j]))%R))
          else Raise mat_mismatch
      | None => Raise mat_mismatch
      end
  | sa, [m] =>
      match split_last2 sa with
      | Some (batch, n, k) =>
          if k =? m
          then Ok (mkTensor (batch ++ [n]) (fun idx =>
                 let bi := removelast idx in
                 let i := last idx 0 in
                 rsum m (fun k => data a (bi ++ [i; k]) * data b [k])%R))
          else Raise mat_mismatch
      | None => Raise mat_mismatch
      end
  | sa, sb =>
      match split_last2 sa, split_last2 sb with
      | Some (batch_a, n, k), Some (batch_b, k', m) =>
          match broadcast_shapes batch_a batch_b with
          | Some batch =>
              if k =? k'
              then Ok (mkTensor (batch ++ [n; m]) (fun idx =>
                     let bi := firstn (length batch) idx in
                     let i := nth (length batch) idx 0 in
                     let j := nth (S (length batch)) idx 0 in
                     rsum k (fun c =>
                       data a (expand_index batch_a bi ++ [i; c]) *
                       data b (expand_index batch_b bi ++ [c; j]))%R))
              else Raise mat_mismatch
          | None =>
              Raise (RuntimeError
                "The size of tensor a must match the size of tensor b")
          end
      | _, _ => Raise mat_mismatch
      end
  end.

(** [F.softmax(x)] without [dim]: the dimension is chosen from the rank,
    0 for ranks 0, 1 and 3 and 1 otherwise. *)
Definition _get_softmax_dim (ndim : nat) : nat :=
  if (ndim =? 0) || (ndim =? 1) || (ndim =? 3) then 0 else 1.

Definition softmax_dim (x : Tensor) (dim : nat) : Tensor :=
  mkTensor (shape x) (fun idx =>
    (exp (data x idx) /
     rsum (nth dim (shape x) 1%nat) (fun c => exp (data x (set_nth idx dim c))))%R).

Definition softmax (x : Tensor) : Tensor :=
  softmax_dim x (_get_softmax_dim (rank x)).

(** [torch.cat(ts, dim)] *)
Definition same_except (dim : nat) (s1 s2 : list nat) : bool :=
  index_eqb (set_nth s1 dim 0) (set_nth s2 dim 0).

Fixpoint cat_data (ts : list Tensor) (dim : nat) (idx : index) : R :=
  match ts with
  | [] => 0%R
  | t :: rest =>
      let n := nth dim (shape t) 0 in
      let i := nth dim idx 0 in
      if i <? n then data t idx
      else cat_data rest dim (set_nth idx dim (i - n))
  end.

Definition cat (ts : list Tensor) (dim : nat) : result Tensor :=
  match ts with
  | [] => Raise (RuntimeError "torch.cat(): expected a non-empty list of Tensors")
  | t0 :: rest =>
      if dim <? rank t0 then
        if forallb (fun t => same_except dim (shape t0) (shape t)) rest
        then Ok (mkTensor
                   (set_nth (shape t0) dim
                      (fold_right (fun t acc => nth dim (shape t) 0 + acc) 0 ts))
                   (cat_data ts dim))
        else Raise (RuntimeError
               "Sizes of tensors must match except in dimension 1")
      else Raise (IndexError "Dimension out of range")
  end.

(** [F.linear(x, weight, bias)]: x W^T + b on the last dimension. *)
Definition linear (x weight bias : Tensor) : result Tensor :=
  match shape weight, rev (shape x) with
  | [out_f; in_f], d :: rb =>
      if d =? in_f
      then Ok (mkTensor (rev rb ++ [out_f]) (fun idx =>
             let bi := removelast idx in
             let o := last idx 0 in
             (rsum in_f (fun k => data x (bi ++ [k]) * data weight [o; k])
              + data bias [o])%R))
      else Raise mat_mismatch
  | _, _ => Raise mat_mismatch
  end.

(** [F.layer_norm(x, (n,), weight, bias, eps)]: every vector along the
    last dimension is centred, scaled to unit (biased) variance, then
    scaled and shifted per feature. *)
Definition layer_norm (x : Tensor) (n : nat) (weight bias : Tensor) (eps : R)
  : result Tensor :=
  match rev (shape x) with
  | d :: _ =>
      if d =? n
      then Ok (mkTensor (shape x) (fun idx =>
             let bi := removelast idx in
             let j := last idx 0 in
             let mean := (rsum n (fun k => data x (bi ++ [k])) / INR n)%R in
             let var :=
               (rsum n (fun k => (data x (bi ++ [k]) - mean) ^ 2) / INR n)%R in
             ((data x idx - mean) / R_sqrt.sqrt (var + eps) * data weight [j]
              + data bias [j])%R))
      else Raise (RuntimeError "Given normalized_shape, expected input with matching shape")
  | [] => Raise (RuntimeError "Given normalized_shape, expected input with matching shape")
  end.

(** [P[k, j] = v] on a 2-D tensor, with non-negative indices. *)
Definition setitem2 (P : Tensor) (k j : nat) (v : R) : result Tensor :=
  match shape P with
  | [n; m] =>
      if (k <? n) && (j <? m)
      then Ok (mkTensor (shape P) (fun idx =>
             if index_eqb idx [k; j] then v else data P idx))
      else Raise (IndexError "index is out of bounds")
  | _ => Raise (IndexError "too many indices for tensor")
  end.

End torch.

(** [range(n)] and a [for] loop over it that threads the loop state. *)
Definition range (n : Z) : list Z := map Z.of_nat (seq 0 (Z.to_nat n)).

Fixpoint for_each {I S : Type} (l : list I) (body : I -> S -> result S) (s : S)
  : result S :=
  match l with
  | [] => Ok s
  | i :: l' => rbind (body i s) (for_each l' body)
  end.

(** [l[i]] for a Python list and an integer index that is not negative. *)
Definition getitem {A : Type} (l : list A) (i : Z) : result A :=
  match nth_error l (Z.to_nat i) with
  | Some a => Ok a
  | None => Raise (IndexError "index out of range")
  end.

(** ** The random generator and the monad of code that draws from it

    Parameter initialisation and dropout draw from the global generator.
    A generator is an arbitrary stream of draws and a cursor; nothing is
    assumed about the distribution. *)

Record Generator : Type := mkGenerator {
  sample : nat -> index -> R;
  coin : nat -> index -> bool;
  cursor : nat
}.

Definition M (A : Type) : Type := Generator -> result (A * Generator).

Definition ret {A : Type} (a : A) : M A := fun g => Ok (a, g).

Definition bind {A B : Type} (m : M A) (k : A -> M B) : M B :=
  fun g =>
    match m g with
    | Ok (a, g') => k a g'
    | Raise e => Raise e
    end.

Definition lift {A : Type} (r : result A) : M A :=
  fun g =>
    match r with
    | Ok a => Ok (a, g)
    | Raise e => Raise e
    end.

Definition raise {A : Type} (e : error) : M A := fun _ => Raise e.

Definition advance (g : Generator) : Generator :=
  mkGenerator (sample g) (coin g) (S (cursor g)).

Declare Scope M_scope.
Delimit Scope M_scope with M.
Notation "x <- e ;; k" := (bind e (fun x => k))
  (at level 61, e at next level, right associativity) : M_scope.

Fixpoint mfor {I S : Type} (l : list I) (body : I -> S -> M S) (s : S) : M S :=
  match l with
  | [] => ret s
  | i :: l' => bind (body i s) (mfor l' body)
  end.

(** Rational numbers stand for the Python floats given as probabilities. *)
Definition prob : Type := QArith_base.Q.

(** ** utils.py *)

Module utils.

Local Open Scope result_scope.

(** [int(x / 2)] on a Python integer: true division, then truncation. *)
Definition int_half (d : Z) : Z := Z.quot d 2.

(** [torch.arange(m)], iterated: the 0-dimensional integer tensors
    0, ..., m-1; a negative bound raises. *)
Definition arange (m : Z) : result (list Z) :=
  if (m <? 0)%Z
  then Raise (RuntimeError "upper bound and larger bound inconsistent with step sign")
  else Ok (range m).

Definition item (t : Tensor) : R := data t [].

(** The default value of the parameter [n]. *)
Definition n_default : R := 10000%R.

Definition getPositionEncoding (seq_len d : Z) (n : R) : result Tensor :=
  P <- torch.zeros [seq_len; d] ;;
  for_each (range seq_len) (fun k P =>
    js <- arange (int_half d) ;;
    for_each js (fun i P =>
      let denominator := torch.pow n (torch.tensor (2 * IZR i / IZR d)%R) in
      let angle := torch.pointwise1 (fun x => IZR k / x)%R denominator in
      P <- torch.setitem2 P (Z.to_nat k) (Z.to_nat (2 * i))
             (item (torch.sin angle)) ;;
      torch.setitem2 P (Z.to_nat k) (Z.to_nat (2 * i + 1))
             (item (torch.cos angle))) P) P.

Definition getMask (seq_len : Z) : result Tensor :=
  mask <- torch.zeros [seq_len; seq_len] ;;
  for_each (range seq_len) (fun i mask =>
    for_each (range seq_len) (fun j mask =>
      if (i <=? j)%Z
      then torch.setitem2 mask (Z.to_nat i) (Z.to_nat j) 1%R
      else Ok mask) mask) mask.

End utils.

(** ** The layers of [torch.nn] that model.py instantiates *)

Module nn.

Local Open Scope M_scope.

Definition negative_dimension : error :=
  RuntimeError "Trying to create tensor with negative dimension".

(** A freshly initialised parameter of the given shape. *)
Definition fresh (dims : list nat) : M Tensor :=
  fun g => Ok (mkTensor dims (sample g (cursor g)), advance g).

Module Linear.
Record t : Type := mk {
  in_features : Z;
  out_features : Z;
  weight : Tensor;
  bias : Tensor
}.

Definition __init__ (in_features out_features : Z) : M t :=
  if (in_features <? 0)%Z || (out_features <? 0)%Z
  then raise negative_dimension
  else
    weight <- fresh [Z.to_nat out_features; Z.to_nat in_features] ;;
    bias <- fresh [Z.to_nat out_features] ;;
    ret (mk in_features out_features weight bias).

Definition forward (self : t) (x : Tensor) : result Tensor :=
  torch.linear x (weight self) (bias self).
End Linear.

Module Dropout.
Record t : Type := mk {
  p : prob;
  training : bool
}.

Definition __init__ (p : prob) : M t :=
  if Qle_bool 0 p && Qle_bool p 1
  then ret (mk p true)
  else raise (ValueError "dropout probability has to be between 0 and 1").

(** In training mode every entry is zeroed or scaled by 1/(1-p),
    following the generator; in evaluation mode it is the identity. *)
Definition forward (self : t) (x : Tensor) : M Tensor :=
  if training self
  then fun g =>
    Ok (mkTensor (shape x) (fun idx =>
          if Qeq_bool (p self) 1 then 0%R
          else if coin g (cursor g) idx
               then (data x idx / (1 - Q2R (p self)))%R
               else 0%R),
        advance g)
  else ret x.
End Dropout.

Module LayerNorm.
Record t : Type := mk {
  normalized_shape : Z;
  weight : Tensor;
  bias : Tensor;
  eps : R
}.

Definition __init__ (normalized_shape : Z) : M t :=
  weight <- lift (torch.ones [normalized_shape]) ;;
  bias <- lift (torch.zeros [normalized_shape]) ;;
  ret (mk normalized_shape weight bias (1 / 100000)%R).

Definition forward (self : t) (x : Tensor) : result Tensor :=
  torch.layer_norm x (Z.to_nat (normalized_shape self))
    (weight self) (bias self) (eps self).
End LayerNorm.

(** The three kinds of layers that are put in a [Sequential]. *)
Inductive Layer : Type :=
| ALinear (l : Linear.t)
| AReLU
| ADropout (d : Dropout.t).

Definition Layer_forward (l : Layer) (x : Tensor) : M Tensor :=
  match l with
  | ALinear l => lift (Linear.forward l x)
  | AReLU => ret (torch.relu x)
  | ADropout d => Dropout.forward d x
  end.

Module Sequential.
Definition t : Type := list Layer.

Definition forward (self : t) (x : Tensor) : M Tensor :=
  mfor self Layer_forward x.
End Sequential.

End nn.

(** ** model.py *)

Module FFN.
Local Open Scope M_scope.

Record t : Type := mk { ffn : nn.Sequential.t }.

Definition __init__ (input_size hidden_size output_size num_layers : Z)
    (dropout_p : prob) : M t :=
  let layers := [] in
  l <- nn.Linear.__init__ input_size hidden_size ;;
  let layers := layers ++ [nn.ALinear l] in
  let layers := layers ++ [nn.AReLU] in
  d <- nn.Dropout.__init__ dropout_p ;;
  let layers := layers ++ [nn.ADropout d] in
  layers <- mfor (range (num_layers - 2)) (fun _ layers =>
    l <- nn.Linear.__init__ hidden_size hidden_size ;;
    let layers := layers ++ [nn.ALinear l] in
    let layers := layers ++ [nn.AReLU] in
    d <- nn.Dropout.__init__ dropout_p ;;
    let layers := layers ++ [nn.ADropout d] in
    ret layers) layers ;;
  l <- nn.Linear.__init__ hidden_size output_size ;;
  let layers := layers ++ [nn.ALinear l] in
  ret (mk layers).

Definition forward (self : t) (x : Tensor) : M Tensor :=
  nn.Sequential.forward (ffn self) x.
End FFN.

(** Single self-attention head *)
Module AttentionHead.

Record t : Type := mk {
  Q : nn.Linear.t;
  K : nn.Linear.t;
  V : nn.Linear.t
}.

Definition __init__ (Q K V : Z) : M t :=
  (q <- nn.Linear.__init__ Q Q ;;
   k <- nn.Linear.__init__ K K ;;
   v <- nn.Linear.__init__ V V ;;
   ret (mk q k v))%M.

Local Open Scope result_scope.

Definition forward (self : t) (x : Tensor) : result Tensor :=
  q <- nn.Linear.forward (Q self) x ;;
  k <- nn.Linear.forward (K self) x ;;
  v <- nn.Linear.forward (V self) x ;;
  k_transpose <- torch.transpose k 1 0 ;;
  q_k_transpose <- torch.matmul q k_transpose ;;
  k_shape_1 <- torch.shape_at k 1 ;;
  q_k_softmax <- torch.div (torch.softmax q_k_transpose)
                   (torch.sqrt (torch.tensor (INR k_shape_1))) ;;
  z <- torch.matmul q_k_softmax v ;;
  Ok z.

(** The value bound to [q_k_softmax] in [forward]: the matrix of
    attention weights that multiplies [v]. *)
Definition q_k_softmax (self : t) (x : Tensor) : result Tensor :=
  q <- nn.Linear.forward (Q self) x ;;
  k <- nn.Linear.forward (K self) x ;;
  v <- nn.Linear.forward (V self) x ;;
  k_transpose <- torch.transpose k 1 0 ;;
  q_k_transpose <- torch.matmul q k_transpose ;;
  k_shape_1 <- torch.shape_at k 1 ;;
  torch.div (torch.softmax q_k_transpose)
    (torch.sqrt (torch.tensor (INR k_shape_1))).
End AttentionHead.

Module MultiHeadAttention.

Record t : Type := mk {
  attention_heads : list AttentionHead.t;
  linear : nn.Linear.t
}.

Definition __init__ (Q K V num_heads : Z) : M t :=
  (let attention_heads := [] in
   linear <- nn.Linear.__init__ (num_heads * V) V ;;
   attention_heads <- mfor (range num_heads) (fun _ heads =>
     h <- AttentionHead.__init__ Q K V ;;
     ret (heads ++ [h])) attention_heads ;;
   ret (mk attention_heads linear))%M.

Local Open Scope result_scope.

Definition forward (self : t) (x : Tensor) : result Tensor :=
  let z := [] in
  z <- for_each (range (Z.of_nat (length (attention_heads self))))
         (fun i z =>
            head <- getitem (attention_heads self) i ;;
            zi <- AttentionHead.forward head x ;;
            Ok (z ++ [zi])) z ;;
  z <- torch.cat z 1 ;;
  z <- nn.Linear.forward (linear self) z ;;
  Ok z.
End MultiHeadAttention.

Module EncoderBlock.
Local Open Scope M_scope.

Record t : Type := mk {
  ffn : FFN.t;
  multi_head_attention : MultiHeadAttention.t;
  layer_norm1 : nn.LayerNorm.t;
  layer_norm2 : nn.LayerNorm.t
}.

Definition __init__ (Q K V num_heads hidden_size num_layers : Z)
    (dropout_p : prob) : M t :=
  ffn <- FFN.__init__ V hidden_size V num_layers dropout_p ;;
  multi_head_attention <- MultiHeadAttention.__init__ Q K V num_heads ;;
  layer_norm1 <- nn.LayerNorm.__init__ V ;;
  layer_norm2 <- nn.LayerNorm.__init__ V ;;
  ret (mk ffn multi_head_attention layer_norm1 layer_norm2).

Definition forward (self : t) (x : Tensor) : M Tensor :=
  z <- lift (MultiHeadAttention.forward (multi_head_attention self) x) ;;
  xz <- lift (torch.add x z) ;;
  z <- lift (nn.LayerNorm.forward (layer_norm1 self) xz) ;;
  z1 <- FFN.forward (ffn self) z ;;
  zz1 <- lift (torch.add z z1) ;;
  z <- lift (nn.LayerNorm.forward (layer_norm2 self) zz1) ;;
  ret z.
End EncoderBlock.

Module Encoder.
Local Open Scope M_scope.

Record t : Type := mk {
  multiencoder : list EncoderBlock.t;
  num_encoder : Z;
  pos_encoding : Tensor;
  attention_mask : option Tensor
}.

(** The default values of [max_len], [hidden_size], [num_layers] and
    [dropout_p]. *)
Definition max_len_default : Z := 512.
Definition hidden_size_default : Z := 512.
Definition num_layers_default : Z := 4.
Definition dropout_p_default : prob := (1 # 10)%Q.

Definition __init__ (Q K V num_heads num_encoder max_len hidden_size
    num_layers : Z) (dropout_p : prob) : M t :=
  let multiencoder := [] in
  multiencoder <- mfor (range num_encoder) (fun _ blocks =>
    b <- EncoderBlock.__init__ Q K V num_heads hidden_size num_layers
           dropout_p ;;
    ret (blocks ++ [b])) multiencoder ;;
  pos_encoding <- lift (utils.getPositionEncoding max_len V utils.n_default) ;;
  ret (mk multiencoder num_encoder pos_encoding None).

Definition forward (self : t) (x : Tensor) : M Tensor :=
  z <- lift (torch.add x (pos_encoding self)) ;;
  z <- mfor (range (num_encoder self)) (fun i z =>
    block <- lift (getitem (multiencoder self) i) ;;
    EncoderBlock.forward block z) z ;;
  ret z.
End Encoder.

(** ** The attention formula as the specification writes it

    Z = softmax(Q K^T / sqrt(d_k)) V, with the division applied to the
    similarity matrix before the row-wise softmax. *)

Module Spec.
Local Open Scope result_scope.

Definition scaled_dot_product_attention (self : AttentionHead.t) (x : Tensor)
  : result Tensor :=
  q <- nn.Linear.forward (AttentionHead.Q self) x ;;
  k <- nn.Linear.forward (AttentionHead.K self) x ;;
  v <- nn.Linear.forward (AttentionHead.V self) x ;;
  k_transpose <- torch.transpose k 1 0 ;;
  similarity <- torch.matmul q k_transpose ;;
  d_k <- torch.shape_at k 1 ;;
  scaled <- torch.div similarity (torch.sqrt (torch.tensor (INR d_k))) ;;
  torch.matmul (torch.softmax_dim scaled 1) v.
End Spec.


(** ** Loop invariants of utils.py *)

(** Entry (a, b) of the mask once the rows before [r] are done. *)
Definition mask_rows (n r a b : nat) : R :=
  if (a <? r) && (b <? n) && (a <=? b) then 1%R else 0%R.

(** Entry (a, b) of the mask while row [i] is filled up to column [c]. *)
Definition mask_cols (n i c a b : nat) : R :=
  if (a =? i) && (b <? c) && (a <=? b) then 1%R else mask_rows n i a b.

Definition mask_inv (n : nat) (f : nat -> nat -> R) (mask : Tensor) : Prop :=
  shape mask = [n; n] /\ forall a b, data mask [a; b] = f a b.

(** Entry (a, b) of the positional table of width [d] and base [base]:
    the sine at the even columns, the cosine at the odd ones. *)
Definition pe_entry (base : R) (d a b : nat) : R :=
  let angle :=
    (IZR (Z.of_nat a) /
     Rpower base (2 * IZR (Z.of_nat (b / 2)) / IZR (Z.of_nat d)))%R in
  if Nat.even b then Rtrigo_def.sin angle else Rtrigo_def.cos angle.

(** Entry (a, b) of the table once the rows before [r] are done. *)
Definition pe_rows (base : R) (d r a b : nat) : R :=
  if (a <? r) && (b <? 2 * (d / 2)) then pe_entry base d a b else 0%R.

(** Entry (a, b) of the table while row [k] is filled up to pair [c]. *)
Definition pe_cols (base : R) (d k c a b : nat) : R :=
  if (a =? k) && (b <? 2 * c) then pe_entry base d a b
  else pe_rows base d k a b.

Definition table_inv (n d : nat) (f : nat -> nat -> R) (P : Tensor) : Prop :=
  shape P = [n; d] /\ forall a b, data P [a; b] = f a b.

(** ** Well-shaped modules

    The shapes that the constructors give to the parameters. *)

Definition Linear_wf (i o : nat) (l : nn.Linear.t) : Prop :=
  shape (nn.Linear.weight l) = [o; i] /\ shape (nn.Linear.bias l) = [o].

Definition Head_wf (d : nat) (h : AttentionHead.t) : Prop :=
  Linear_wf d d (AttentionHead.Q h) /\
  Linear_wf d d (AttentionHead.K h) /\
  Linear_wf d d (AttentionHead.V h).

(** [Seq_wf i o layers]: the chain maps width [i] to width [o]. *)
Inductive Seq_wf : nat -> nat -> list nn.Layer -> Prop :=
| Seq_nil (i : nat) : Seq_wf i i []
| Seq_linear (i h o : nat) (l : nn.Linear.t) (rest : list nn.Layer) :
    Linear_wf i h l -> Seq_wf h o rest -> Seq_wf i o (nn.ALinear l :: rest)
| Seq_relu (i o : nat) (rest : list nn.Layer) :
    Seq_wf i o rest -> Seq_wf i o (nn.AReLU :: rest)
| Seq_dropout (i o : nat) (d : nn.Dropout.t) (rest : list nn.Layer) :
    Seq_wf i o rest -> Seq_wf i o (nn.ADropout d :: rest).

Definition LayerNorm_wf (d : nat) (ln : nn.LayerNorm.t) : Prop :=
  Z.to_nat (nn.LayerNorm.normalized_shape ln) = d.

Definition MHA_wf (d : nat) (m : MultiHeadAttention.t) : Prop :=
  MultiHeadAttention.attention_heads m <> [] /\
  Forall (Head_wf d) (MultiHeadAttention.attention_heads m) /\
  Linear_wf (length (MultiHeadAttention.attention_heads m) * d) d
    (MultiHeadAttention.linear m).

Definition Block_wf (d : nat) (b : EncoderBlock.t) : Prop :=
  Seq_wf d d (FFN.ffn (EncoderBlock.ffn b)) /\
  MHA_wf d (EncoderBlock.multi_head_attention b) /\
  LayerNorm_wf d (EncoderBlock.layer_norm1 b) /\
  LayerNorm_wf d (EncoderBlock.layer_norm2 b).

Definition Encoder_wf (L d : nat) (e : Encoder.t) : Prop :=
  shape (Encoder.pos_encoding e) = [L; d] /\
  Forall (Block_wf d) (Encoder.multiencoder e) /\
  length (Encoder.multiencoder e) = Z.to_nat (Encoder.num_encoder e).

(** The architecture of a [Sequential]: the kind and the sizes of each
    layer. *)
Inductive LayerKind : Type :=
| KLinear (in_features out_features : Z)
| KReLU
| KDropout (p : prob).

Definition kind_of (l : nn.Layer) : LayerKind :=
  match l with
  | nn.ALinear l => KLinear (nn.Linear.in_features l) (nn.Linear.out_features l)
  | nn.AReLU => KReLU
  | nn.ADropout d => KDropout (nn.Dropout.p d)
  end.

Definition architecture (f : FFN.t) : list LayerKind := map kind_of (FFN.ffn f).

(** A generator whose draws are all 1 (and that keeps every entry in
    dropout). *)
Definition ones_generator : Generator :=
  mkGenerator (fun _ _ => 1%R) (fun _ _ => true) 0.

(** ** The entries computed by an attention head *)

(** Entry (r, o) of [l(x)] for a linear layer of input width [d]. *)
Definition linear_entry (l : nn.Linear.t) (d : nat) (x : Tensor) (r o : nat) : R :=
  (rsum d (fun k => data x [r; k] * data (nn.Linear.weight l) [o; k])
   + data (nn.Linear.bias l) [o])%R.

(** Entry (i, c) of q k^T. *)
Definition similarity (h : AttentionHead.t) (d : nat) (x : Tensor) (i c : nat) : R :=
  rsum d (fun k => linear_entry (AttentionHead.Q h) d x i k *
                   linear_entry (AttentionHead.K h) d x c k)%R.

Definition softmax_row (n : nat) (s : nat -> R) (c : nat) : R :=
  (exp (s c) / rsum n (fun c' => exp (s c')))%R.

(** The weights as model.py computes them: softmax, then division. *)
Definition code_weight (h : AttentionHead.t) (n d : nat) (x : Tensor) (i c : nat) : R :=
  (softmax_row n (similarity h d x i) c / sqrt (INR d))%R.

(** The weights of the specification: division, then softmax. *)
Definition spec_weight (h : AttentionHead.t) (n d : nat) (x : Tensor) (i c : nat) : R :=
  softmax_row n (fun c' => similarity h d x i c' / sqrt (INR d))%R c.

(** [torch.ones(s)] for a shape that is known to be valid. *)
Definition ones_tensor (s : list nat) : Tensor := mkTensor s (fun _ => 1%R).

(** The head that AttentionHead(4, 4, 4) builds when every draw is 1. *)
Definition ones_linear (i o : nat) : nn.Linear.t :=
  nn.Linear.mk (Z.of_nat i) (Z.of_nat o) (ones_tensor [o; i]) (ones_tensor [o]).

Definition ones_head : AttentionHead.t :=
  AttentionHead.mk (ones_linear 4 4) (ones_linear 4 4) (ones_linear 4 4).

(** The message of a failed broadcast. *)
Definition size_mismatch : error :=
  RuntimeError "The size of tensor a must match the size of tensor b".

(** Constructing an encoder of width [V] (hidden size 32, 4 FFN layers,
    the default dropout) and running it once on [x]: the shape of the
    output, or the exception. *)
Definition encode_shape (V num_heads num_encoder max_len : Z) (x : Tensor)
  : result (list nat) :=
  match Encoder.__init__ V V V num_heads num_encoder max_len 32 4
          Encoder.dropout_p_default ones_generator with
  | Ok (e, g) =>
      match Encoder.forward e x g with
      | Ok (z, _) => Ok (shape z)
      | Raise err => Raise err
      end
  | Raise err => Raise err
  end.

From Stdlib Require Import Permutation.

(** ** Helpers for the further properties *)

(** The layer that nn.LayerNorm(d) builds: scale 1, shift 0, eps 1e-5. *)
Definition initial_LayerNorm (d : Z) : nn.LayerNorm.t :=
  nn.LayerNorm.mk d
    (mkTensor [Z.to_nat d] (fun _ => 1%R))
    (mkTensor [Z.to_nat d] (fun _ => 0%R))
    (1 / 100000)%R.

(** Row [i] of a 2-D tensor of width [d] sums to 0 and its sum of squares
    is at most [d]. *)
Definition row_normalised (d : nat) (z : Tensor) (i : nat) : Prop :=
  rsum d (fun j => data z [i; j]) = 0%R /\
  (rsum d (fun j => data z [i; j] ^ 2) <= INR d)%R.

(** [x[perm]]: the rows of [x] taken in the order [sigma 0], [sigma 1], ... *)
Definition permute_rows (sigma : nat -> nat) (x : Tensor) : Tensor :=
  mkTensor (shape x) (fun idx =>
    match idx with
    | i :: rest => data x (sigma i :: rest)
    | [] => data x []
    end).

(** Sum of a list of reals. *)
Definition lsum (l : list R) : R := fold_right Rplus 0%R l.

(** ** train_BERT.py: the functions that prepare the batches

    Token indices are integer tensors.  They are kept apart from the real
    tensors of the model; like them they carry a shape and their entries.
    Storage is taken to be contiguous, as it is for every tensor these
    functions receive from [data_process]. *)

Record LongTensor : Type := mkLong {
  lshape : list nat;
  ldata : index -> Z
}.

(** Number of entries of a tensor of the given shape. *)
Definition numel (s : list nat) : nat := fold_right Nat.mul 1 s.

(** The index, in a tensor of shape [s], of the entry at position [k] in
    row-major order. *)
Fixpoint unravel_rev (rs : list nat) (k : nat) : index :=
  match rs with
  | [] => []
  | d :: rs' => (k mod d) :: unravel_rev rs' (k / d)
  end.

Definition unravel (s : list nat) (k : nat) : index :=
  rev (unravel_rev (rev s) k).

(** The entries of a 1-D integer tensor, as a list. *)
Definition long_tolist (t : LongTensor) : list Z :=
  map (fun k => ldata t [k]) (seq 0 (nth 0 (lshape t) 0)).

Module train_BERT.

(** The exceptions of the tensor library, of Python and of einops. *)
Inductive exn : Type :=
| TorchError (e : error)
| ZeroDivisionError (msg : string)
| TypeError (msg : string)
| PyValueError (msg : string)
| EinopsError (msg : string).

Inductive outcome (A : Type) : Type :=
| Return (a : A)
| Throw (e : exn).

Arguments Return {A} a.
Arguments Throw {A} e.

Definition obind {A B : Type} (r : outcome A) (k : A -> outcome B) : outcome B :=
  match r with
  | Return a => k a
  | Throw e => Throw e
  end.

Declare Scope outcome_scope.
Delimit Scope outcome_scope with outcome.
Notation "x <- e ;; k" := (obind e (fun x => k))
  (at level 61, e at next level, right associativity) : outcome_scope.

Local Open Scope outcome_scope.

(** [t.size(dim)] *)
Definition size (t : LongTensor) (dim : nat) : outcome Z :=
  match nth_error (lshape t) dim with
  | Some n => Return (Z.of_nat n)
  | None => Throw (TorchError (IndexError "Dimension out of range"))
  end.

(** [len(t)] *)
Definition len (t : LongTensor) : outcome Z :=
  match lshape t with
  | [] => Throw (TypeError "len() of a 0-d tensor")
  | n :: _ => Return (Z.of_nat n)
  end.

(** [a // b] on Python integers. *)
Definition floordiv (a b : Z) : outcome Z :=
  if (b =? 0)%Z
  then Throw (ZeroDivisionError "integer division or modulo by zero")
  else Return (a / b)%Z.

(** A bound of a slice over [n] items: a negative bound counts from the
    end; the result is clamped to 0 .. n. *)
Definition slice_bound (n : nat) (v : Z) : nat :=
  if (v <? 0)%Z
  then Z.to_nat (Z.max 0 (v + Z.of_nat n))
  else Nat.min (Z.to_nat v) n.

(** [t[start:stop]], along the first dimension. *)
Definition slice (t : LongTensor) (start stop : option Z) : outcome LongTensor :=
  match lshape t with
  | [] =>
      Throw (TorchError (IndexError "slice() cannot be applied to a 0-dim tensor."))
  | n :: rest =>
      let a := match start with Some v => slice_bound n v | None => 0 end in
      let b := match stop with Some v => slice_bound n v | None => n end in
      Return (mkLong ((b - a) :: rest) (fun idx =>
        match idx with
        | i :: r => ldata t ((a + i) :: r)
        | [] => ldata t []
        end))
  end.

Definition invalid_shape : exn :=
  TorchError (RuntimeError "shape is invalid for input of this size").

(** [t.view(a, b)]: one size may be -1 and is then inferred. *)
Definition view2 (t : LongTensor) (a b : Z) : outcome LongTensor :=
  let n := Z.of_nat (numel (lshape t)) in
  let reshaped (r c : Z) :=
    mkLong [Z.to_nat r; Z.to_nat c] (fun idx =>
      ldata t (unravel (lshape t) (nth 0 idx 0 * Z.to_nat c + nth 1 idx 0))) in
  if ((a <? -1) || (b <? -1))%Z
  then Throw (TorchError (RuntimeError "invalid shape dimension"))
  else if ((a =? -1) && (b =? -1))%Z
  then Throw (TorchError (RuntimeError "only one dimension can be inferred"))
  else if (a =? -1)%Z
  then (if ((0 <? b) && (n mod b =? 0))%Z
        then Return (reshaped (n / b)%Z b) else Throw invalid_shape)
  else if (b =? -1)%Z
  then (if ((0 <? a) && (n mod a =? 0))%Z
        then Return (reshaped a (n / a)%Z) else Throw invalid_shape)
  else if (a * b =? n)%Z
  then Return (reshaped a b) else Throw invalid_shape.

(** [t.t()] *)
Definition t (x : LongTensor) : outcome LongTensor :=
  match lshape x with
  | [] | [_] => Return x
  | [n; m] =>
      Return (mkLong [m; n] (fun idx => ldata x [nth 1 idx 0; nth 0 idx 0]))
  | _ =>
      Throw (TorchError (RuntimeError "t() expects a tensor with <= 2 dimensions"))
  end.

(** [rearrange(x, 'seq batch -> batch seq')] *)
Definition rearrange_seq_batch (x : LongTensor) : outcome LongTensor :=
  match lshape x with
  | [s; b] =>
      Return (mkLong [b; s] (fun idx => ldata x [nth 1 idx 0; nth 0 idx 0]))
  | _ => Throw (EinopsError "Wrong shape: expected 2 dims")
  end.

(** [x.reshape(-1)] *)
Definition reshape_flat (x : LongTensor) : LongTensor :=
  mkLong [numel (lshape x)] (fun idx =>
    ldata x (unravel (lshape x) (nth 0 idx 0))).

(** The 1-D tensor whose entries are the items of [l]. *)
Definition of_list (l : list Z) : LongTensor :=
  mkLong [length l] (fun idx => nth (nth 0 idx 0) l 0%Z).

(** The integers that dtype long (int64) holds. *)
Definition in_int64 (v : Z) : bool :=
  ((- 2 ^ 63 <=? v) && (v <? 2 ^ 63))%Z.

(** [torch.tensor(l, dtype=torch.long)] for a list of integers: an item
    outside of int64 raises.  The class and the message of the exception
    depend on the version of the library; the properties below state only
    that the call raises. *)
Definition tensor (l : list Z) : outcome LongTensor :=
  if forallb in_int64 l
  then Return (of_list l)
  else Throw (TorchError (RuntimeError "Overflow when unpacking long")).

(** [torch.cat(ts)], along the first dimension. *)
Fixpoint cat_data (ts : list LongTensor) (idx : index) : Z :=
  match ts with
  | [] => 0%Z
  | x :: rest =>
      let n := nth 0 (lshape x) 0 in
      let i := nth 0 idx 0 in
      if i <? n then ldata x idx
      else cat_data rest (set_nth idx 0 (i - n))
  end.

(** [torch.cat] of an empty sequence raises; which exception depends on
    the version of the library, and no property below depends on it. *)
Definition cat (ts : list LongTensor) : outcome LongTensor :=
  match ts with
  | [] =>
      Throw (TorchError
        (RuntimeError "torch.cat(): expected a non-empty list of Tensors"))
  | x0 :: rest =>
      if 0 <? length (lshape x0) then
        if forallb (fun x => torch.same_except 0 (lshape x0) (lshape x)) rest
        then Return (mkLong
               (set_nth (lshape x0) 0
                  (fold_right (fun x acc => nth 0 (lshape x) 0 + acc) 0 ts))
               (cat_data ts))
        else Throw (TorchError (RuntimeError
               "Sizes of tensors must match except in dimension 0"))
      else Throw (TorchError (RuntimeError
             "zero-dimensional tensor cannot be concatenated"))
  end.

(** [range(start, stop, step)] *)
Definition range3 (start stop step : Z) : outcome (list Z) :=
  if (step =? 0)%Z
  then Throw (PyValueError "range() arg 3 must not be zero")
  else if (0 <? step)%Z
  then Return (map (fun k => start + Z.of_nat k * step)%Z
                 (seq 0 (Z.to_nat ((stop - start + step - 1) / step))))
  else Return (map (fun k => start + Z.of_nat k * step)%Z
                 (seq 0 (Z.to_nat ((start - stop - step - 1) / (- step))))).

(** A list comprehension whose items may raise. *)
Fixpoint omap {A B : Type} (f : A -> outcome B) (l : list A) : outcome (list B) :=
  match l with
  | [] => Return []
  | a :: l' =>
      b <- f a ;;
      bs <- omap f l' ;;
      Return (b :: bs)
  end.

(** Converts raw text into a flat Tensor. *)
Definition data_process {Item Token : Type} (raw_text_iter : list Item)
    (vocab : list Token -> list Z) (tokenizer : Item -> list Token)
  : outcome LongTensor :=
  data <- omap (fun item => tensor (vocab (tokenizer item))) raw_text_iter ;;
  cat (filter (fun x => 0 <? numel (lshape x)) data).

(** Divides the data into [bsz] separate sequences, removing extra
    elements that wouldn't cleanly fit.  [contiguous()] and [to(device)]
    change neither the shape nor the entries. *)
Definition batchify (data : LongTensor) (bsz : Z) : outcome LongTensor :=
  n <- size data 0 ;;
  seq_len <- floordiv n bsz ;;
  data <- slice data None (Some (seq_len * bsz)%Z) ;;
  data <- view2 data bsz seq_len ;;
  data <- t data ;;
  Return data.

Definition get_batch (source : LongTensor) (i sq_len : Z)
  : outcome (LongTensor * LongTensor) :=
  n <- len source ;;
  let sq_len := Z.min sq_len (n - 1 - i) in
  data <- slice source (Some i) (Some (i + sq_len)%Z) ;;
  target <- slice source (Some (i + 1)%Z) (Some (i + 1 + sq_len)%Z) ;;
  target <- rearrange_seq_batch target ;;
  let target := reshape_flat target in
  Return (data, target).

(** The offsets at which [train] and [evaluate] call [get_batch]:
    [range(0, source.size(0) - 1, sq_len)]. *)
Definition batch_offsets (source : LongTensor) (sq_len : Z) : outcome (list Z) :=
  n <- size source 0 ;;
  range3 0 (n - 1) sq_len.

End train_BERT.

(** The rows of a 2-D integer tensor, as lists. *)
Definition long_tolist2 (t : LongTensor) : list (list Z) :=
  map (fun i => map (fun j => ldata t [i; j]) (seq 0 (nth 1 (lshape t) 0)))
      (seq 0 (nth 0 (lshape t) 0)).

(** ** train_BERT.py: evaluate

    The model and the criterion are parameters: [model] is the function
    that the module computes, in evaluation mode, from a batch of token
    indices, [criterion] the loss, read as a number with [item()].
    [torch.no_grad()] changes no value. *)

Module evaluation.

Import train_BERT.
Local Open Scope outcome_scope.

Fixpoint ofor {I S : Type} (l : list I) (body : I -> S -> outcome S) (s : S)
  : outcome S :=
  match l with
  | [] => Return s
  | i :: l' => obind (body i s) (ofor l' body)
  end.

(** [output.view(-1, c)] on a tensor of the model. *)
Definition view_rows (x : Tensor) (c : Z) : outcome Tensor :=
  let n := Z.of_nat (numel (shape x)) in
  if (c <? -1)%Z
  then Throw (TorchError (RuntimeError "invalid shape dimension"))
  else if (c =? -1)%Z
  then Throw (TorchError (RuntimeError "only one dimension can be inferred"))
  else if ((0 <? c) && (n mod c =? 0))%Z
  then Return (mkTensor [Z.to_nat (n / c); Z.to_nat c] (fun idx =>
         data x (unravel (shape x) (nth 0 idx 0 * Z.to_nat c + nth 1 idx 0))))
  else Throw invalid_shape.

Definition evaluate (model : LongTensor -> outcome Tensor)
    (eval_data : LongTensor) (criterion : Tensor -> LongTensor -> outcome R)
    (sq_len ntokens : Z) : outcome R :=
  let total_loss := 0%R in
  n <- size eval_data 0 ;;
  offsets <- range3 0 (n - 1) sq_len ;;
  total_loss <- ofor offsets (fun i total_loss =>
    batch <- get_batch eval_data i sq_len ;;
    let data := fst batch in
    let targets := snd batch in
    data <- rearrange_seq_batch data ;;
    seq_len <- size data 0 ;;
    output <- model data ;;
    output_flat <- view_rows output ntokens ;;
    loss <- criterion output_flat targets ;;
    Return (total_loss + IZR seq_len * loss)%R) total_loss ;;
  n <- len eval_data ;;
  if (n - 1 =? 0)%Z
  then Throw (ZeroDivisionError "float division by zero")
  else Return (total_loss / IZR (n - 1))%R.

End evaluation.

(** * Properties *)

(** ** Running the model *)

Example encode_one_sequence :
  encode_shape 16 2 2 8 (ones_tensor [8; 16]) = Ok [8; 16].
Proof. vm_compute. reflexivity. Qed.

Example encode_batch :
  encode_shape 16 2 2 8 (ones_tensor [2; 8; 16]) = Raise size_mismatch.
Proof. vm_compute. reflexivity. Qed.

Example encode_shorter_than_table :
  encode_shape 2 1 1 3 (ones_tensor [2; 2]) = Raise size_mismatch.
Proof. vm_compute. reflexivity. Qed.

Example encode_one_row :
  encode_shape 2 1 1 3 (ones_tensor [1; 2]) = Ok [3; 2].
Proof. vm_compute. reflexivity. Qed.

Example encode_table_of_one_row :
  encode_shape 2 1 1 1 (ones_tensor [2; 2]) = Ok [2; 2].
Proof. vm_compute. reflexivity. Qed.

Example encode_no_rows :
  encode_shape 2 1 1 1 (ones_tensor [0; 2]) = Ok [0; 2].
Proof. vm_compute. reflexivity. Qed.

Example encode_no_heads :
  encode_shape 2 0 1 8 (ones_tensor [8; 2]) =
    Raise (RuntimeError "torch.cat(): expected a non-empty list of Tensors").
Proof. vm_compute. reflexivity. Qed.

Example encode_negative_width :
  encode_shape (-1) 1 1 8 (ones_tensor [8; 2]) = Raise nn.negative_dimension.
Proof. vm_compute. reflexivity. Qed.

Example getMask_3 :
  rbind (utils.getMask 3) (fun mask => Ok (tolist2 mask)) =
    Ok [[1; 1; 1]; [0; 1; 1]; [0; 0; 1]]%R.
Proof. vm_compute. reflexivity. Qed.

Example getMask_negative : utils.getMask (-1) = Raise nn.negative_dimension.
Proof. reflexivity. Qed.

(** ** The monads *)

Lemma bind_ok (A B : Type) (m : M A) (k : A -> M B) g a g1 :
  m g = Ok (a, g1) -> bind m k g = k a g1.
Proof. unfold bind. intros ->. reflexivity. Qed.

Lemma bind_raise (A B : Type) (m : M A) (k : A -> M B) g e :
  m g = Raise e -> bind m k g = Raise e.
Proof. unfold bind. intros ->. reflexivity. Qed.

Lemma bind_ext (A B : Type) (m : M A) (k1 k2 : A -> M B) g :
  (forall a g', k1 a g' = k2 a g') -> bind m k1 g = bind m k2 g.
Proof.
  intros H. unfold bind. destruct (m g) as [[a g'] | e]; [apply H | reflexivity].
Qed.

Lemma bind_ret_r (A : Type) (m : M A) g : bind m (fun a => ret a) g = m g.
Proof.
  unfold bind, ret. destruct (m g) as [[a g'] | e]; reflexivity.
Qed.

Ltac bind_step E := rewrite (@bind_ok _ _ _ _ _ _ _ E).

(** ** Loops over [range] *)

Lemma range_of_nat (n : nat) : range (Z.of_nat n) = map Z.of_nat (seq 0 n).
Proof. unfold range. rewrite Nat2Z.id. reflexivity. Qed.

Lemma range_nonpos (n : Z) : (n <= 0)%Z -> range n = [].
Proof.
  intros H. unfold range.
  replace (Z.to_nat n) with 0 by lia. reflexivity.
Qed.

(** A loop invariant indexed by the number of completed iterations. *)
Lemma for_each_seq_inv (S : Type) (Inv : nat -> S -> Prop)
    (body : Z -> S -> result S) (m a : nat) (s0 : S) :
  Inv a s0 ->
  (forall k s, a <= k < a + m -> Inv k s ->
     exists s', body (Z.of_nat k) s = Ok s' /\ Inv (Datatypes.S k) s') ->
  exists s', for_each (map Z.of_nat (seq a m)) body s0 = Ok s' /\ Inv (a + m) s'.
Proof.
  revert a s0. induction m as [| m IH]; intros a s0 H0 Hstep.
  - exists s0. rewrite Nat.add_0_r. auto.
  - simpl. destruct (Hstep a s0) as [s1 [E1 I1]]; [lia | assumption |].
    rewrite E1. simpl.
    destruct (IH (Datatypes.S a) s1 I1) as [s2 [E2 I2]].
    + intros k s Hk. apply Hstep. lia.
    + exists s2. split; [assumption |].
      replace (a + Datatypes.S m) with (Datatypes.S a + m) by lia. assumption.
Qed.

Lemma for_each_range_inv (S : Type) (Inv : nat -> S -> Prop)
    (body : Z -> S -> result S) (n : nat) (s0 : S) :
  Inv 0 s0 ->
  (forall k s, k < n -> Inv k s ->
     exists s', body (Z.of_nat k) s = Ok s' /\ Inv (Datatypes.S k) s') ->
  exists s', for_each (range (Z.of_nat n)) body s0 = Ok s' /\ Inv n s'.
Proof.
  intros H0 Hstep. rewrite range_of_nat.
  apply for_each_seq_inv with (Inv := Inv) (a := 0); [assumption |].
  intros k s Hk. apply Hstep. lia.
Qed.

(** ** Indexed assignment *)

Lemma index_eqb_2 (i j k l : nat) :
  index_eqb [i; j] [k; l] = (i =? k) && (j =? l).
Proof.
  unfold index_eqb.
  destruct (list_eq_dec Nat.eq_dec [i; j] [k; l]) as [E | N].
  - inversion E; subst. rewrite !Nat.eqb_refl. reflexivity.
  - destruct (Nat.eqb_spec i k), (Nat.eqb_spec j l); subst; simpl;
      try reflexivity.
    exfalso. apply N. reflexivity.
Qed.

Lemma setitem2_ok (P : Tensor) (n m k j : nat) (v : R) :
  shape P = [n; m] -> k < n -> j < m ->
  exists P', torch.setitem2 P k j v = Ok P' /\
    shape P' = [n; m] /\
    forall a b, data P' [a; b] = if (a =? k) && (b =? j) then v else data P [a; b].
Proof.
  intros Hs Hk Hj. unfold torch.setitem2. rewrite Hs.
  destruct (Nat.ltb_spec k n); [| lia].
  destruct (Nat.ltb_spec j m); [| lia]. simpl.
  eexists. split; [reflexivity |]. simpl. split; [reflexivity |].
  intros a b. rewrite index_eqb_2. reflexivity.
Qed.

Lemma zeros2_ok (n m : nat) :
  torch.zeros [Z.of_nat n; Z.of_nat m] = Ok (mkTensor [n; m] (fun _ => 0%R)).
Proof.
  unfold torch.zeros. simpl.
  destruct (Z.leb_spec 0 (Z.of_nat n)); [| lia].
  destruct (Z.leb_spec 0 (Z.of_nat m)); [| lia].
  simpl. rewrite !Nat2Z.id. reflexivity.
Qed.

(** ** getMask *)

Lemma mask_inner (n i : nat) (mask : Tensor) :
  i < n -> mask_inv n (mask_rows n i) mask ->
  exists mask',
    for_each (range (Z.of_nat n)) (fun j mask =>
      if (Z.of_nat i <=? j)%Z
      then torch.setitem2 mask (Z.to_nat (Z.of_nat i)) (Z.to_nat j) 1%R
      else Ok mask) mask = Ok mask' /\
    mask_inv n (mask_rows n (S i)) mask'.
Proof.
  intros Hi [Hs Hd].
  destruct (@for_each_range_inv Tensor (fun c => mask_inv n (mask_cols n i c))
    (fun j mask =>
      if (Z.of_nat i <=? j)%Z
      then torch.setitem2 mask (Z.to_nat (Z.of_nat i)) (Z.to_nat j) 1%R
      else Ok mask) n mask) as [mask' [E [Hs' Hd']]].
  - split; [assumption |]. intros a b. rewrite Hd. unfold mask_cols.
    rewrite andb_false_r. reflexivity.
  - intros c s Hc [Hss Hsd]. rewrite !Nat2Z.id.
    destruct (Z.leb_spec (Z.of_nat i) (Z.of_nat c)) as [Hle | Hgt].
    + destruct (setitem2_ok s n n i c 1%R Hss Hi Hc) as [s' [E' [Hs' Hd']]].
      exists s'. split; [assumption |]. split; [assumption |].
      intros a b. rewrite Hd', Hsd. unfold mask_cols, mask_rows.
      destruct (Nat.eqb_spec a i), (Nat.eqb_spec b c),
        (Nat.ltb_spec b c), (Nat.ltb_spec b (S c)), (Nat.leb_spec a b),
        (Nat.ltb_spec a i), (Nat.ltb_spec b n);
        simpl; try reflexivity; lia.
    + exists s. split; [reflexivity |]. split; [assumption |].
      intros a b. rewrite Hsd. unfold mask_cols, mask_rows.
      destruct (Nat.eqb_spec a i), (Nat.ltb_spec b c),
        (Nat.ltb_spec b (S c)), (Nat.leb_spec a b),
        (Nat.ltb_spec a i), (Nat.ltb_spec b n);
        simpl; try reflexivity; lia.
  - exists mask'. split; [assumption |]. split; [assumption |].
    intros a b. rewrite Hd'. unfold mask_cols, mask_rows.
    destruct (Nat.eqb_spec a i), (Nat.ltb_spec b n), (Nat.leb_spec a b),
      (Nat.ltb_spec a i), (Nat.ltb_spec a (S i));
      simpl; try reflexivity; lia.
Qed.

Lemma getMask_inv (n : nat) :
  exists mask,
    utils.getMask (Z.of_nat n) = Ok mask /\ mask_inv n (mask_rows n n) mask.
Proof.
  unfold utils.getMask. rewrite zeros2_ok. simpl.
  apply for_each_range_inv with (Inv := fun r => mask_inv n (mask_rows n r)).
  - split; [reflexivity |]. intros a b. reflexivity.
  - intros i s Hi Hinv. apply mask_inner; assumption.
Qed.

(** C9: for every seq_len > 0, getMask(seq_len) is the seq_len x seq_len
    matrix with a 1 at (i, j) exactly when i <= j and a 0 elsewhere; and
    getMask(3) is [[1,1,1],[0,1,1],[0,0,1]]. *)
Theorem getMask_upper_triangular (seq_len : Z) (Hpos : (0 < seq_len)%Z) :
  (exists mask,
     utils.getMask seq_len = Ok mask /\
     shape mask = [Z.to_nat seq_len; Z.to_nat seq_len] /\
     forall i j, i < Z.to_nat seq_len -> j < Z.to_nat seq_len ->
       data mask [i; j] = if i <=? j then 1%R else 0%R) /\
  (exists mask3,
     utils.getMask 3 = Ok mask3 /\
     tolist2 mask3 = [[1; 1; 1]; [0; 1; 1]; [0; 0; 1]]%R).
Proof.
  split.
  - destruct (getMask_inv (Z.to_nat seq_len)) as [mask [E [Hs Hd]]].
    rewrite Z2Nat.id in E by lia.
    exists mask. split; [assumption |]. split; [assumption |].
    intros i j Hi Hj. rewrite Hd. unfold mask_rows.
    destruct (Nat.ltb_spec i (Z.to_nat seq_len)); [| lia].
    destruct (Nat.ltb_spec j (Z.to_nat seq_len)); [| lia].
    reflexivity.
  - destruct (getMask_inv 3) as [mask [E [Hs Hd]]].
    exists mask. split; [exact E |].
    unfold tolist2. rewrite Hs. simpl. rewrite !Hd. reflexivity.
Qed.

Lemma getMask_upper_triangular_witness :
  (exists mask,
     utils.getMask 3 = Ok mask /\
     shape mask = [3; 3] /\
     forall i j, i < 3 -> j < 3 ->
       data mask [i; j] = if i <=? j then 1%R else 0%R) /\
  (exists mask3,
     utils.getMask 3 = Ok mask3 /\
     tolist2 mask3 = [[1; 1; 1]; [0; 1; 1]; [0; 0; 1]]%R).
Proof. apply (getMask_upper_triangular 3%Z). reflexivity. Defined.

(** ** getPositionEncoding *)

Lemma int_half_of_nat (d : nat) :
  utils.int_half (Z.of_nat d) = Z.of_nat (d / 2).
Proof.
  unfold utils.int_half. rewrite Z.quot_div_nonneg by lia.
  rewrite Nat2Z.inj_div. reflexivity.
Qed.

Lemma arange_of_nat (m : nat) : utils.arange (Z.of_nat m) = Ok (range (Z.of_nat m)).
Proof.
  unfold utils.arange. destruct (Z.ltb_spec (Z.of_nat m) 0); [lia | reflexivity].
Qed.

Lemma half_double (c : nat) : (2 * c) / 2 = c.
Proof. rewrite Nat.mul_comm. apply Nat.div_mul. lia. Qed.

Lemma half_double_succ (c : nat) : (2 * c + 1) / 2 = c.
Proof.
  symmetry. apply (Nat.div_unique (2 * c + 1) 2 c 1); lia.
Qed.

Lemma even_double (c : nat) : Nat.even (2 * c) = true.
Proof. apply Nat.even_spec. exists c. reflexivity. Qed.

Lemma even_double_succ (c : nat) : Nat.even (2 * c + 1) = false.
Proof.
  rewrite Nat.add_1_r, Nat.even_succ, <- Nat.negb_even, even_double.
  reflexivity.
Qed.

Lemma double_half_le (d : nat) : 2 * (d / 2) <= d.
Proof. apply Nat.Div0.mul_div_le. Qed.

Lemma pe_inner (base : R) (n d k : nat) (P : Tensor) :
  k < n -> table_inv n d (pe_rows base d k) P ->
  exists P',
    for_each (range (Z.of_nat (d / 2))) (fun i P =>
      let denominator :=
        torch.pow base (torch.tensor (2 * IZR i / IZR (Z.of_nat d))%R) in
      let angle :=
        torch.pointwise1 (fun x => IZR (Z.of_nat k) / x)%R denominator in
      rbind (torch.setitem2 P (Z.to_nat (Z.of_nat k)) (Z.to_nat (2 * i))
               (utils.item (torch.sin angle)))
        (fun P => torch.setitem2 P (Z.to_nat (Z.of_nat k))
               (Z.to_nat (2 * i + 1)) (utils.item (torch.cos angle)))) P
    = Ok P' /\
    table_inv n d (pe_rows base d (S k)) P'.
Proof.
  intros Hk [Hs Hd].
  pose proof (double_half_le d) as Hle.
  match goal with
  | |- exists P', for_each _ ?body _ = _ /\ _ =>
      destruct (@for_each_range_inv Tensor
        (fun c => table_inv n d (pe_cols base d k c)) body (d / 2) P)
        as [P' [E [Hs' Hd']]]
  end.
  - split; [assumption |]. intros a b. rewrite Hd. unfold pe_cols.
    rewrite Nat.mul_0_r. destruct (Nat.ltb_spec b 0); [lia |].
    rewrite andb_false_r. reflexivity.
  - intros c s Hc [Hss Hsd]. cbv beta zeta. rewrite !Nat2Z.id.
    replace (Z.to_nat (2 * Z.of_nat c)) with (2 * c) by lia.
    replace (Z.to_nat (2 * Z.of_nat c + 1)) with (2 * c + 1) by lia.
    destruct (setitem2_ok s n d k (2 * c)
      (utils.item (torch.sin (torch.pointwise1
         (fun x => IZR (Z.of_nat k) / x)%R
         (torch.pow base (torch.tensor
            (2 * IZR (Z.of_nat c) / IZR (Z.of_nat d))%R))))) Hss Hk)
      as [s1 [E1 [Hs1 Hd1]]]; [lia |].
    rewrite E1. simpl rbind.
    destruct (setitem2_ok s1 n d k (2 * c + 1)
      (utils.item (torch.cos (torch.pointwise1
         (fun x => IZR (Z.of_nat k) / x)%R
         (torch.pow base (torch.tensor
            (2 * IZR (Z.of_nat c) / IZR (Z.of_nat d))%R))))) Hs1 Hk)
      as [s2 [E2 [Hs2 Hd2]]]; [lia |].
    exists s2. split; [assumption |]. split; [assumption |].
    intros a b. rewrite Hd2, Hd1, Hsd. unfold pe_cols.
    destruct (Nat.eqb_spec a k) as [-> | Hak]; cbn [andb].
    + destruct (Nat.eqb_spec b (2 * c + 1)) as [-> | Hb1].
      * destruct (Nat.ltb_spec (2 * c + 1) (2 * S c)); [| lia].
        unfold pe_entry. rewrite even_double_succ, half_double_succ.
        reflexivity.
      * destruct (Nat.eqb_spec b (2 * c)) as [-> | Hb0].
        -- destruct (Nat.ltb_spec (2 * c) (2 * S c)); [| lia].
           unfold pe_entry. rewrite even_double, half_double. reflexivity.
        -- destruct (Nat.ltb_spec b (2 * c)), (Nat.ltb_spec b (2 * S c));
             try reflexivity; lia.
    + reflexivity.
  - exists P'. split; [assumption |]. split; [assumption |].
    intros a b. rewrite Hd'. unfold pe_cols, pe_rows.
    destruct (Nat.eqb_spec a k), (Nat.ltb_spec a k), (Nat.ltb_spec a (S k)),
      (Nat.ltb_spec b (2 * (d / 2))); simpl; try reflexivity; lia.
Qed.

Lemma getPositionEncoding_inv (base : R) (n d : nat) :
  exists P,
    utils.getPositionEncoding (Z.of_nat n) (Z.of_nat d) base = Ok P /\
    table_inv n d (pe_rows base d n) P.
Proof.
  unfold utils.getPositionEncoding. rewrite zeros2_ok. simpl rbind.
  apply for_each_range_inv with
    (Inv := fun r => table_inv n d (pe_rows base d r)).
  - split; [reflexivity |]. intros a b. reflexivity.
  - intros k s Hk Hinv. rewrite int_half_of_nat, arange_of_nat. simpl rbind.
    apply pe_inner; assumption.
Qed.

(** C4: for seq_len > 0 and even d > 0, with base 10000,
    getPositionEncoding(seq_len, d) returns the seq_len x d table with
    sin(k / 10000^(2i/d)) at (k, 2i) and cos(k / 10000^(2i/d)) at (k, 2i+1)
    for 0 <= k < seq_len and 0 <= i < d/2; row 0 is [0, 1, 0, 1, ...]. *)
Theorem getPositionEncoding_closed_form (seq_len d : Z)
    (Hlen : (0 < seq_len)%Z) (Hd : (0 < d)%Z) (Heven : Z.even d = true) :
  exists P,
    utils.getPositionEncoding seq_len d utils.n_default = Ok P /\
    shape P = [Z.to_nat seq_len; Z.to_nat d] /\
    (forall k i : Z, (0 <= k < seq_len)%Z -> (0 <= i < d / 2)%Z ->
       data P [Z.to_nat k; Z.to_nat (2 * i)] =
         Rtrigo_def.sin (IZR k / Rpower 10000 (2 * IZR i / IZR d)) /\
       data P [Z.to_nat k; Z.to_nat (2 * i + 1)] =
         Rtrigo_def.cos (IZR k / Rpower 10000 (2 * IZR i / IZR d))) /\
    (forall j : nat, j < Z.to_nat d ->
       data P [0; j] = if Nat.even j then 0%R else 1%R).
Proof.
  destruct (getPositionEncoding_inv utils.n_default (Z.to_nat seq_len)
              (Z.to_nat d)) as [P [E [Hs Hdat]]].
  rewrite !Z2Nat.id in E by lia.
  apply Z.even_spec in Heven. destruct Heven as [q Hq].
  assert (Hhalf : Z.to_nat d / 2 = Z.to_nat q).
  { subst d. replace (Z.to_nat (2 * q)) with (2 * Z.to_nat q) by lia.
    apply half_double. }
  assert (Hdq : (d / 2 = q)%Z).
  { subst d. rewrite Z.mul_comm. apply Z.div_mul. lia. }
  exists P. split; [assumption |]. split; [assumption |]. split.
  - intros k i Hk Hi.
    assert (Hrow : (Z.to_nat k <? Z.to_nat seq_len) = true)
      by (apply Nat.ltb_lt; lia).
    replace (Z.to_nat (2 * i)) with (2 * Z.to_nat i) by lia.
    replace (Z.to_nat (2 * i + 1)) with (2 * Z.to_nat i + 1) by lia.
    rewrite !Hdat. unfold pe_rows. rewrite Hrow, Hhalf.
    destruct (Nat.ltb_spec (2 * Z.to_nat i) (2 * Z.to_nat q)); [| lia].
    destruct (Nat.ltb_spec (2 * Z.to_nat i + 1) (2 * Z.to_nat q)); [| lia].
    cbn [andb]. unfold pe_entry.
    rewrite even_double, even_double_succ, half_double, half_double_succ.
    rewrite !Z2Nat.id by lia. split; reflexivity.
  - intros j Hj. rewrite Hdat. unfold pe_rows.
    destruct (Nat.ltb_spec 0 (Z.to_nat seq_len)); [| lia].
    destruct (Nat.ltb_spec j (2 * (Z.to_nat d / 2))); [| lia].
    cbn [andb]. unfold pe_entry. cbn [Z.of_nat].
    unfold Rdiv at 1 3. rewrite Rmult_0_l.
    destruct (Nat.even j); [apply sin_0 | apply cos_0].
Qed.

Lemma getPositionEncoding_closed_form_witness :
  exists P,
    utils.getPositionEncoding 5 4 utils.n_default = Ok P /\
    shape P = [5; 4] /\
    (forall k i : Z, (0 <= k < 5)%Z -> (0 <= i < 4 / 2)%Z ->
       data P [Z.to_nat k; Z.to_nat (2 * i)] =
         Rtrigo_def.sin (IZR k / Rpower 10000 (2 * IZR i / IZR 4)) /\
       data P [Z.to_nat k; Z.to_nat (2 * i + 1)] =
         Rtrigo_def.cos (IZR k / Rpower 10000 (2 * IZR i / IZR 4))) /\
    (forall j : nat, j < 4 ->
       data P [0; j] = if Nat.even j then 0%R else 1%R).
Proof.
  apply (getPositionEncoding_closed_form 5%Z 4%Z); reflexivity.
Defined.

(** ** Constructors *)

Lemma Linear_init_ok (i o : Z) (g : Generator) :
  (0 <= i)%Z -> (0 <= o)%Z ->
  exists l,
    nn.Linear.__init__ i o g = Ok (l, advance (advance g)) /\
    Linear_wf (Z.to_nat i) (Z.to_nat o) l /\
    nn.Linear.in_features l = i /\ nn.Linear.out_features l = o.
Proof.
  intros Hi Ho. unfold nn.Linear.__init__.
  destruct (Z.ltb_spec i 0); [lia |].
  destruct (Z.ltb_spec o 0); [lia |]. cbn [orb].
  eexists. split; [reflexivity |]. repeat split.
Qed.

Lemma Linear_init_raise (i o : Z) (g : Generator) :
  (i < 0 \/ o < 0)%Z ->
  nn.Linear.__init__ i o g = Raise nn.negative_dimension.
Proof.
  intros H. unfold nn.Linear.__init__.
  destruct (Z.ltb_spec i 0); [reflexivity |].
  destruct (Z.ltb_spec o 0); [reflexivity | lia].
Qed.

Lemma Dropout_init_ok (p : prob) (g : Generator) :
  (0 <= p)%Q -> (p <= 1)%Q ->
  nn.Dropout.__init__ p g = Ok (nn.Dropout.mk p true, g).
Proof.
  intros H0 H1. unfold nn.Dropout.__init__.
  apply Qle_bool_iff in H0. apply Qle_bool_iff in H1.
  rewrite H0, H1. reflexivity.
Qed.

Lemma Seq_wf_app (i m o : nat) (l1 l2 : list nn.Layer) :
  Seq_wf i m l1 -> Seq_wf m o l2 -> Seq_wf i o (l1 ++ l2).
Proof.
  intros H1 H2. induction H1; simpl.
  - assumption.
  - eapply Seq_linear; eauto.
  - apply Seq_relu; auto.
  - apply Seq_dropout; auto.
Qed.

(** An invariant for a loop in the generator monad. *)
Lemma mfor_inv (I S : Type) (Inv : nat -> S -> Prop)
    (body : I -> S -> M S) (l : list I) (a : nat) (s0 : S) (g : Generator) :
  Inv a s0 ->
  (forall k i s g, Inv k s ->
     exists s' g', body i s g = Ok (s', g') /\ Inv (Datatypes.S k) s') ->
  exists s' g', mfor l body s0 g = Ok (s', g') /\ Inv (a + length l) s'.
Proof.
  intros H0 Hstep. revert a s0 g H0.
  induction l as [| i l IH]; intros a s0 g H0; simpl.
  - exists s0, g. rewrite Nat.add_0_r. auto.
  - destruct (Hstep a i s0 g H0) as [s1 [g1 [E1 I1]]].
    bind_step E1.
    destruct (IH (Datatypes.S a) s1 g1 I1) as [s2 [g2 [E2 I2]]].
    exists s2, g2. split; [assumption |].
    replace (a + Datatypes.S (length l)) with (Datatypes.S a + length l) by lia.
    assumption.
Qed.

Lemma length_range (n : Z) : length (range n) = Z.to_nat n.
Proof. unfold range. rewrite length_map, length_seq. reflexivity. Qed.

Lemma FFN_init_ok (input_size hidden_size output_size num_layers : Z)
    (dropout_p : prob) (g : Generator) :
  (0 <= input_size)%Z -> (0 <= hidden_size)%Z -> (0 <= output_size)%Z ->
  (0 <= dropout_p)%Q -> (dropout_p <= 1)%Q ->
  exists f g',
    FFN.__init__ input_size hidden_size output_size num_layers dropout_p g
      = Ok (f, g') /\
    Seq_wf (Z.to_nat input_size) (Z.to_nat output_size) (FFN.ffn f).
Proof.
  intros Hi Hh Ho Hp0 Hp1. unfold FFN.__init__.
  destruct (Linear_init_ok _ _ g Hi Hh) as [l1 [E1 [W1 _]]].
  bind_step E1.
  erewrite bind_ok by (apply Dropout_init_ok; assumption).
  match goal with
  | |- context [mfor ?l ?body ?s0] =>
      destruct (@mfor_inv Z (list nn.Layer)
        (fun _ layers => Seq_wf (Z.to_nat input_size) (Z.to_nat hidden_size) layers)
        body l 0 s0 (advance (advance g))) as [layers [g1 [E2 W2]]]
  end.
  - simpl. eapply Seq_linear; [exact W1 |].
    apply Seq_relu, Seq_dropout, Seq_nil.
  - intros _ _ s g0 Hs.
    destruct (Linear_init_ok _ _ g0 Hh Hh) as [l [El [Wl _]]].
    bind_step El.
    erewrite bind_ok by (apply Dropout_init_ok; assumption).
    eexists. eexists. split; [reflexivity |].
    rewrite <- !app_assoc. apply (Seq_wf_app _ _ _ _ _ Hs). simpl.
    eapply Seq_linear; [exact Wl |]. apply Seq_relu, Seq_dropout, Seq_nil.
  - bind_step E2.
    destruct (Linear_init_ok _ _ g1 Hh Ho) as [l2 [E3 [W3 _]]].
    bind_step E3.
    eexists. eexists. split; [reflexivity |]. simpl.
    apply (Seq_wf_app _ _ _ _ _ W2). eapply Seq_linear; [exact W3 | apply Seq_nil].
Qed.

(** C10: for every num_layers <= 2 (zero and negative values included)
    FFN construction succeeds and builds the network of num_layers = 2:
    Linear(input_size, hidden_size), ReLU, Dropout,
    Linear(hidden_size, output_size); the loop over
    range(num_layers - 2) does not run. *)
Theorem FFN_init_at_most_two_layers
    (input_size hidden_size output_size num_layers : Z)
    (dropout_p : prob) (g : Generator)
    (Hnl : (num_layers <= 2)%Z)
    (Hi : (0 <= input_size)%Z) (Hh : (0 <= hidden_size)%Z)
    (Ho : (0 <= output_size)%Z)
    (Hp0 : (0 <= dropout_p)%Q) (Hp1 : (dropout_p <= 1)%Q) :
  range (num_layers - 2) = [] /\
  exists f g',
    FFN.__init__ input_size hidden_size output_size num_layers dropout_p g
      = Ok (f, g') /\
    FFN.__init__ input_size hidden_size output_size 2 dropout_p g
      = Ok (f, g') /\
    architecture f =
      [KLinear input_size hidden_size; KReLU; KDropout dropout_p;
       KLinear hidden_size output_size].
Proof.
  assert (Hr : range (num_layers - 2) = []) by (apply range_nonpos; lia).
  split; [assumption |].
  assert (Heq :
    FFN.__init__ input_size hidden_size output_size num_layers dropout_p g =
    FFN.__init__ input_size hidden_size output_size 2 dropout_p g).
  { unfold FFN.__init__. rewrite Hr. reflexivity. }
  rewrite Heq. clear Heq.
  cut (exists f g',
    FFN.__init__ input_size hidden_size output_size 2 dropout_p g
      = Ok (f, g') /\
    architecture f =
      [KLinear input_size hidden_size; KReLU; KDropout dropout_p;
       KLinear hidden_size output_size]).
  { intros [f [g' [E A]]]. exists f, g'. auto. }
  unfold FFN.__init__. change (range (2 - 2)) with (@nil Z).
  destruct (Linear_init_ok _ _ g Hi Hh) as [l1 [E1 [_ [I1 O1]]]].
  bind_step E1.
  erewrite bind_ok by (apply Dropout_init_ok; assumption).
  cbn [mfor]. unfold bind at 1, ret at 1.
  destruct (Linear_init_ok _ _ (advance (advance g)) Hh Ho) as [l2 [E2 [_ [I2 O2]]]].
  bind_step E2.
  eexists. eexists. split; [reflexivity |].
  unfold architecture. simpl. rewrite I1, O1, I2, O2. reflexivity.
Qed.

Lemma FFN_init_at_most_two_layers_witness :
  range (0 - 2) = [] /\
  exists f g',
    FFN.__init__ 16 512 16 0 (1 # 10)%Q ones_generator = Ok (f, g') /\
    FFN.__init__ 16 512 16 2 (1 # 10)%Q ones_generator = Ok (f, g') /\
    architecture f =
      [KLinear 16 512; KReLU; KDropout (1 # 10)%Q; KLinear 512 16].
Proof.
  apply (FFN_init_at_most_two_layers 16 512 16 0 (1 # 10)%Q ones_generator);
    try lia; unfold Qle; simpl; lia.
Defined.

Lemma Head_init_ok (d : Z) (g : Generator) :
  (0 <= d)%Z ->
  exists h g',
    AttentionHead.__init__ d d d g = Ok (h, g') /\ Head_wf (Z.to_nat d) h.
Proof.
  intros Hd. unfold AttentionHead.__init__.
  destruct (Linear_init_ok d d g Hd Hd) as [q [Eq [Wq _]]]. bind_step Eq.
  destruct (Linear_init_ok d d (advance (advance g)) Hd Hd) as [k [Ek [Wk _]]].
  bind_step Ek.
  destruct (Linear_init_ok d d (advance (advance (advance (advance g)))) Hd Hd)
    as [v [Ev [Wv _]]].
  bind_step Ev.
  eexists. eexists. split; [reflexivity |]. repeat split; simpl;
    first [apply Wq | apply Wk | apply Wv].
Qed.

Lemma Forall_snoc (A : Type) (P : A -> Prop) (l : list A) (a : A) :
  Forall P l -> P a -> Forall P (l ++ [a]).
Proof.
  intros Hl Ha. apply Forall_app. split; [assumption | constructor; auto].
Qed.

Lemma MHA_init_ok (d num_heads : Z) (g : Generator) :
  (0 <= d)%Z -> (1 <= num_heads)%Z ->
  exists m g',
    MultiHeadAttention.__init__ d d d num_heads g = Ok (m, g') /\
    MHA_wf (Z.to_nat d) m /\
    length (MultiHeadAttention.attention_heads m) = Z.to_nat num_heads.
Proof.
  intros Hd Hh. unfold MultiHeadAttention.__init__.
  destruct (Linear_init_ok (num_heads * d) d g) as [l [El [Wl _]]];
    [lia | lia |].
  bind_step El.
  match goal with
  | |- context [mfor ?l ?body ?s0] =>
      destruct (mfor_inv Z (list AttentionHead.t)
        (fun k heads => length heads = k /\ Forall (Head_wf (Z.to_nat d)) heads)
        body l 0 s0 (advance (advance g))) as [heads [g1 [E [Hlen Hall]]]]
  end.
  - split; [reflexivity | constructor].
  - intros k _ s g0 [Hk Hs].
    destruct (Head_init_ok d g0 Hd) as [h [g2 [Eh Wh]]]. bind_step Eh.
    eexists. eexists. split; [reflexivity |]. split.
    + rewrite length_app. simpl. lia.
    + apply Forall_snoc; assumption.
  - bind_step E. rewrite length_range in Hlen. simpl in Hlen.
    eexists. eexists. split; [reflexivity |]. simpl.
    split; [| assumption]. unfold MHA_wf. simpl.
    split; [| split; [assumption |]].
    + intros ->. simpl in Hlen. lia.
    + rewrite Hlen, <- Z2Nat.inj_mul by lia. exact Wl.
Qed.

Lemma LayerNorm_init_ok (V : Z) (g : Generator) :
  (0 <= V)%Z ->
  exists ln,
    nn.LayerNorm.__init__ V g = Ok (ln, g) /\ LayerNorm_wf (Z.to_nat V) ln.
Proof.
  intros HV. unfold nn.LayerNorm.__init__, torch.ones, torch.zeros. simpl.
  destruct (Z.leb_spec 0 V); [| lia]. simpl.
  eexists. split; [reflexivity |]. reflexivity.
Qed.

Lemma Block_init_ok (d num_heads hidden_size num_layers : Z)
    (dropout_p : prob) (g : Generator) :
  (0 <= d)%Z -> (1 <= num_heads)%Z -> (0 <= hidden_size)%Z ->
  (0 <= dropout_p)%Q -> (dropout_p <= 1)%Q ->
  exists b g',
    EncoderBlock.__init__ d d d num_heads hidden_size num_layers dropout_p g
      = Ok (b, g') /\
    Block_wf (Z.to_nat d) b /\
    length (MultiHeadAttention.attention_heads
              (EncoderBlock.multi_head_attention b)) = Z.to_nat num_heads.
Proof.
  intros Hd Hh Hhid Hp0 Hp1. unfold EncoderBlock.__init__.
  destruct (FFN_init_ok d hidden_size d num_layers dropout_p g Hd Hhid Hd Hp0 Hp1)
    as [f [g1 [Ef Wf]]].
  bind_step Ef.
  destruct (MHA_init_ok d num_heads g1 Hd Hh) as [m [g2 [Em [Wm Lm]]]].
  bind_step Em.
  destruct (LayerNorm_init_ok d g2 Hd) as [ln1 [E1 W1]]. bind_step E1.
  destruct (LayerNorm_init_ok d g2 Hd) as [ln2 [E2 W2]]. bind_step E2.
  eexists. eexists. split; [reflexivity |]. split; [| exact Lm].
  repeat split; simpl; first [exact Wf | apply Wm | exact W1 | exact W2].
Qed.

Lemma Encoder_init_ok (d num_heads num_encoder max_len hidden_size num_layers : Z)
    (dropout_p : prob) (g : Generator) :
  (0 <= d)%Z -> (1 <= num_heads)%Z -> (0 <= max_len)%Z ->
  (0 <= hidden_size)%Z -> (0 <= dropout_p)%Q -> (dropout_p <= 1)%Q ->
  exists e g',
    Encoder.__init__ d d d num_heads num_encoder max_len hidden_size
      num_layers dropout_p g = Ok (e, g') /\
    Encoder_wf (Z.to_nat max_len) (Z.to_nat d) e /\
    Encoder.num_encoder e = num_encoder /\
    utils.getPositionEncoding max_len d utils.n_default
      = Ok (Encoder.pos_encoding e) /\
    Encoder.attention_mask e = None.
Proof.
  intros Hd Hh HL Hhid Hp0 Hp1. unfold Encoder.__init__.
  match goal with
  | |- context [mfor ?l ?body ?s0] =>
      destruct (mfor_inv Z (list EncoderBlock.t)
        (fun k blocks => length blocks = k /\ Forall (Block_wf (Z.to_nat d)) blocks)
        body l 0 s0 g) as [blocks [g1 [E [Hlen Hall]]]]
  end.
  - split; [reflexivity | constructor].
  - intros k _ s g0 [Hk Hs].
    destruct (Block_init_ok d num_heads hidden_size num_layers dropout_p g0
                Hd Hh Hhid Hp0 Hp1) as [b [g2 [Eb [Wb _]]]].
    bind_step Eb.
    eexists. eexists. split; [reflexivity |]. split.
    + rewrite length_app. simpl. lia.
    + apply Forall_snoc; assumption.
  - bind_step E. rewrite length_range in Hlen. simpl in Hlen.
    destruct (getPositionEncoding_inv utils.n_default (Z.to_nat max_len)
                (Z.to_nat d)) as [P [EP [HsP _]]].
    rewrite !Z2Nat.id in EP by lia.
    rewrite EP. unfold bind at 1, lift at 1.
    eexists. eexists. split; [reflexivity |]. simpl.
    repeat split; assumption.
Qed.

(** ** Shape rules of the tensor operations *)

Lemma broadcast_rev_refl (s : list nat) : torch.broadcast_rev s s = Some s.
Proof.
  induction s as [| x s IH]; simpl; [reflexivity |].
  rewrite IH, Nat.eqb_refl. reflexivity.
Qed.

Lemma broadcast_shapes_refl (s : list nat) : torch.broadcast_shapes s s = Some s.
Proof.
  unfold torch.broadcast_shapes. rewrite broadcast_rev_refl. simpl.
  rewrite rev_involutive. reflexivity.
Qed.

Lemma broadcast_shapes_scalar (s : list nat) : torch.broadcast_shapes s [] = Some s.
Proof.
  unfold torch.broadcast_shapes. cbn [rev].
  assert (H : torch.broadcast_rev (rev s) [] = Some (rev s))
    by (destruct (rev s); reflexivity).
  rewrite H. cbn [option_map]. rewrite rev_involutive. reflexivity.
Qed.

Lemma add_same_shape (a b : Tensor) :
  shape a = shape b ->
  exists c, torch.add a b = Ok c /\ shape c = shape a.
Proof.
  intros H. unfold torch.add, torch.pointwise2.
  rewrite <- H, broadcast_shapes_refl. eexists. split; reflexivity.
Qed.

Lemma div_scalar (a b : Tensor) :
  shape b = [] ->
  torch.div a b =
    Ok (mkTensor (shape a) (fun idx =>
          (data a (torch.expand_index (shape a) idx) / data b [])%R)).
Proof.
  intros H. unfold torch.div, torch.pointwise2.
  rewrite H, broadcast_shapes_scalar. reflexivity.
Qed.

Lemma linear_2d (l : nn.Linear.t) (i o n : nat) (x : Tensor) :
  Linear_wf i o l -> shape x = [n; i] ->
  nn.Linear.forward l x =
    Ok (mkTensor [n; o] (fun idx =>
          (rsum i (fun k => data x (removelast idx ++ [k]) *
                            data (nn.Linear.weight l) [last idx 0%nat; k])
           + data (nn.Linear.bias l) [last idx 0%nat])%R)).
Proof.
  intros [Hw _] Hx. unfold nn.Linear.forward, torch.linear.
  rewrite Hw, Hx. simpl. rewrite Nat.eqb_refl. reflexivity.
Qed.

Lemma transpose_2d (t : Tensor) (n d : nat) :
  shape t = [n; d] ->
  torch.transpose t 1 0 =
    Ok (mkTensor [d; n] (fun idx => data t (torch.swap idx 1 0))).
Proof.
  intros H. unfold torch.transpose, rank. rewrite H. reflexivity.
Qed.

Lemma matmul_2d (a b : Tensor) (n k m : nat) :
  shape a = [n; k] -> shape b = [k; m] ->
  torch.matmul a b =
    Ok (mkTensor [n; m] (fun idx =>
          rsum k (fun c => data a [nth 0 idx 0%nat; c] *
                           data b [c; nth 1 idx 0%nat])%R)).
Proof.
  intros Ha Hb. unfold torch.matmul. rewrite Ha, Hb. simpl.
  rewrite Nat.eqb_refl. reflexivity.
Qed.

Lemma layer_norm_2d (ln : nn.LayerNorm.t) (x : Tensor) (n d : nat) :
  LayerNorm_wf d ln -> shape x = [n; d] ->
  exists y, nn.LayerNorm.forward ln x = Ok y /\ shape y = [n; d].
Proof.
  intros Hln Hx. unfold nn.LayerNorm.forward, torch.layer_norm.
  rewrite Hx. simpl. rewrite Hln, Nat.eqb_refl.
  eexists. split; [reflexivity |]. simpl. first [assumption | reflexivity].
Qed.

Lemma Sequential_forward_2d (layers : list nn.Layer) (i o : nat) :
  Seq_wf i o layers ->
  forall (x : Tensor) (n : nat) (g : Generator),
    shape x = [n; i] ->
    exists y g', nn.Sequential.forward layers x g = Ok (y, g') /\ shape y = [n; o].
Proof.
  unfold nn.Sequential.forward.
  induction 1 as [i | i h o l rest Hl _ IH | i o rest _ IH | i o d rest _ IH];
    intros x n g Hx; simpl.
  - exists x, g. auto.
  - unfold bind at 1, lift. rewrite (linear_2d l i h n x Hl Hx).
    apply IH. reflexivity.
  - unfold bind at 1, ret at 1. apply IH. exact Hx.
  - unfold bind at 1, nn.Dropout.forward.
    destruct (nn.Dropout.training d).
    + apply IH. exact Hx.
    + unfold ret at 1. apply IH. exact Hx.
Qed.

(** ** The attention head *)

Lemma rsum_ext (n : nat) (f g : nat -> R) :
  (forall c, c < n -> f c = g c) -> rsum n f = rsum n g.
Proof.
  induction n as [| n IH]; intros H; simpl; [reflexivity |].
  rewrite IH, H by auto. reflexivity.
Qed.

Lemma expand_index_2 (n m i c : nat) :
  i < n -> c < m -> torch.expand_index [n; m] [i; c] = [i; c].
Proof.
  intros Hi Hc. unfold torch.expand_index. simpl.
  destruct (Nat.eqb_spec n 1), (Nat.eqb_spec m 1); repeat f_equal; lia.
Qed.

Lemma head_q_k_softmax_entries (h : AttentionHead.t) (n d : nat) (x : Tensor) :
  Head_wf d h -> shape x = [n; d] ->
  exists w,
    AttentionHead.q_k_softmax h x = Ok w /\
    shape w = [n; n] /\
    forall i c, i < n -> c < n -> data w [i; c] = code_weight h n d x i c.
Proof.
  intros [Wq [Wk Wv]] Hx. unfold AttentionHead.q_k_softmax.
  rewrite (linear_2d _ d d n x Wq Hx), (linear_2d _ d d n x Wk Hx),
    (linear_2d _ d d n x Wv Hx).
  cbn [rbind].
  erewrite transpose_2d by reflexivity. cbn [rbind].
  erewrite matmul_2d by reflexivity. cbn [rbind].
  unfold torch.shape_at. cbn [shape nth_error rbind].
  rewrite div_scalar by reflexivity.
  eexists. split; [reflexivity |]. split; [reflexivity |].
  intros i c Hi Hc. cbn [data shape torch.softmax torch.softmax_dim rank length
    torch._get_softmax_dim Nat.eqb orb nth torch.sqrt torch.pointwise1 torch.tensor].
  rewrite expand_index_2 by assumption. reflexivity.
Qed.

Lemma head_forward_entries (h : AttentionHead.t) (n d : nat) (x : Tensor) :
  Head_wf d h -> shape x = [n; d] ->
  exists z,
    AttentionHead.forward h x = Ok z /\
    shape z = [n; d] /\
    forall i j, i < n -> j < d ->
      data z [i; j] =
        rsum n (fun c => code_weight h n d x i c *
                         linear_entry (AttentionHead.V h) d x c j)%R.
Proof.
  intros [Wq [Wk Wv]] Hx. unfold AttentionHead.forward.
  rewrite (linear_2d _ d d n x Wq Hx), (linear_2d _ d d n x Wk Hx),
    (linear_2d _ d d n x Wv Hx).
  cbn [rbind].
  erewrite transpose_2d by reflexivity. cbn [rbind].
  erewrite matmul_2d by reflexivity. cbn [rbind].
  unfold torch.shape_at. cbn [shape nth_error rbind].
  rewrite div_scalar by reflexivity. cbn [rbind].
  erewrite matmul_2d by reflexivity. cbn [rbind].
  eexists. split; [reflexivity |]. split; [reflexivity |].
  intros i j Hi Hj. cbn [data nth]. apply rsum_ext. intros c Hc.
  cbn [data shape torch.softmax torch.softmax_dim rank length
    torch._get_softmax_dim Nat.eqb orb nth torch.sqrt torch.pointwise1 torch.tensor].
  rewrite expand_index_2 by assumption. reflexivity.
Qed.

(** [forward] multiplies the matrix bound to [q_k_softmax] by [v]. *)
Lemma head_forward_uses_q_k_softmax (h : AttentionHead.t) (x : Tensor) :
  AttentionHead.forward h x =
    rbind (AttentionHead.q_k_softmax h x) (fun w =>
    rbind (nn.Linear.forward (AttentionHead.V h) x) (fun v =>
      torch.matmul w v)).
Proof.
  unfold AttentionHead.forward, AttentionHead.q_k_softmax.
  destruct (nn.Linear.forward (AttentionHead.Q h) x) as [q |]; [| reflexivity].
  cbn [rbind].
  destruct (nn.Linear.forward (AttentionHead.K h) x) as [k |]; [| reflexivity].
  cbn [rbind].
  destruct (nn.Linear.forward (AttentionHead.V h) x) as [v |]; [| reflexivity].
  cbn [rbind].
  destruct (torch.transpose k 1 0) as [kt |]; [| reflexivity]. cbn [rbind].
  destruct (torch.matmul q kt) as [qk |]; [| reflexivity]. cbn [rbind].
  destruct (torch.shape_at k 1) as [d |]; [| reflexivity]. cbn [rbind].
  destruct (torch.div _ _) as [w |]; [| reflexivity]. cbn [rbind].
  destruct (torch.matmul w v); reflexivity.
Qed.

Lemma spec_attention_entries (h : AttentionHead.t) (n d : nat) (x : Tensor) :
  Head_wf d h -> shape x = [n; d] ->
  exists z,
    Spec.scaled_dot_product_attention h x = Ok z /\
    shape z = [n; d] /\
    forall i j, i < n -> j < d ->
      data z [i; j] =
        rsum n (fun c => spec_weight h n d x i c *
                         linear_entry (AttentionHead.V h) d x c j)%R.
Proof.
  intros [Wq [Wk Wv]] Hx. unfold Spec.scaled_dot_product_attention.
  rewrite (linear_2d _ d d n x Wq Hx), (linear_2d _ d d n x Wk Hx),
    (linear_2d _ d d n x Wv Hx).
  cbn [rbind].
  erewrite transpose_2d by reflexivity. cbn [rbind].
  erewrite matmul_2d by reflexivity. cbn [rbind].
  unfold torch.shape_at. cbn [shape nth_error rbind].
  rewrite div_scalar by reflexivity. cbn [rbind].
  erewrite matmul_2d by reflexivity.
  eexists. split; [reflexivity |]. split; [reflexivity |].
  intros i j Hi Hj. cbn [data nth]. apply rsum_ext. intros c Hc.
  f_equal. unfold spec_weight, softmax_row.
  cbn [data shape torch.softmax_dim nth set_nth torch.sqrt torch.pointwise1
    torch.tensor].
  rewrite expand_index_2 by assumption. f_equal.
  apply rsum_ext. intros c' Hc'.
  rewrite expand_index_2 by assumption. reflexivity.
Qed.

(** Sums of softmax rows *)

Lemma rsum_div (n : nat) (f : nat -> R) (a : R) :
  rsum n (fun c => f c / a)%R = (rsum n f / a)%R.
Proof.
  induction n as [| n IH]; simpl.
  - unfold Rdiv. rewrite Rmult_0_l. reflexivity.
  - rewrite IH. unfold Rdiv. rewrite Rmult_plus_distr_r. reflexivity.
Qed.

Lemma rsum_pos (n : nat) (f : nat -> R) :
  0 < n -> (forall c, (0 < f c)%R) -> (0 < rsum n f)%R.
Proof.
  intros Hn Hf. destruct n as [| n]; [lia |]. clear Hn.
  induction n as [| n IH]; simpl.
  - rewrite Rplus_0_l. apply Hf.
  - simpl in IH. apply Rplus_lt_0_compat; [exact IH | apply Hf].
Qed.

Lemma softmax_row_sum (n : nat) (s : nat -> R) :
  0 < n -> rsum n (softmax_row n s) = 1%R.
Proof.
  intros Hn. unfold softmax_row.
  rewrite (rsum_div n (fun c => exp (s c))).
  apply Rdiv_diag. apply Rgt_not_eq, Rlt_gt.
  apply rsum_pos; [assumption |]. intros c. apply exp_pos.
Qed.

Lemma code_weight_row_sum (h : AttentionHead.t) (n d : nat) (x : Tensor) (i : nat) :
  0 < n ->
  rsum n (code_weight h n d x i) = (1 / sqrt (INR d))%R.
Proof.
  intros Hn. unfold code_weight.
  rewrite (rsum_div n (softmax_row n (similarity h d x i))).
  rewrite softmax_row_sum by assumption. reflexivity.
Qed.

Lemma spec_weight_row_sum (h : AttentionHead.t) (n d : nat) (x : Tensor) (i : nat) :
  0 < n -> rsum n (spec_weight h n d x i) = 1%R.
Proof. intros Hn. unfold spec_weight. apply softmax_row_sum. assumption. Qed.

(** For every well-shaped head and every non-empty input of width d, each
    row of the weight matrix that multiplies [v] sums to 1 / sqrt(d). *)
Lemma q_k_softmax_row_sums (h : AttentionHead.t) (n d : nat) (x : Tensor) :
  Head_wf d h -> shape x = [n; d] -> 0 < n ->
  exists w,
    AttentionHead.q_k_softmax h x = Ok w /\
    shape w = [n; n] /\
    forall i, i < n -> row_sum w i = (1 / sqrt (INR d))%R.
Proof.
  intros Wh Hx Hn.
  destruct (head_q_k_softmax_entries h n d x Wh Hx) as [w [E [Hs Hd]]].
  exists w. split; [assumption |]. split; [assumption |].
  intros i Hi. unfold row_sum. rewrite Hs. cbn [nth].
  rewrite <- (code_weight_row_sum h n d x i Hn).
  apply rsum_ext. intros c Hc. apply Hd; assumption.
Qed.

Lemma sqrt_INR_4 : sqrt (INR 4) = 2%R.
Proof.
  replace (INR 4) with (2 * 2)%R by (simpl; ring).
  apply sqrt_square. lra.
Qed.

Lemma ones_head_init :
  exists g', AttentionHead.__init__ 4 4 4 ones_generator = Ok (ones_head, g').
Proof. eexists. reflexivity. Qed.

Lemma ones_head_wf : Head_wf 4 ones_head.
Proof. repeat split. Qed.

Lemma ones_head_value (c j : nat) :
  linear_entry (AttentionHead.V ones_head) 4 (ones_tensor [2; 4]) c j = 5%R.
Proof. unfold linear_entry. simpl. ring. Qed.

(** C1, at the input x = ones(2, 4) and the head AttentionHead(4, 4, 4)
    whose parameters are all 1: forward returns 5/2 at entry (0, 0), the
    formula softmax(Q K^T / sqrt(d_k)) V gives 5.  The code divides by
    sqrt(d_k) after the softmax. *)
Theorem attention_head_divides_after_softmax :
  (exists g', AttentionHead.__init__ 4 4 4 ones_generator = Ok (ones_head, g')) /\
  exists z z',
    AttentionHead.forward ones_head (ones_tensor [2; 4]) = Ok z /\
    Spec.scaled_dot_product_attention ones_head (ones_tensor [2; 4]) = Ok z' /\
    data z [0; 0] = (5 / 2)%R /\
    data z' [0; 0] = 5%R.
Proof.
  split; [exact ones_head_init |].
  destruct (head_forward_entries ones_head 2 4 (ones_tensor [2; 4])
              ones_head_wf eq_refl) as [z [Ez [_ Hz]]].
  destruct (spec_attention_entries ones_head 2 4 (ones_tensor [2; 4])
              ones_head_wf eq_refl) as [z' [Ez' [_ Hz']]].
  exists z, z'. split; [assumption |]. split; [assumption |].
  rewrite Hz, Hz' by lia. cbn [rsum]. rewrite !ones_head_value.
  pose proof (code_weight_row_sum ones_head 2 4 (ones_tensor [2; 4]) 0) as Hc.
  pose proof (spec_weight_row_sum ones_head 2 4 (ones_tensor [2; 4]) 0) as Hs.
  cbn [rsum] in Hc, Hs. rewrite sqrt_INR_4 in Hc.
  specialize (Hc ltac:(lia)). specialize (Hs ltac:(lia)).
  split; lra.
Qed.

(** C3, at the same input: both rows of the weight matrix that multiplies
    v sum to 1/2, not to 1. *)
Theorem attention_weight_rows_sum_to_half :
  (exists g', AttentionHead.__init__ 4 4 4 ones_generator = Ok (ones_head, g')) /\
  exists w,
    AttentionHead.q_k_softmax ones_head (ones_tensor [2; 4]) = Ok w /\
    shape w = [2; 2] /\
    row_sum w 0 = (1 / 2)%R /\
    row_sum w 1 = (1 / 2)%R /\
    AttentionHead.forward ones_head (ones_tensor [2; 4]) =
      rbind (nn.Linear.forward (AttentionHead.V ones_head) (ones_tensor [2; 4]))
            (torch.matmul w).
Proof.
  split; [exact ones_head_init |].
  destruct (q_k_softmax_row_sums ones_head 2 4 (ones_tensor [2; 4])
              ones_head_wf eq_refl) as [w [E [Hs Hr]]]; [lia |].
  exists w. split; [assumption |]. split; [assumption |].
  rewrite sqrt_INR_4 in Hr.
  split; [apply Hr; lia |]. split; [apply Hr; lia |].
  rewrite head_forward_uses_q_k_softmax, E. reflexivity.
Qed.

(** ** Multi-head attention, the block and the stack on 2-D inputs *)

Lemma getitem_nth (A : Type) (l : list A) (k : nat) (a : A) :
  nth_error l k = Some a -> getitem l (Z.of_nat k) = Ok a.
Proof. intros H. unfold getitem. rewrite Nat2Z.id, H. reflexivity. Qed.

Lemma cat_data_shape (ts : list Tensor) (n d : nat) :
  Forall (fun t => shape t = [n; d]) ts ->
  fold_right (fun t acc => nth 1 (shape t) 0 + acc) 0 ts = length ts * d.
Proof.
  induction 1 as [| t ts Ht _ IH]; simpl; [reflexivity |].
  rewrite IH, Ht. reflexivity.
Qed.

Lemma cat_2d (ts : list Tensor) (n d : nat) :
  ts <> [] -> Forall (fun t => shape t = [n; d]) ts ->
  exists c, torch.cat ts 1 = Ok c /\ shape c = [n; length ts * d].
Proof.
  intros Hne Hall. unfold torch.cat.
  destruct ts as [| t0 rest]; [contradiction |].
  pose proof (cat_data_shape _ n d Hall) as Hsum.
  inversion Hall as [| ? ? H0 Hrest]; subst.
  unfold rank. rewrite H0. cbn [length Nat.ltb Nat.leb].
  assert (Hsame :
    forallb (fun t => torch.same_except 1 [n; d] (shape t)) rest = true).
  { apply forallb_forall. intros t Hin.
    rewrite Forall_forall in Hrest. rewrite (Hrest t Hin).
    unfold torch.same_except, index_eqb.
    destruct (list_eq_dec Nat.eq_dec (set_nth [n; d] 1 0) (set_nth [n; d] 1 0));
      [reflexivity | contradiction]. }
  rewrite Hsame. eexists. split; [reflexivity |].
  cbn [shape]. rewrite Hsum. reflexivity.
Qed.

Lemma MHA_forward_2d (m : MultiHeadAttention.t) (n d : nat) (x : Tensor) :
  MHA_wf d m -> shape x = [n; d] ->
  exists z, MultiHeadAttention.forward m x = Ok z /\ shape z = [n; d].
Proof.
  intros [Hne [Hheads Hlin]] Hx. unfold MultiHeadAttention.forward.
  match goal with
  | |- context [for_each _ ?body ?s0] =>
      destruct (for_each_range_inv (list Tensor)
        (fun k z => length z = k /\ Forall (fun t => shape t = [n; d]) z)
        body (length (MultiHeadAttention.attention_heads m)) s0)
        as [zs [E [Hlen Hall]]]
  end.
  - split; [reflexivity | constructor].
  - intros k s Hk [Hs Hall].
    destruct (nth_error (MultiHeadAttention.attention_heads m) k) as [h |] eqn:En;
      [| apply nth_error_None in En; lia].
    rewrite (getitem_nth _ _ _ _ En). cbn [rbind].
    assert (Wh : Head_wf d h).
    { rewrite Forall_forall in Hheads. apply Hheads.
      eapply nth_error_In; eassumption. }
    destruct (head_forward_entries h n d x Wh Hx) as [z [Ez [Hz _]]].
    rewrite Ez. cbn [rbind]. eexists. split; [reflexivity |]. split.
    + rewrite length_app. simpl. lia.
    + apply Forall_snoc; assumption.
  - rewrite E. cbn [rbind].
    destruct (cat_2d zs n d) as [c [Ec Hc]]; [| assumption |].
    + intros ->. simpl in Hlen.
      destruct (MultiHeadAttention.attention_heads m); [contradiction | discriminate].
    + rewrite Ec. cbn [rbind]. rewrite Hlen in Hc.
      rewrite (linear_2d _ _ d n c Hlin Hc). cbn [rbind].
      eexists. split; reflexivity.
Qed.

Lemma Block_forward_2d (b : EncoderBlock.t) (n d : nat) (x : Tensor) (g : Generator) :
  Block_wf d b -> shape x = [n; d] ->
  exists z g', EncoderBlock.forward b x g = Ok (z, g') /\ shape z = [n; d].
Proof.
  intros [Wf [Wm [W1 W2]]] Hx. unfold EncoderBlock.forward.
  destruct (MHA_forward_2d _ n d x Wm Hx) as [z [Ez Hz]].
  rewrite Ez. unfold bind at 1, lift at 1.
  destruct (add_same_shape x z) as [xz [Exz Hxz]]; [congruence |].
  rewrite Exz. unfold bind at 1, lift at 1.
  destruct (layer_norm_2d _ xz n d W1) as [y [Ey Hy]]; [congruence |].
  rewrite Ey. unfold bind at 1, lift at 1.
  destruct (Sequential_forward_2d _ d d Wf y n g Hy) as [z1 [g1 [Ez1 Hz1]]].
  unfold FFN.forward. bind_step Ez1.
  destruct (add_same_shape y z1) as [yz [Eyz Hyz]]; [congruence |].
  rewrite Eyz. unfold bind at 1, lift at 1.
  destruct (layer_norm_2d _ yz n d W2) as [out [Eo Ho]]; [congruence |].
  rewrite Eo. unfold bind at 1, lift at 1.
  eexists. eexists. split; [reflexivity | assumption].
Qed.

(** Applying a list of blocks one after the other. *)
Lemma blocks_forward_2d (blocks : list EncoderBlock.t) (n d : nat) :
  Forall (Block_wf d) blocks ->
  forall (x : Tensor) (g : Generator),
    shape x = [n; d] ->
    exists z g', mfor blocks EncoderBlock.forward x g = Ok (z, g') /\
                 shape z = [n; d].
Proof.
  induction 1 as [| b blocks Hb _ IH]; intros x g Hx; simpl.
  - exists x, g. auto.
  - destruct (Block_forward_2d b n d x g Hb Hx) as [z [g1 [E Hz]]].
    bind_step E. apply IH. assumption.
Qed.

(** The loop of [Encoder.forward] visits the blocks in order, each once. *)
Lemma mfor_getitem (A S : Type) (f : A -> S -> M S) (l2 : list A) :
  forall (l1 : list A) (s : S) (g : Generator),
    mfor (map Z.of_nat (seq (length l1) (length l2)))
      (fun i z => bind (lift (getitem (l1 ++ l2) i)) (fun a => f a z)) s g
    = mfor l2 f s g.
Proof.
  induction l2 as [| a l2 IH]; intros l1 s g; simpl; [reflexivity |].
  assert (Ea : getitem (l1 ++ a :: l2) (Z.of_nat (length l1)) = Ok a).
  { apply getitem_nth. rewrite nth_error_app2, Nat.sub_diag by lia. reflexivity. }
  unfold bind at 1. unfold bind at 1. rewrite Ea. unfold lift at 1.
  unfold bind at 2. destruct (f a s g) as [[s1 g1] | e]; [| reflexivity].
  specialize (IH (l1 ++ [a]) s1 g1).
  rewrite length_app, Nat.add_1_r, <- app_assoc in IH. exact IH.
Qed.

Lemma Encoder_forward_unfold (e : Encoder.t) (x : Tensor) (g : Generator) :
  length (Encoder.multiencoder e) = Z.to_nat (Encoder.num_encoder e) ->
  Encoder.forward e x g =
    bind (lift (torch.add x (Encoder.pos_encoding e)))
         (mfor (Encoder.multiencoder e) EncoderBlock.forward) g.
Proof.
  intros Hlen. unfold Encoder.forward. apply bind_ext. intros z0 g0.
  rewrite bind_ret_r. unfold range. rewrite <- Hlen.
  exact (mfor_getitem _ _ EncoderBlock.forward (Encoder.multiencoder e)
           [] z0 g0).
Qed.

(** ** Encoder.forward on 2-D inputs *)

Lemma broadcast_rows (n L d : nat) :
  torch.broadcast_shapes [n; d] [L; d] =
    if n =? L then Some [n; d]
    else if n =? 1 then Some [L; d]
    else if L =? 1 then Some [n; d]
    else None.
Proof.
  unfold torch.broadcast_shapes. cbn [rev app torch.broadcast_rev].
  destruct (n =? L); [| destruct (n =? 1); [| destruct (L =? 1)]];
    cbn [option_map]; rewrite ?Nat.eqb_refl; reflexivity.
Qed.

Lemma Encoder_forward_raises (e : Encoder.t) (n L d : nat) (x : Tensor) (g : Generator) :
  shape (Encoder.pos_encoding e) = [L; d] -> shape x = [n; d] ->
  n <> L -> n <> 1 -> L <> 1 ->
  Encoder.forward e x g = Raise size_mismatch.
Proof.
  intros He Hx H1 H2 H3. unfold Encoder.forward.
  apply bind_raise. unfold lift, torch.add, torch.pointwise2.
  rewrite He, Hx, broadcast_rows.
  destruct (Nat.eqb_spec n L); [contradiction |].
  destruct (Nat.eqb_spec n 1); [contradiction |].
  destruct (Nat.eqb_spec L 1); [contradiction |]. reflexivity.
Qed.

Lemma Encoder_forward_ok (e : Encoder.t) (n L d m : nat) (x : Tensor) (g : Generator) :
  Encoder_wf L d e -> shape x = [n; d] ->
  torch.broadcast_shapes [n; d] [L; d] = Some [m; d] ->
  exists z g', Encoder.forward e x g = Ok (z, g') /\ shape z = [m; d].
Proof.
  intros [He [Hb Hlen]] Hx Hbr.
  rewrite (Encoder_forward_unfold e x g Hlen).
  unfold bind, lift, torch.add, torch.pointwise2. rewrite He, Hx, Hbr.
  apply blocks_forward_2d; [assumption | reflexivity].
Qed.

(** The case of equal lengths: when seq_len equals max_sequence_length (and
    is positive), Encoder.forward returns a tensor of the shape [seq_len, d]
    of its input; the result is obtained by adding the whole positional
    table to X once and then applying the N blocks one after the other,
    each once. *)
Theorem Encoder_forward_preserves_shape
    (d num_heads num_encoder max_len hidden_size num_layers : Z)
    (dropout_p : prob) (g : Generator)
    (Hd : (0 < d)%Z) (Hheads : (1 <= num_heads)%Z) (HL : (0 < max_len)%Z)
    (Hhid : (0 <= hidden_size)%Z)
    (Hp0 : (0 <= dropout_p)%Q) (Hp1 : (dropout_p <= 1)%Q) :
  exists e g',
    Encoder.__init__ d d d num_heads num_encoder max_len hidden_size
      num_layers dropout_p g = Ok (e, g') /\
    utils.getPositionEncoding max_len d utils.n_default
      = Ok (Encoder.pos_encoding e) /\
    length (Encoder.multiencoder e) = Z.to_nat num_encoder /\
    forall (x : Tensor) (g1 : Generator),
      shape x = [Z.to_nat max_len; Z.to_nat d] ->
      Encoder.forward e x g1 =
        bind (lift (torch.add x (Encoder.pos_encoding e)))
             (mfor (Encoder.multiencoder e) EncoderBlock.forward) g1 /\
      exists z g2, Encoder.forward e x g1 = Ok (z, g2) /\ shape z = shape x.
Proof.
  destruct (Encoder_init_ok d num_heads num_encoder max_len hidden_size
              num_layers dropout_p g) as [e [g' [E [W [HN [HP _]]]]]];
    try assumption; try lia.
  exists e, g'. split; [assumption |]. split; [assumption |].
  pose proof W as [He [Hb Hlen]].
  split; [rewrite Hlen, HN; reflexivity |].
  intros x g1 Hx. split; [apply Encoder_forward_unfold; assumption |].
  rewrite Hx.
  apply (Encoder_forward_ok e (Z.to_nat max_len) (Z.to_nat max_len) (Z.to_nat d));
    try assumption.
  rewrite broadcast_rows, Nat.eqb_refl. reflexivity.
Qed.

Lemma Encoder_forward_preserves_shape_witness :
  exists e g',
    Encoder.__init__ 16 16 16 2 2 8 32 4 (1 # 10)%Q ones_generator = Ok (e, g') /\
    utils.getPositionEncoding 8 16 utils.n_default
      = Ok (Encoder.pos_encoding e) /\
    length (Encoder.multiencoder e) = Z.to_nat 2 /\
    forall (x : Tensor) (g1 : Generator),
      shape x = [Z.to_nat 8; Z.to_nat 16] ->
      Encoder.forward e x g1 =
        bind (lift (torch.add x (Encoder.pos_encoding e)))
             (mfor (Encoder.multiencoder e) EncoderBlock.forward) g1 /\
      exists z g2, Encoder.forward e x g1 = Ok (z, g2) /\ shape z = shape x.
Proof.
  apply (Encoder_forward_preserves_shape 16 2 2 8 32 4 (1 # 10)%Q ones_generator);
    try lia; unfold Qle; simpl; lia.
Defined.

(** C2, at max_sequence_length 3: forward adds the positional table
    without slicing it to the length of the input, so an input of 2 rows
    is refused and an input of 1 row comes back with 3 rows, where the
    claim promises an output of the shape of the input. *)
Lemma Encoder_forward_shorter_input_fails :
  exists e g',
    Encoder.__init__ 2 2 2 1 1 3 4 2 (1 # 10)%Q ones_generator = Ok (e, g') /\
    Encoder.forward e (ones_tensor [2; 2]) g' = Raise size_mismatch /\
    exists z g2,
      Encoder.forward e (ones_tensor [1; 2]) g' = Ok (z, g2) /\
      shape z = [3; 2].
Proof.
  destruct (Encoder_init_ok 2 1 1 3 4 2 (1 # 10)%Q ones_generator)
    as [e [g' [E [W _]]]]; try lia; try (unfold Qle; simpl; lia).
  exists e, g'. split; [assumption |]. split.
  - apply (Encoder_forward_raises e 2 3 2); try lia; [apply W | reflexivity].
  - apply (Encoder_forward_ok e 1 3 2 3); [exact W | reflexivity | reflexivity].
Qed.

(** C6, amended: there is no bounds check.  For an input longer than
    max_sequence_length the addition x + pos_encoding fails to broadcast
    and raises, unless max_sequence_length is 1, in which case the single
    row of the table is added to every position and forward succeeds (or
    the input has one row and the table none, in which case the result is
    empty). *)
Theorem Encoder_forward_longer_input
    (d num_heads num_encoder max_len hidden_size num_layers : Z)
    (dropout_p : prob) (g : Generator)
    (Hd : (0 < d)%Z) (Hheads : (1 <= num_heads)%Z) (HL : (0 <= max_len)%Z)
    (Hhid : (0 <= hidden_size)%Z)
    (Hp0 : (0 <= dropout_p)%Q) (Hp1 : (dropout_p <= 1)%Q) :
  exists e g',
    Encoder.__init__ d d d num_heads num_encoder max_len hidden_size
      num_layers dropout_p g = Ok (e, g') /\
    forall (x : Tensor) (seq_len : nat) (g1 : Generator),
      shape x = [seq_len; Z.to_nat d] ->
      Z.to_nat max_len < seq_len ->
      (max_len <> 1%Z -> seq_len <> 1 ->
         torch.add x (Encoder.pos_encoding e) = Raise size_mismatch /\
         Encoder.forward e x g1 = Raise size_mismatch) /\
      (max_len = 1%Z ->
         exists z g2, Encoder.forward e x g1 = Ok (z, g2) /\ shape z = shape x) /\
      (seq_len = 1 ->
         exists z g2, Encoder.forward e x g1 = Ok (z, g2) /\
                      shape z = [0; Z.to_nat d]).
Proof.
  destruct (Encoder_init_ok d num_heads num_encoder max_len hidden_size
              num_layers dropout_p g) as [e [g' [E [W _]]]];
    try assumption; try lia.
  exists e, g'. split; [assumption |].
  intros x n g1 Hx Hn. pose proof W as [He _]. split; [| split].
  - intros HL1 Hn1. split.
    + unfold torch.add, torch.pointwise2. rewrite He, Hx, broadcast_rows.
      destruct (Nat.eqb_spec n (Z.to_nat max_len)); [lia |].
      destruct (Nat.eqb_spec n 1); [lia |].
      destruct (Nat.eqb_spec (Z.to_nat max_len) 1); [lia | reflexivity].
    + apply (Encoder_forward_raises e n (Z.to_nat max_len) (Z.to_nat d));
        try assumption; lia.
  - intros HL1. rewrite Hx.
    apply (Encoder_forward_ok e n (Z.to_nat max_len) (Z.to_nat d));
      try assumption.
    rewrite broadcast_rows. subst max_len.
    destruct (Nat.eqb_spec n (Z.to_nat 1)); [simpl in *; lia |].
    destruct (Nat.eqb_spec n 1); [simpl in *; lia | reflexivity].
  - intros Hn1. subst n.
    apply (Encoder_forward_ok e 1 (Z.to_nat max_len) (Z.to_nat d));
      try assumption.
    rewrite broadcast_rows. replace (Z.to_nat max_len) with 0 by lia.
    reflexivity.
Qed.

Lemma Encoder_forward_longer_input_witness :
  exists e g',
    Encoder.__init__ 16 16 16 2 2 8 32 4 (1 # 10)%Q ones_generator = Ok (e, g') /\
    forall (x : Tensor) (seq_len : nat) (g1 : Generator),
      shape x = [seq_len; Z.to_nat 16] ->
      Z.to_nat 8 < seq_len ->
      (8%Z <> 1%Z -> seq_len <> 1 ->
         torch.add x (Encoder.pos_encoding e) = Raise size_mismatch /\
         Encoder.forward e x g1 = Raise size_mismatch) /\
      (8%Z = 1%Z ->
         exists z g2, Encoder.forward e x g1 = Ok (z, g2) /\ shape z = shape x) /\
      (seq_len = 1 ->
         exists z g2, Encoder.forward e x g1 = Ok (z, g2) /\
                      shape z = [0; Z.to_nat 16]).
Proof.
  apply (Encoder_forward_longer_input 16 2 2 8 32 4 (1 # 10)%Q ones_generator);
    try lia; unfold Qle; simpl; lia.
Defined.

(** C6 fails when max_sequence_length is 1: an input of 2 rows is accepted
    and no error is raised. *)
Lemma Encoder_forward_longer_input_accepted :
  exists e g' z g2,
    Encoder.__init__ 2 2 2 1 1 1 4 2 (1 # 10)%Q ones_generator = Ok (e, g') /\
    shape (Encoder.pos_encoding e) = [1; 2] /\
    Encoder.forward e (ones_tensor [2; 2]) g' = Ok (z, g2) /\
    shape z = [2; 2].
Proof.
  destruct (Encoder_init_ok 2 1 1 1 4 2 (1 # 10)%Q ones_generator)
    as [e [g' [E [W _]]]]; try lia; try (unfold Qle; simpl; lia).
  destruct (Encoder_forward_ok e 2 1 2 2 (ones_tensor [2; 2]) g' W eq_refl eq_refl)
    as [z [g2 [Ez Hz]]].
  exists e, g', z, g2. split; [assumption |]. split; [apply W | auto].
Qed.

(** C8, amended: nothing in the forward computation tests for an empty
    sequence.  Encoder.forward refuses an input of zero rows only because
    the addition of the positional table fails to broadcast, which needs
    max_sequence_length >= 2; for max_sequence_length <= 1 it returns an
    empty tensor.  AttentionHead.forward maps an input of zero rows to an
    output of zero rows. *)
Theorem zero_length_input
    (d num_heads num_encoder max_len hidden_size num_layers : Z)
    (dropout_p : prob) (g : Generator)
    (Hd : (0 < d)%Z) (Hheads : (1 <= num_heads)%Z) (HL : (0 <= max_len)%Z)
    (Hhid : (0 <= hidden_size)%Z)
    (Hp0 : (0 <= dropout_p)%Q) (Hp1 : (dropout_p <= 1)%Q) :
  (exists e g',
     Encoder.__init__ d d d num_heads num_encoder max_len hidden_size
       num_layers dropout_p g = Ok (e, g') /\
     forall (x : Tensor) (g1 : Generator),
       shape x = [0; Z.to_nat d] ->
       ((2 <= max_len)%Z -> Encoder.forward e x g1 = Raise size_mismatch) /\
       ((max_len <= 1)%Z ->
          exists z g2, Encoder.forward e x g1 = Ok (z, g2) /\
                       shape z = [0; Z.to_nat d])) /\
  (exists h g',
     AttentionHead.__init__ d d d g = Ok (h, g') /\
     forall x : Tensor,
       shape x = [0; Z.to_nat d] ->
       exists z, AttentionHead.forward h x = Ok z /\ shape z = [0; Z.to_nat d]).
Proof.
  split.
  - destruct (Encoder_init_ok d num_heads num_encoder max_len hidden_size
                num_layers dropout_p g) as [e [g' [E [W _]]]];
      try assumption; try lia.
    exists e, g'. split; [assumption |].
    intros x g1 Hx. pose proof W as [He _]. split.
    + intros H2.
      apply (Encoder_forward_raises e 0 (Z.to_nat max_len) (Z.to_nat d));
        try assumption; lia.
    + intros H1.
      apply (Encoder_forward_ok e 0 (Z.to_nat max_len) (Z.to_nat d));
        try assumption.
      rewrite broadcast_rows.
      assert (Hc : Z.to_nat max_len = 0 \/ Z.to_nat max_len = 1) by lia.
      destruct Hc as [-> | ->]; reflexivity.
  - destruct (Head_init_ok d g) as [h [g' [E W]]]; [lia |].
    exists h, g'. split; [assumption |].
    intros x Hx.
    destruct (head_forward_entries h 0 (Z.to_nat d) x W Hx) as [z [Ez [Hz _]]].
    exists z. auto.
Qed.

Lemma zero_length_input_witness :
  (exists e g',
     Encoder.__init__ 16 16 16 2 2 512 512 4 (1 # 10)%Q ones_generator
       = Ok (e, g') /\
     forall (x : Tensor) (g1 : Generator),
       shape x = [0; Z.to_nat 16] ->
       ((2 <= 512)%Z -> Encoder.forward e x g1 = Raise size_mismatch) /\
       ((512 <= 1)%Z ->
          exists z g2, Encoder.forward e x g1 = Ok (z, g2) /\
                       shape z = [0; Z.to_nat 16])) /\
  (exists h g',
     AttentionHead.__init__ 16 16 16 ones_generator = Ok (h, g') /\
     forall x : Tensor,
       shape x = [0; Z.to_nat 16] ->
       exists z, AttentionHead.forward h x = Ok z /\ shape z = [0; Z.to_nat 16]).
Proof.
  apply (zero_length_input 16 2 2 512 512 4 (1 # 10)%Q ones_generator);
    try lia; unfold Qle; simpl; lia.
Defined.

(** C8 fails on the attention head, and on the encoder when
    max_sequence_length is 1: an input of zero rows is not rejected. *)
Lemma zero_length_input_accepted :
  (exists z,
     AttentionHead.forward ones_head (mkTensor [0; 4] (fun _ => 1%R)) = Ok z /\
     shape z = [0; 4]) /\
  (exists e g' z g2,
     Encoder.__init__ 2 2 2 1 1 1 4 2 (1 # 10)%Q ones_generator = Ok (e, g') /\
     Encoder.forward e (mkTensor [0; 2] (fun _ => 1%R)) g' = Ok (z, g2) /\
     shape z = [0; 2]).
Proof.
  split.
  - destruct (head_forward_entries ones_head 0 4 (mkTensor [0; 4] (fun _ => 1%R))
                ones_head_wf eq_refl) as [z [Ez [Hz _]]].
    exists z. auto.
  - destruct (Encoder_init_ok 2 1 1 1 4 2 (1 # 10)%Q ones_generator)
      as [e [g' [E [W _]]]]; try lia; try (unfold Qle; simpl; lia).
    destruct (Encoder_forward_ok e 0 1 2 0 (mkTensor [0; 2] (fun _ => 1%R)) g'
                W eq_refl eq_refl) as [z [g2 [Ez Hz]]].
    exists e, g', z, g2. auto.
Qed.

(** ** Batched (3-D) inputs *)

Lemma linear_3d (l : nn.Linear.t) (i o b n : nat) (x : Tensor) :
  Linear_wf i o l -> shape x = [b; n; i] ->
  exists y, nn.Linear.forward l x = Ok y /\ shape y = [b; n; o].
Proof.
  intros [Hw _] Hx. unfold nn.Linear.forward, torch.linear.
  rewrite Hw, Hx. cbn [rev app]. rewrite Nat.eqb_refl.
  eexists. split; reflexivity.
Qed.

(** [k.transpose(1, 0)] exchanges the batch and the sequence dimensions, and
    the batch dimensions of q and of the transposed k do not broadcast. *)
Lemma head_forward_batched_raises (h : AttentionHead.t) (b n d : nat) (x : Tensor) :
  Head_wf d h -> shape x = [b; n; d] ->
  torch.broadcast_shapes [b] [n] = None ->
  AttentionHead.forward h x = Raise size_mismatch.
Proof.
  intros [Wq [Wk Wv]] Hx Hbr. unfold AttentionHead.forward.
  destruct (linear_3d _ d d b n x Wq Hx) as [q [Eq Hq]].
  destruct (linear_3d _ d d b n x Wk Hx) as [k [Ek Hk]].
  destruct (linear_3d _ d d b n x Wv Hx) as [v [Ev Hv]].
  rewrite Eq, Ek, Ev. cbn [rbind].
  unfold torch.transpose, rank. rewrite Hk. cbn [length Nat.ltb Nat.leb andb rbind].
  unfold torch.matmul. rewrite Hq.
  cbn [shape torch.swap length seq map Nat.eqb nth torch.split_last2 rev app].
  rewrite Hbr. reflexivity.
Qed.

Lemma MHA_forward_batched_raises (m : MultiHeadAttention.t) (b n d : nat) (x : Tensor) :
  MHA_wf d m -> shape x = [b; n; d] ->
  torch.broadcast_shapes [b] [n] = None ->
  MultiHeadAttention.forward m x = Raise size_mismatch.
Proof.
  intros [Hne [Hheads _]] Hx Hbr. unfold MultiHeadAttention.forward.
  destruct (MultiHeadAttention.attention_heads m) as [| h0 rest];
    [contradiction |].
  inversion Hheads as [| ? ? W0 _]; subst.
  rewrite range_of_nat. cbn [length seq map for_each].
  change (getitem (h0 :: rest) (Z.of_nat 0)) with (Ok h0). cbn [rbind].
  rewrite (head_forward_batched_raises h0 b n d x W0 Hx Hbr). reflexivity.
Qed.

Lemma Block_forward_batched_raises (blk : EncoderBlock.t) (b n d : nat)
    (x : Tensor) (g : Generator) :
  Block_wf d blk -> shape x = [b; n; d] ->
  torch.broadcast_shapes [b] [n] = None ->
  EncoderBlock.forward blk x g = Raise size_mismatch.
Proof.
  intros [_ [Wm _]] Hx Hbr. unfold EncoderBlock.forward.
  apply bind_raise. unfold lift.
  rewrite (MHA_forward_batched_raises _ b n d x Wm Hx Hbr). reflexivity.
Qed.

Lemma broadcast_batched (b n L d : nat) :
  torch.broadcast_shapes [b; n; d] [L; d] =
    if n =? L then Some [b; n; d]
    else if n =? 1 then Some [b; L; d]
    else if L =? 1 then Some [b; n; d]
    else None.
Proof.
  unfold torch.broadcast_shapes. cbn [rev app torch.broadcast_rev].
  destruct (n =? L); [| destruct (n =? 1); [| destruct (L =? 1)]];
    cbn [option_map]; rewrite ?Nat.eqb_refl; reflexivity.
Qed.

Lemma Encoder_forward_batched_raises (e : Encoder.t) (L : nat) (x : Tensor)
    (g : Generator) :
  Encoder_wf L 16 e -> (1 <= Encoder.num_encoder e)%Z ->
  shape x = [2; 8; 16] ->
  Encoder.forward e x g = Raise size_mismatch.
Proof.
  intros [He [Hb Hlen]] HN Hx.
  rewrite (Encoder_forward_unfold e x g Hlen).
  unfold bind, lift, torch.add, torch.pointwise2.
  rewrite He, Hx, broadcast_batched.
  assert (Hz : forall z0, shape z0 = [2; 8; 16] ->
            mfor (Encoder.multiencoder e) EncoderBlock.forward z0 g
              = Raise size_mismatch).
  { intros z0 Hz0.
    destruct (Encoder.multiencoder e) as [| b0 rest]; [simpl in Hlen; lia |].
    inversion Hb as [| ? ? W0 _]; subst. cbn [mfor].
    apply bind_raise.
    apply (Block_forward_batched_raises b0 2 8 16 z0 g W0 Hz0). reflexivity. }
  destruct (8 =? L); [apply Hz; reflexivity |].
  cbn [Nat.eqb].
  destruct (L =? 1); [apply Hz; reflexivity | reflexivity].
Qed.

(** C5, amended: Encoder.forward is not defined on a batched input.  For
    every max_sequence_length, a 2-block 2-head encoder of width 16 raises a
    shape error on an input of shape [2, 8, 16] (in the addition of the
    positional table, or else in the first head, whose k.transpose(1, 0)
    exchanges the batch and the sequence dimensions).  On one sequence of
    shape [8, 16], with max_sequence_length 8, it returns a tensor of shape
    [8, 16]. *)
Theorem Encoder_forward_batched_input
    (max_len hidden_size num_layers : Z) (dropout_p : prob) (g : Generator)
    (HL : (0 <= max_len)%Z) (Hhid : (0 <= hidden_size)%Z)
    (Hp0 : (0 <= dropout_p)%Q) (Hp1 : (dropout_p <= 1)%Q) :
  exists e g',
    Encoder.__init__ 16 16 16 2 2 max_len hidden_size num_layers dropout_p g
      = Ok (e, g') /\
    (forall (x : Tensor) (g1 : Generator),
       shape x = [2; 8; 16] ->
       Encoder.forward e x g1 = Raise size_mismatch) /\
    (max_len = 8%Z ->
     forall (x : Tensor) (g1 : Generator),
       shape x = [8; 16] ->
       exists z g2, Encoder.forward e x g1 = Ok (z, g2) /\ shape z = [8; 16]).
Proof.
  destruct (Encoder_init_ok 16 2 2 max_len hidden_size num_layers dropout_p g)
    as [e [g' [E [W [HN _]]]]]; try assumption; try lia.
  change (Z.to_nat 16) with 16 in W.
  exists e, g'. split; [assumption |]. split.
  - intros x g1 Hx.
    apply (Encoder_forward_batched_raises e (Z.to_nat max_len)); try assumption.
    rewrite HN. lia.
  - intros -> x g1 Hx.
    apply (Encoder_forward_ok e 8 8 16 8 x g1 W Hx). reflexivity.
Qed.

Lemma Encoder_forward_batched_input_witness :
  exists e g',
    Encoder.__init__ 16 16 16 2 2 8 32 4 (1 # 10)%Q ones_generator = Ok (e, g') /\
    (forall (x : Tensor) (g1 : Generator),
       shape x = [2; 8; 16] ->
       Encoder.forward e x g1 = Raise size_mismatch) /\
    (8%Z = 8%Z ->
     forall (x : Tensor) (g1 : Generator),
       shape x = [8; 16] ->
       exists z g2, Encoder.forward e x g1 = Ok (z, g2) /\ shape z = [8; 16]).
Proof.
  apply (Encoder_forward_batched_input 8 32 4 (1 # 10)%Q ones_generator);
    try lia; unfold Qle; simpl; lia.
Defined.

(** C5 fails: with the default max_sequence_length 512, and also with
    max_sequence_length 8, the batch of shape [2, 8, 16] is refused. *)
Lemma Encoder_forward_batch_refused :
  (exists e g',
     Encoder.__init__ 16 16 16 2 2 Encoder.max_len_default
       Encoder.hidden_size_default Encoder.num_layers_default
       Encoder.dropout_p_default ones_generator = Ok (e, g') /\
     Encoder.forward e (ones_tensor [2; 8; 16]) g' = Raise size_mismatch) /\
  (exists e g',
     Encoder.__init__ 16 16 16 2 2 8
       Encoder.hidden_size_default Encoder.num_layers_default
       Encoder.dropout_p_default ones_generator = Ok (e, g') /\
     Encoder.forward e (ones_tensor [2; 8; 16]) g' = Raise size_mismatch).
Proof.
  split.
  - destruct (Encoder_init_ok 16 2 2 Encoder.max_len_default
                Encoder.hidden_size_default Encoder.num_layers_default
                Encoder.dropout_p_default ones_generator)
      as [e [g' [E [W [HN _]]]]];
      try (unfold Encoder.max_len_default, Encoder.hidden_size_default; lia);
      try (unfold Qle; simpl; lia).
    exists e, g'. split; [assumption |].
    apply (Encoder_forward_batched_raises e (Z.to_nat Encoder.max_len_default));
      [exact W | rewrite HN; lia | reflexivity].
  - destruct (Encoder_init_ok 16 2 2 8
                Encoder.hidden_size_default Encoder.num_layers_default
                Encoder.dropout_p_default ones_generator)
      as [e [g' [E [W [HN _]]]]];
      try (unfold Encoder.hidden_size_default; lia);
      try (unfold Qle; simpl; lia).
    exists e, g'. split; [assumption |].
    apply (Encoder_forward_batched_raises e (Z.to_nat 8));
      [exact W | rewrite HN; lia | reflexivity].
Qed.

(** ** Construction with invalid configurations *)

Lemma getPositionEncoding_negative (seq_len d : Z) (n : R) :
  (seq_len < 0 \/ d < 0)%Z ->
  utils.getPositionEncoding seq_len d n = Raise nn.negative_dimension.
Proof.
  intros H. unfold utils.getPositionEncoding, torch.zeros. cbn [forallb].
  destruct (Z.leb_spec 0 seq_len), (Z.leb_spec 0 d); try reflexivity; lia.
Qed.

Lemma Encoder_init_negative
    (Q K V num_heads num_encoder max_len hidden_size num_layers : Z)
    (dropout_p : prob) (g : Generator) :
  (V < 0 \/ max_len < 0)%Z ->
  exists err,
    Encoder.__init__ Q K V num_heads num_encoder max_len hidden_size
      num_layers dropout_p g = Raise err.
Proof.
  intros H. unfold Encoder.__init__. unfold bind at 1.
  destruct (mfor _ _ _ g) as [[blocks g1] | err]; [| eauto].
  rewrite getPositionEncoding_negative by lia.
  eexists. reflexivity.
Qed.

Lemma MHA_init_negative (Q K V num_heads : Z) (g : Generator) :
  (V < 0 \/ (num_heads < 0 /\ 0 < V))%Z ->
  MultiHeadAttention.__init__ Q K V num_heads g = Raise nn.negative_dimension.
Proof.
  intros H. unfold MultiHeadAttention.__init__. apply bind_raise.
  apply Linear_init_raise. nia.
Qed.

Lemma MHA_init_zero_heads (Q K V : Z) (g : Generator) :
  (0 <= V)%Z ->
  exists m g',
    MultiHeadAttention.__init__ Q K V 0 g = Ok (m, g') /\
    MultiHeadAttention.attention_heads m = [] /\
    forall x, exists err, MultiHeadAttention.forward m x = Raise err.
Proof.
  intros HV. unfold MultiHeadAttention.__init__.
  destruct (Linear_init_ok (0 * V) V g) as [l [El _]]; [lia | lia |].
  bind_step El. cbn [range Z.to_nat seq map mfor].
  eexists. eexists. split; [reflexivity |]. split; [reflexivity |].
  intros x. eexists. reflexivity.
Qed.

(** C7, amended: no constructor checks its configuration.  An FFN with
    num_layers < 2 is constructed without error.  Construction raises only
    where the tensor library refuses a negative size: Encoder for a negative
    model_width or a negative max_sequence_length, MultiHeadAttention for a
    negative model_width and, when model_width is positive, for a negative
    num_heads.  A zero num_heads, model_width or max_sequence_length is
    accepted at construction (with zero heads it is forward that raises). *)
Theorem construction_raises_only_for_negative_sizes :
  (forall (input_size hidden_size output_size num_layers : Z)
          (dropout_p : prob) (g : Generator),
     (num_layers < 2)%Z ->
     (0 <= input_size)%Z -> (0 <= hidden_size)%Z -> (0 <= output_size)%Z ->
     (0 <= dropout_p)%Q -> (dropout_p <= 1)%Q ->
     exists f g',
       FFN.__init__ input_size hidden_size output_size num_layers dropout_p g
         = Ok (f, g')) /\
  (forall (Q K V num_heads num_encoder max_len hidden_size num_layers : Z)
          (dropout_p : prob) (g : Generator),
     (V < 0 \/ max_len < 0)%Z ->
     exists err,
       Encoder.__init__ Q K V num_heads num_encoder max_len hidden_size
         num_layers dropout_p g = Raise err) /\
  (forall (Q K V num_heads : Z) (g : Generator),
     (V < 0 \/ (num_heads < 0 /\ 0 < V))%Z ->
     MultiHeadAttention.__init__ Q K V num_heads g
       = Raise nn.negative_dimension) /\
  (forall (Q K V : Z) (g : Generator),
     (0 <= V)%Z ->
     exists m g',
       MultiHeadAttention.__init__ Q K V 0 g = Ok (m, g') /\
       MultiHeadAttention.attention_heads m = [] /\
       forall x, exists err, MultiHeadAttention.forward m x = Raise err) /\
  (forall (d num_heads num_encoder max_len hidden_size num_layers : Z)
          (dropout_p : prob) (g : Generator),
     (0 <= d)%Z -> (1 <= num_heads)%Z -> (0 <= max_len)%Z ->
     (0 <= hidden_size)%Z -> (0 <= dropout_p)%Q -> (dropout_p <= 1)%Q ->
     exists e g',
       Encoder.__init__ d d d num_heads num_encoder max_len hidden_size
         num_layers dropout_p g = Ok (e, g')).
Proof.
  split; [| split; [| split; [| split]]].
  - intros i h o nl p g _ Hi Hh Ho Hp0 Hp1.
    destruct (FFN_init_ok i h o nl p g Hi Hh Ho Hp0 Hp1) as [f [g' [E _]]].
    eauto.
  - intros. apply Encoder_init_negative. assumption.
  - intros. apply MHA_init_negative. assumption.
  - intros. apply MHA_init_zero_heads. assumption.
  - intros d nh ne L h nl p g Hd Hh HL Hhid Hp0 Hp1.
    destruct (Encoder_init_ok d nh ne L h nl p g Hd Hh HL Hhid Hp0 Hp1)
      as [e [g' [E _]]].
    eauto.
Qed.

Lemma construction_raises_only_for_negative_sizes_witness :
  (exists f g',
     FFN.__init__ 16 512 16 1 (1 # 10)%Q ones_generator = Ok (f, g')) /\
  (exists err,
     Encoder.__init__ 16 16 (-1) 2 2 8 32 4 (1 # 10)%Q ones_generator
       = Raise err) /\
  MultiHeadAttention.__init__ 16 16 16 (-2) ones_generator
    = Raise nn.negative_dimension /\
  (exists m g',
     MultiHeadAttention.__init__ 16 16 16 0 ones_generator = Ok (m, g') /\
     MultiHeadAttention.attention_heads m = [] /\
     forall x, exists err, MultiHeadAttention.forward m x = Raise err) /\
  (exists e g',
     Encoder.__init__ 0 0 0 1 1 0 32 4 (1 # 10)%Q ones_generator = Ok (e, g')).
Proof.
  destruct construction_raises_only_for_negative_sizes as [A [B [C [D E]]]].
  split; [| split; [| split; [| split]]].
  - apply A; try lia; unfold Qle; simpl; lia.
  - apply B. lia.
  - apply C. lia.
  - apply D. lia.
  - apply E; try lia; unfold Qle; simpl; lia.
Defined.

(** C7 fails: an FFN with num_layers = 1, a MultiHeadAttention with zero
    heads and an Encoder with max_sequence_length = 0 are all constructed
    without error. *)
Lemma invalid_configurations_accepted :
  (exists f g',
     FFN.__init__ 16 512 16 1 (1 # 10)%Q ones_generator = Ok (f, g')) /\
  (exists m g',
     MultiHeadAttention.__init__ 16 16 16 0 ones_generator = Ok (m, g')) /\
  (exists e g',
     Encoder.__init__ 16 16 16 2 2 0 32 4 (1 # 10)%Q ones_generator = Ok (e, g')).
Proof.
  split; [| split].
  - destruct (FFN_init_ok 16 512 16 1 (1 # 10)%Q ones_generator)
      as [f [g' [E _]]]; try lia; try (unfold Qle; simpl; lia).
    eauto.
  - destruct (MHA_init_zero_heads 16 16 16 ones_generator) as [m [g' [E _]]];
      [lia |].
    eauto.
  - destruct (Encoder_init_ok 16 2 2 0 32 4 (1 # 10)%Q ones_generator)
      as [e [g' [E _]]]; try lia; try (unfold Qle; simpl; lia).
    eauto.
Qed.

(** * Further properties of utils.py *)

(** For an odd width d the loop over arange(int(d/2)) writes the columns
    0 .. d-2 only: the last column of the table keeps the zeros of
    torch.zeros. *)
Theorem getPositionEncoding_odd_width_last_column (seq_len d : Z)
    (Hlen : (0 <= seq_len)%Z) (Hd : (0 < d)%Z) (Hodd : Z.odd d = true) :
  exists P,
    utils.getPositionEncoding seq_len d utils.n_default = Ok P /\
    shape P = [Z.to_nat seq_len; Z.to_nat d] /\
    forall k : nat, k < Z.to_nat seq_len -> data P [k; Z.to_nat (d - 1)] = 0%R.
Proof.
  destruct (getPositionEncoding_inv utils.n_default (Z.to_nat seq_len)
              (Z.to_nat d)) as [P [E [Hs Hdat]]].
  rewrite !Z2Nat.id in E by lia.
  exists P. split; [assumption |]. split; [assumption |].
  intros k Hk. rewrite Hdat. unfold pe_rows.
  apply Z.odd_spec in Hodd. destruct Hodd as [q Hq].
  assert (Hhalf : Z.to_nat d / 2 = Z.to_nat q).
  { subst d. replace (Z.to_nat (2 * q + 1)) with (2 * Z.to_nat q + 1) by lia.
    apply half_double_succ. }
  rewrite Hhalf.
  destruct (Nat.ltb_spec (Z.to_nat (d - 1)) (2 * Z.to_nat q)); [lia |].
  rewrite andb_false_r. reflexivity.
Qed.

Lemma getPositionEncoding_odd_width_last_column_witness :
  exists P,
    utils.getPositionEncoding 5 3 utils.n_default = Ok P /\
    shape P = [Z.to_nat 5; Z.to_nat 3] /\
    forall k : nat, k < Z.to_nat 5 -> data P [k; Z.to_nat (3 - 1)] = 0%R.
Proof.
  apply (getPositionEncoding_odd_width_last_column 5 3); [lia | lia | reflexivity].
Defined.

(** Every entry of the positional table lies between -1 and 1. *)
Theorem getPositionEncoding_entries_bounded (seq_len d : Z)
    (Hlen : (0 <= seq_len)%Z) (Hd : (0 <= d)%Z) :
  exists P,
    utils.getPositionEncoding seq_len d utils.n_default = Ok P /\
    forall k j : nat, (-1 <= data P [k; j] <= 1)%R.
Proof.
  destruct (getPositionEncoding_inv utils.n_default (Z.to_nat seq_len)
              (Z.to_nat d)) as [P [E [Hs Hdat]]].
  rewrite !Z2Nat.id in E by lia.
  exists P. split; [assumption |].
  intros k j. rewrite Hdat. unfold pe_rows, pe_entry.
  destruct ((k <? Z.to_nat seq_len) && (j <? 2 * (Z.to_nat d / 2))).
  - destruct (Nat.even j); [apply SIN_bound | apply COS_bound].
  - lra.
Qed.

Lemma getPositionEncoding_entries_bounded_witness :
  exists P,
    utils.getPositionEncoding 5 4 utils.n_default = Ok P /\
    forall k j : nat, (-1 <= data P [k; j] <= 1)%R.
Proof. apply (getPositionEncoding_entries_bounded 5 4); lia. Defined.

(** Row k of the table does not depend on the number of rows asked for:
    the table built for a shorter length is the top of the table built for
    a longer one. *)
Theorem getPositionEncoding_rows_independent_of_length (n m d : Z)
    (Hn : (0 <= n)%Z) (Hnm : (n <= m)%Z) (Hd : (0 <= d)%Z) :
  exists Pn Pm,
    utils.getPositionEncoding n d utils.n_default = Ok Pn /\
    utils.getPositionEncoding m d utils.n_default = Ok Pm /\
    forall k j : nat, k < Z.to_nat n -> data Pn [k; j] = data Pm [k; j].
Proof.
  destruct (getPositionEncoding_inv utils.n_default (Z.to_nat n) (Z.to_nat d))
    as [Pn [En [_ Hn']]].
  destruct (getPositionEncoding_inv utils.n_default (Z.to_nat m) (Z.to_nat d))
    as [Pm [Em [_ Hm']]].
  rewrite !Z2Nat.id in En, Em by lia.
  exists Pn, Pm. split; [assumption |]. split; [assumption |].
  intros k j Hk. rewrite Hn', Hm'. unfold pe_rows.
  destruct (Nat.ltb_spec k (Z.to_nat n)); [| lia].
  destruct (Nat.ltb_spec k (Z.to_nat m)); [| lia]. reflexivity.
Qed.

Lemma getPositionEncoding_rows_independent_of_length_witness :
  exists Pn Pm,
    utils.getPositionEncoding 8 16 utils.n_default = Ok Pn /\
    utils.getPositionEncoding 512 16 utils.n_default = Ok Pm /\
    forall k j : nat, k < Z.to_nat 8 -> data Pn [k; j] = data Pm [k; j].
Proof.
  apply (getPositionEncoding_rows_independent_of_length 8 512 16); lia.
Defined.

(** getPositionEncoding returns a table exactly when neither argument is
    negative; otherwise torch.zeros raises. *)
Theorem getPositionEncoding_raises_iff_negative (seq_len d : Z) (n : R) :
  ((seq_len < 0 \/ d < 0)%Z ->
     utils.getPositionEncoding seq_len d n = Raise nn.negative_dimension) /\
  ((0 <= seq_len)%Z -> (0 <= d)%Z ->
     exists P,
       utils.getPositionEncoding seq_len d n = Ok P /\
       shape P = [Z.to_nat seq_len; Z.to_nat d]).
Proof.
  split.
  - apply getPositionEncoding_negative.
  - intros Hs Hd.
    destruct (getPositionEncoding_inv n (Z.to_nat seq_len) (Z.to_nat d))
      as [P [E [HsP _]]].
    rewrite !Z2Nat.id in E by lia. eauto.
Qed.

Lemma getPositionEncoding_raises_iff_negative_witness :
  utils.getPositionEncoding (-1) 4 utils.n_default = Raise nn.negative_dimension /\
  exists P,
    utils.getPositionEncoding 0 4 utils.n_default = Ok P /\
    shape P = [Z.to_nat 0; Z.to_nat 4].
Proof.
  destruct (getPositionEncoding_raises_iff_negative (-1) 4 utils.n_default)
    as [A _].
  destruct (getPositionEncoding_raises_iff_negative 0 4 utils.n_default)
    as [_ B].
  split; [apply A; lia | apply B; lia].
Defined.

Lemma mask_row_sum (n i : nat) :
  i <= n ->
  rsum n (fun j => if i <=? j then 1%R else 0%R) = INR (n - i).
Proof.
  induction n as [| n IH]; intros Hi.
  - reflexivity.
  - cbn [rsum]. destruct (Nat.eq_dec i (S n)) as [-> | Hne].
    + rewrite (rsum_ext n _ (fun _ => 0%R)).
      * destruct (Nat.leb_spec (S n) n); [lia |].
        rewrite Nat.sub_diag. simpl.
        clear. induction n as [| n IH]; simpl; [lra | rewrite IH; lra].
      * intros c Hc. destruct (Nat.leb_spec (S n) c); [lia | reflexivity].
    + rewrite IH by lia. destruct (Nat.leb_spec i n); [| lia].
      replace (S n - i) with (S (n - i)) by lia. rewrite S_INR. reflexivity.
Qed.

(** Row i of the mask holds seq_len - i ones: position i is flagged
    against itself and every later position, and against no earlier one. *)
Theorem getMask_row_sums (seq_len : Z) (Hlen : (0 <= seq_len)%Z) :
  exists mask,
    utils.getMask seq_len = Ok mask /\
    forall i : nat, i < Z.to_nat seq_len ->
      row_sum mask i = INR (Z.to_nat seq_len - i) /\
      forall j : nat, j < i -> data mask [i; j] = 0%R.
Proof.
  destruct (getMask_inv (Z.to_nat seq_len)) as [mask [E [Hs Hd]]].
  rewrite Z2Nat.id in E by lia.
  exists mask. split; [assumption |]. intros i Hi. split.
  - unfold row_sum. rewrite Hs. cbn [nth].
    rewrite <- mask_row_sum by lia.
    apply rsum_ext. intros j Hj. rewrite Hd. unfold mask_rows.
    destruct (Nat.ltb_spec i (Z.to_nat seq_len)); [| lia].
    destruct (Nat.ltb_spec j (Z.to_nat seq_len)); [| lia]. reflexivity.
  - intros j Hj. rewrite Hd. unfold mask_rows.
    destruct (Nat.leb_spec i j); [lia |]. rewrite andb_false_r. reflexivity.
Qed.

Lemma getMask_row_sums_witness :
  exists mask,
    utils.getMask 3 = Ok mask /\
    forall i : nat, i < Z.to_nat 3 ->
      row_sum mask i = INR (Z.to_nat 3 - i) /\
      forall j : nat, j < i -> data mask [i; j] = 0%R.
Proof. apply (getMask_row_sums 3). lia. Defined.

(** * Further properties of model.py *)

Lemma bind_inv (A B : Type) (m : M A) (k : A -> M B) g b g' :
  bind m k g = Ok (b, g') ->
  exists a g1, m g = Ok (a, g1) /\ k a g1 = Ok (b, g').
Proof.
  unfold bind. destruct (m g) as [[a g1] | e]; intros H; [eauto | discriminate].
Qed.

(** A linear layer accepts an input only when its last dimension is the
    layer's input width. *)
Lemma linear_forward_width (l : nn.Linear.t) (i o : nat) (x y : Tensor) :
  Linear_wf i o l -> nn.Linear.forward l x = Ok y ->
  exists rb, rev (shape x) = i :: rb.
Proof.
  intros [Hw _]. unfold nn.Linear.forward, torch.linear. rewrite Hw.
  destruct (rev (shape x)) as [| d rb]; [discriminate |].
  destruct (Nat.eqb_spec d i); [subst; eauto | discriminate].
Qed.

(** AttentionHead(Q, K, V) builds three square projections of sizes Q, K
    and V and applies all three to the same input, so a head constructed
    with sizes that are not all equal raises on every input. *)
Theorem AttentionHead_unequal_sizes_reject_every_input (Q K V : Z) (g : Generator)
    (HQ : (0 <= Q)%Z) (HK : (0 <= K)%Z) (HV : (0 <= V)%Z)
    (Hne : Q <> K \/ K <> V) :
  exists h g',
    AttentionHead.__init__ Q K V g = Ok (h, g') /\
    forall x : Tensor, exists e, AttentionHead.forward h x = Raise e.
Proof.
  unfold AttentionHead.__init__.
  destruct (Linear_init_ok Q Q g HQ HQ) as [q [Eq [Wq _]]]. bind_step Eq.
  destruct (Linear_init_ok K K (advance (advance g)) HK HK) as [k [Ek [Wk _]]].
  bind_step Ek.
  destruct (Linear_init_ok V V (advance (advance (advance (advance g)))) HV HV)
    as [v [Ev [Wv _]]].
  bind_step Ev.
  eexists. eexists. split; [reflexivity |].
  intros x. unfold AttentionHead.forward. cbn [AttentionHead.Q AttentionHead.K AttentionHead.V].
  destruct (nn.Linear.forward q x) as [yq | e] eqn:Fq;
    [| eexists; reflexivity].
  destruct (nn.Linear.forward k x) as [yk | e] eqn:Fk;
    [| eexists; reflexivity].
  destruct (nn.Linear.forward v x) as [yv | e] eqn:Fv;
    [| eexists; reflexivity].
  exfalso.
  destruct (linear_forward_width q _ _ x yq Wq Fq) as [r1 H1].
  destruct (linear_forward_width k _ _ x yk Wk Fk) as [r2 H2].
  destruct (linear_forward_width v _ _ x yv Wv Fv) as [r3 H3].
  rewrite H1 in H2, H3. inversion H2. inversion H3. lia.
Qed.

Lemma AttentionHead_unequal_sizes_reject_every_input_witness :
  exists h g',
    AttentionHead.__init__ 4 8 8 ones_generator = Ok (h, g') /\
    forall x : Tensor, exists e, AttentionHead.forward h x = Raise e.
Proof.
  apply (AttentionHead_unequal_sizes_reject_every_input 4 8 8 ones_generator);
    lia.
Defined.

(** k.transpose(1, 0) needs two dimensions: a head raises on every input
    of fewer than two dimensions, a single vector of the right width
    included. *)
Theorem AttentionHead_forward_needs_two_dimensions (d : Z) (g : Generator)
    (Hd : (0 <= d)%Z) :
  exists h g',
    AttentionHead.__init__ d d d g = Ok (h, g') /\
    (forall x : Tensor, rank x < 2 ->
       exists e, AttentionHead.forward h x = Raise e) /\
    (forall x : Tensor, shape x = [Z.to_nat d] ->
       AttentionHead.forward h x = Raise (IndexError "Dimension out of range")).
Proof.
  destruct (Head_init_ok d g Hd) as [h [g' [E [Wq [Wk Wv]]]]].
  exists h, g'. split; [assumption |].
  assert (Hone : forall (x : Tensor) (w : nat), shape x = [w] ->
            exists e, AttentionHead.forward h x = Raise e /\
              (w = Z.to_nat d -> e = IndexError "Dimension out of range")).
  { intros x w Hx. unfold AttentionHead.forward, nn.Linear.forward, torch.linear.
    destruct Wq as [Hq _], Wk as [Hk _], Wv as [Hv _].
    rewrite Hq, Hk, Hv, Hx. cbn [rev app].
    destruct (Nat.eqb_spec w (Z.to_nat d)) as [-> | Hw].
    - cbn [rbind]. eexists. split; [reflexivity | reflexivity].
    - cbn [rbind]. eexists. split; [reflexivity | contradiction]. }
  split.
  - intros x Hr. unfold rank in Hr.
    destruct (shape x) as [| w [| w' s]] eqn:Hx; [| | simpl in Hr; lia].
    + unfold AttentionHead.forward, nn.Linear.forward, torch.linear.
      destruct Wq as [Hq _]. rewrite Hq, Hx. cbn [rev rbind].
      eexists; reflexivity.
    + destruct (Hone x w Hx) as [e [He _]]. eauto.
  - intros x Hx. destruct (Hone x _ Hx) as [e [He Heq]].
    rewrite He, Heq; reflexivity.
Qed.

Lemma concat_repeat_snoc (A : Type) (blk : list A) (k : nat) :
  concat (repeat blk k) ++ blk = concat (repeat blk (S k)).
Proof.
  induction k as [| k IH]; simpl.
  - rewrite app_nil_r. reflexivity.
  - simpl in IH. rewrite <- app_assoc, IH. reflexivity.
Qed.

(** The layers that FFN.__init__ builds, for every num_layers: the input
    layer with its ReLU and Dropout, max(0, num_layers - 2) hidden layers
    each with its ReLU and Dropout, and the output layer, which is followed
    by no activation and no dropout. *)
Theorem FFN_init_architecture
    (input_size hidden_size output_size num_layers : Z)
    (dropout_p : prob) (g : Generator)
    (Hi : (0 <= input_size)%Z) (Hh : (0 <= hidden_size)%Z)
    (Ho : (0 <= output_size)%Z)
    (Hp0 : (0 <= dropout_p)%Q) (Hp1 : (dropout_p <= 1)%Q) :
  exists f g',
    FFN.__init__ input_size hidden_size output_size num_layers dropout_p g
      = Ok (f, g') /\
    architecture f =
      [KLinear input_size hidden_size; KReLU; KDropout dropout_p] ++
      concat (repeat [KLinear hidden_size hidden_size; KReLU; KDropout dropout_p]
                (Z.to_nat (num_layers - 2))) ++
      [KLinear hidden_size output_size].
Proof.
  unfold FFN.__init__.
  destruct (Linear_init_ok _ _ g Hi Hh) as [l1 [E1 [_ [I1 O1]]]].
  bind_step E1.
  erewrite bind_ok by (apply Dropout_init_ok; assumption).
  match goal with
  | |- context [mfor ?l ?body ?s0] =>
      destruct (mfor_inv Z (list nn.Layer)
        (fun k layers => map kind_of layers =
           [KLinear input_size hidden_size; KReLU; KDropout dropout_p] ++
           concat (repeat [KLinear hidden_size hidden_size; KReLU;
                           KDropout dropout_p] k))
        body l 0 s0 (advance (advance g))) as [layers [g1 [E2 W2]]]
  end.
  - simpl. rewrite I1, O1. reflexivity.
  - intros k _ s g0 Hs.
    destruct (Linear_init_ok _ _ g0 Hh Hh) as [l [El [_ [Il Ol]]]].
    bind_step El.
    erewrite bind_ok by (apply Dropout_init_ok; assumption).
    eexists. eexists. split; [reflexivity |].
    rewrite <- !app_assoc, map_app, Hs, <- concat_repeat_snoc.
    simpl. rewrite Il, Ol. reflexivity.
  - bind_step E2.
    destruct (Linear_init_ok _ _ g1 Hh Ho) as [l2 [E3 [_ [I2 O2]]]].
    bind_step E3.
    eexists. eexists. split; [reflexivity |].
    unfold architecture. cbn [FFN.ffn]. rewrite map_app, W2, length_range.
    simpl. rewrite I2, O2, <- ?app_assoc. reflexivity.
Qed.

Lemma FFN_init_architecture_witness :
  exists f g',
    FFN.__init__ 16 512 16 4 (1 # 10)%Q ones_generator = Ok (f, g') /\
    architecture f =
      [KLinear 16 512; KReLU; KDropout (1 # 10)%Q] ++
      concat (repeat [KLinear 512 512; KReLU; KDropout (1 # 10)%Q]
                (Z.to_nat (4 - 2))) ++
      [KLinear 512 16].
Proof.
  apply (FFN_init_architecture 16 512 16 4 (1 # 10)%Q ones_generator);
    try lia; unfold Qle; simpl; lia.
Defined.

Lemma AttentionHead_forward_needs_two_dimensions_witness :
  exists h g',
    AttentionHead.__init__ 4 4 4 ones_generator = Ok (h, g') /\
    (forall x : Tensor, rank x < 2 ->
       exists e, AttentionHead.forward h x = Raise e) /\
    (forall x : Tensor, shape x = [Z.to_nat 4] ->
       AttentionHead.forward h x = Raise (IndexError "Dimension out of range")).
Proof.
  apply (AttentionHead_forward_needs_two_dimensions 4 ones_generator). lia.
Defined.

(** ** FFN.forward *)

Lemma FFN_init_first_layer
    (input_size hidden_size output_size num_layers : Z)
    (dropout_p : prob) (g : Generator) :
  (0 <= input_size)%Z -> (0 <= hidden_size)%Z -> (0 <= output_size)%Z ->
  (0 <= dropout_p)%Q -> (dropout_p <= 1)%Q ->
  exists f g' l1 rest,
    FFN.__init__ input_size hidden_size output_size num_layers dropout_p g
      = Ok (f, g') /\
    FFN.ffn f = nn.ALinear l1 :: rest /\
    Linear_wf (Z.to_nat input_size) (Z.to_nat hidden_size) l1 /\
    Seq_wf (Z.to_nat input_size) (Z.to_nat output_size) (FFN.ffn f).
Proof.
  intros Hi Hh Ho Hp0 Hp1. unfold FFN.__init__.
  destruct (Linear_init_ok _ _ g Hi Hh) as [l1 [E1 [W1 _]]].
  bind_step E1.
  erewrite bind_ok by (apply Dropout_init_ok; assumption).
  match goal with
  | |- context [mfor ?l ?body ?s0] =>
      destruct (mfor_inv Z (list nn.Layer)
        (fun _ layers =>
           (exists rest, layers = nn.ALinear l1 :: rest) /\
           Seq_wf (Z.to_nat input_size) (Z.to_nat hidden_size) layers)
        body l 0 s0 (advance (advance g))) as [layers [g1 [E2 [[rest Hr] W2]]]]
  end.
  - split; [eexists; reflexivity |]. simpl.
    eapply Seq_linear; [exact W1 |]. apply Seq_relu, Seq_dropout, Seq_nil.
  - intros _ _ s g0 [[rest Hr] Hs].
    destruct (Linear_init_ok _ _ g0 Hh Hh) as [l [El [Wl _]]].
    bind_step El.
    erewrite bind_ok by (apply Dropout_init_ok; assumption).
    eexists. eexists. split; [reflexivity |]. split.
    + subst s. eexists. reflexivity.
    + rewrite <- !app_assoc. apply (Seq_wf_app _ _ _ _ _ Hs). simpl.
      eapply Seq_linear; [exact Wl |]. apply Seq_relu, Seq_dropout, Seq_nil.
  - bind_step E2.
    destruct (Linear_init_ok _ _ g1 Hh Ho) as [l2 [E3 [W3 _]]].
    bind_step E3.
    eexists. eexists. exists l1. eexists. split; [reflexivity |].
    cbn [FFN.ffn]. split; [subst layers; reflexivity |].
    split; [exact W1 |].
    apply (Seq_wf_app _ _ _ _ _ W2). eapply Seq_linear; [exact W3 | apply Seq_nil].
Qed.

(** FFN.forward maps an input of shape [n, input_size] to an output of
    shape [n, output_size], whatever num_layers is, and raises on a 2-D
    input of any other width. *)
Theorem FFN_forward_width
    (input_size hidden_size output_size num_layers : Z)
    (dropout_p : prob) (g : Generator)
    (Hi : (0 <= input_size)%Z) (Hh : (0 <= hidden_size)%Z)
    (Ho : (0 <= output_size)%Z)
    (Hp0 : (0 <= dropout_p)%Q) (Hp1 : (dropout_p <= 1)%Q) :
  exists f g',
    FFN.__init__ input_size hidden_size output_size num_layers dropout_p g
      = Ok (f, g') /\
    forall (x : Tensor) (n w : nat) (g1 : Generator),
      shape x = [n; w] ->
      (w = Z.to_nat input_size ->
         exists y g2, FFN.forward f x g1 = Ok (y, g2) /\
                      shape y = [n; Z.to_nat output_size]) /\
      (w <> Z.to_nat input_size ->
         FFN.forward f x g1 = Raise torch.mat_mismatch).
Proof.
  destruct (FFN_init_first_layer input_size hidden_size output_size num_layers
              dropout_p g Hi Hh Ho Hp0 Hp1)
    as [f [g' [l1 [rest [E [Hf [[Hw _] Wf]]]]]]].
  exists f, g'. split; [assumption |].
  intros x n w g1 Hx. split.
  - intros ->. unfold FFN.forward.
    apply (Sequential_forward_2d _ _ _ Wf x n g1 Hx).
  - intros Hne. unfold FFN.forward, nn.Sequential.forward. rewrite Hf.
    cbn [mfor]. apply bind_raise.
    unfold nn.Layer_forward, lift, nn.Linear.forward, torch.linear.
    rewrite Hw, Hx. cbn [rev app].
    destruct (Nat.eqb_spec w (Z.to_nat input_size)); [contradiction | reflexivity].
Qed.

Lemma FFN_forward_width_witness :
  exists f g',
    FFN.__init__ 16 512 16 4 (1 # 10)%Q ones_generator = Ok (f, g') /\
    forall (x : Tensor) (n w : nat) (g1 : Generator),
      shape x = [n; w] ->
      (w = Z.to_nat 16 ->
         exists y g2, FFN.forward f x g1 = Ok (y, g2) /\
                      shape y = [n; Z.to_nat 16]) /\
      (w <> Z.to_nat 16 ->
         FFN.forward f x g1 = Raise torch.mat_mismatch).
Proof.
  apply (FFN_forward_width 16 512 16 4 (1 # 10)%Q ones_generator);
    try lia; unfold Qle; simpl; lia.
Defined.

(** ** An encoder without blocks *)

(** With num_encoder <= 0 no block is built, so num_heads, hidden_size,
    num_layers and dropout_p are never looked at and nothing is drawn from
    the generator; forward then returns x + pos_encoding, entry by entry. *)
Theorem Encoder_without_blocks
    (Q K V num_heads num_encoder max_len hidden_size num_layers : Z)
    (dropout_p : prob) (g : Generator)
    (HN : (num_encoder <= 0)%Z) (HV : (0 <= V)%Z) (HL : (0 <= max_len)%Z) :
  exists e,
    Encoder.__init__ Q K V num_heads num_encoder max_len hidden_size
      num_layers dropout_p g = Ok (e, g) /\
    Encoder.multiencoder e = [] /\
    forall (x : Tensor) (g1 : Generator),
      shape x = [Z.to_nat max_len; Z.to_nat V] ->
      exists z,
        Encoder.forward e x g1 = Ok (z, g1) /\
        shape z = shape x /\
        forall i j : nat, i < Z.to_nat max_len -> j < Z.to_nat V ->
          data z [i; j] =
            (data x [i; j] + data (Encoder.pos_encoding e) [i; j])%R.
Proof.
  unfold Encoder.__init__. rewrite (range_nonpos num_encoder HN).
  cbn [mfor]. unfold bind at 1, ret at 1.
  destruct (getPositionEncoding_inv utils.n_default (Z.to_nat max_len)
              (Z.to_nat V)) as [P [EP [HsP _]]].
  rewrite !Z2Nat.id in EP by lia. rewrite EP.
  unfold bind, lift, ret.
  eexists. split; [reflexivity |]. split; [reflexivity |].
  intros x g1 Hx. unfold Encoder.forward. cbn [Encoder.pos_encoding Encoder.num_encoder].
  rewrite (range_nonpos num_encoder HN). cbn [mfor].
  unfold torch.add, torch.pointwise2. rewrite Hx, HsP, broadcast_shapes_refl.
  unfold bind, lift, ret.
  eexists. split; [reflexivity |]. split; [reflexivity |].
  intros i j Hi Hj. cbn [data]. rewrite expand_index_2 by assumption.
  reflexivity.
Qed.

Lemma Encoder_without_blocks_witness :
  exists e,
    Encoder.__init__ 16 16 16 (-3) 0 8 (-1) 4 (7 # 2)%Q ones_generator
      = Ok (e, ones_generator) /\
    Encoder.multiencoder e = [] /\
    forall (x : Tensor) (g1 : Generator),
      shape x = [Z.to_nat 8; Z.to_nat 16] ->
      exists z,
        Encoder.forward e x g1 = Ok (z, g1) /\
        shape z = shape x /\
        forall i j : nat, i < Z.to_nat 8 -> j < Z.to_nat 16 ->
          data z [i; j] =
            (data x [i; j] + data (Encoder.pos_encoding e) [i; j])%R.
Proof.
  apply (Encoder_without_blocks 16 16 16 (-3) 0 8 (-1) 4 (7 # 2)%Q
           ones_generator); lia.
Defined.

(** ** Normalised rows *)

Lemma rsum_affine (n : nat) (f : nat -> R) (a b : R) :
  rsum n (fun j => a * f j + b)%R = (a * rsum n f + INR n * b)%R.
Proof.
  induction n as [| n IH].
  - simpl. ring.
  - cbn [rsum]. rewrite IH, S_INR. ring.
Qed.

Lemma rsum_nonneg (n : nat) (f : nat -> R) :
  (forall j, (0 <= f j)%R) -> (0 <= rsum n f)%R.
Proof.
  intros H. induction n as [| n IH]; simpl; [lra |].
  specialize (H n). lra.
Qed.

(** The arithmetic of layer normalisation with scale 1 and shift 0. *)
Lemma normalised_row_stats (n : nat) (f : nat -> R) (eps : R) :
  0 < n -> (0 < eps)%R ->
  let mean := (rsum n f / INR n)%R in
  let var := (rsum n (fun k => (f k - mean) ^ 2) / INR n)%R in
  let y := fun j => ((f j - mean) / sqrt (var + eps) * 1 + 0)%R in
  rsum n y = 0%R /\ (rsum n (fun j => y j ^ 2) <= INR n)%R.
Proof.
  intros Hn Heps mean var y.
  assert (HnR : (0 < INR n)%R) by (apply lt_0_INR; assumption).
  assert (Hvar : (0 <= var)%R).
  { unfold var. apply Rmult_le_pos; [| left; apply Rinv_0_lt_compat; assumption].
    apply rsum_nonneg. intros j. apply pow2_ge_0. }
  assert (Hs : (0 < sqrt (var + eps))%R) by (apply sqrt_lt_R0; lra).
  assert (Hs2 : (sqrt (var + eps) * sqrt (var + eps) = var + eps)%R)
    by (apply sqrt_sqrt; lra).
  split.
  - rewrite (rsum_ext n y
      (fun j => / sqrt (var + eps) * f j + - mean / sqrt (var + eps))%R).
    + rewrite rsum_affine. unfold mean. field. split; lra.
    + intros j _. unfold y. field. lra.
  - rewrite (rsum_ext n (fun j => y j ^ 2)%R
      (fun j => (f j - mean) ^ 2 / (var + eps))%R).
    + rewrite rsum_div.
      replace (rsum n (fun k => (f k - mean) ^ 2))%R with (INR n * var)%R
        by (unfold var; field; lra).
      apply (Rmult_le_reg_r (var + eps)); [lra |].
      replace (INR n * var / (var + eps) * (var + eps))%R with (INR n * var)%R
        by (field; lra).
      nra.
    + intros j _. unfold y.
      set (s := sqrt (var + eps)) in *. rewrite <- Hs2. field. lra.
Qed.

Lemma initial_LayerNorm_forward (d : Z) (u z : Tensor) (n : nat) :
  (0 < d)%Z ->
  nn.LayerNorm.forward (initial_LayerNorm d) u = Ok z ->
  shape z = [n; Z.to_nat d] ->
  forall i : nat, row_normalised (Z.to_nat d) z i.
Proof.
  intros Hd F Hz i.
  unfold nn.LayerNorm.forward, torch.layer_norm in F.
  cbn [initial_LayerNorm nn.LayerNorm.normalized_shape nn.LayerNorm.weight
       nn.LayerNorm.bias nn.LayerNorm.eps] in F.
  destruct (rev (shape u)) as [| w rb]; [discriminate |].
  destruct (w =? Z.to_nat d); [| discriminate].
  inversion F; subst z; clear F. unfold row_normalised. cbn [data].
  cbn [removelast last app].
  apply (normalised_row_stats (Z.to_nat d) (fun k => data u [i; k])
           (1 / 100000)%R); [lia | lra].
Qed.

Lemma LayerNorm_init_initial (d : Z) (g g' : Generator) (ln : nn.LayerNorm.t) :
  nn.LayerNorm.__init__ d g = Ok (ln, g') -> ln = initial_LayerNorm d.
Proof.
  unfold nn.LayerNorm.__init__, torch.ones, torch.zeros. cbn [forallb].
  destruct (0 <=? d)%Z; cbn [andb]; [| discriminate].
  unfold bind, lift, ret. intros H. inversion H. reflexivity.
Qed.

Lemma Block_init_layer_norm2 (Q K V num_heads hidden_size num_layers : Z)
    (dropout_p : prob) (g g' : Generator) (b : EncoderBlock.t) :
  EncoderBlock.__init__ Q K V num_heads hidden_size num_layers dropout_p g
    = Ok (b, g') ->
  EncoderBlock.layer_norm2 b = initial_LayerNorm V.
Proof.
  unfold EncoderBlock.__init__. intros H.
  apply bind_inv in H. destruct H as [f [g1 [_ H]]].
  apply bind_inv in H. destruct H as [m [g2 [_ H]]].
  apply bind_inv in H. destruct H as [ln1 [g3 [_ H]]].
  apply bind_inv in H. destruct H as [ln2 [g4 [E2 H]]].
  unfold ret in H. inversion H; subst. cbn [EncoderBlock.layer_norm2].
  apply (LayerNorm_init_initial _ _ _ _ E2).
Qed.

Lemma Block_forward_last_step (b : EncoderBlock.t) (x z : Tensor) (g g' : Generator) :
  EncoderBlock.forward b x g = Ok (z, g') ->
  exists u, nn.LayerNorm.forward (EncoderBlock.layer_norm2 b) u = Ok z.
Proof.
  unfold EncoderBlock.forward. intros H.
  apply bind_inv in H. destruct H as [z0 [g1 [_ H]]].
  apply bind_inv in H. destruct H as [xz [g2 [_ H]]].
  apply bind_inv in H. destruct H as [z1 [g3 [_ H]]].
  apply bind_inv in H. destruct H as [z2 [g4 [_ H]]].
  apply bind_inv in H. destruct H as [zz [g5 [_ H]]].
  apply bind_inv in H. destruct H as [out [g6 [E H]]].
  unfold ret in H. inversion H; subst.
  exists zz. unfold lift in E.
  destruct (nn.LayerNorm.forward (EncoderBlock.layer_norm2 b) zz);
    [inversion E; reflexivity | discriminate].
Qed.

(** The output of a freshly constructed EncoderBlock is normalised row by
    row: every row of the result sums to 0 and its sum of squares is at
    most the model width, whatever the input and the parameters drawn. *)
Theorem EncoderBlock_output_rows_normalised
    (d num_heads hidden_size num_layers : Z) (dropout_p : prob) (g : Generator)
    (Hd : (0 < d)%Z) (Hheads : (1 <= num_heads)%Z) (Hhid : (0 <= hidden_size)%Z)
    (Hp0 : (0 <= dropout_p)%Q) (Hp1 : (dropout_p <= 1)%Q) :
  exists b g',
    EncoderBlock.__init__ d d d num_heads hidden_size num_layers dropout_p g
      = Ok (b, g') /\
    forall (x : Tensor) (n : nat) (g1 : Generator),
      shape x = [n; Z.to_nat d] ->
      exists z g2,
        EncoderBlock.forward b x g1 = Ok (z, g2) /\
        shape z = [n; Z.to_nat d] /\
        forall i : nat, i < n ->
          rsum (Z.to_nat d) (fun j => data z [i; j]) = 0%R /\
          (rsum (Z.to_nat d) (fun j => data z [i; j] ^ 2) <= INR (Z.to_nat d))%R.
Proof.
  destruct (Block_init_ok d num_heads hidden_size num_layers dropout_p g)
    as [b [g' [E [W _]]]]; try assumption; try lia.
  exists b, g'. split; [assumption |].
  intros x n g1 Hx.
  destruct (Block_forward_2d b n (Z.to_nat d) x g1 W Hx) as [z [g2 [F Hz]]].
  exists z, g2. split; [assumption |]. split; [assumption |].
  intros i _.
  destruct (Block_forward_last_step b x z g1 g2 F) as [u Hu].
  rewrite (Block_init_layer_norm2 _ _ _ _ _ _ _ _ _ _ E) in Hu.
  apply (initial_LayerNorm_forward d u z n Hd Hu Hz i).
Qed.

Lemma EncoderBlock_output_rows_normalised_witness :
  exists b g',
    EncoderBlock.__init__ 16 16 16 2 512 4 (1 # 10)%Q ones_generator
      = Ok (b, g') /\
    forall (x : Tensor) (n : nat) (g1 : Generator),
      shape x = [n; Z.to_nat 16] ->
      exists z g2,
        EncoderBlock.forward b x g1 = Ok (z, g2) /\
        shape z = [n; Z.to_nat 16] /\
        forall i : nat, i < n ->
          rsum (Z.to_nat 16) (fun j => data z [i; j]) = 0%R /\
          (rsum (Z.to_nat 16) (fun j => data z [i; j] ^ 2) <= INR (Z.to_nat 16))%R.
Proof.
  apply (EncoderBlock_output_rows_normalised 16 2 512 4 (1 # 10)%Q ones_generator);
    try lia; unfold Qle; simpl; lia.
Defined.

Lemma Encoder_init_normalising
    (d num_heads num_encoder max_len hidden_size num_layers : Z)
    (dropout_p : prob) (g : Generator) :
  (0 <= d)%Z -> (1 <= num_heads)%Z -> (0 <= max_len)%Z ->
  (0 <= hidden_size)%Z -> (0 <= dropout_p)%Q -> (dropout_p <= 1)%Q ->
  exists e g',
    Encoder.__init__ d d d num_heads num_encoder max_len hidden_size
      num_layers dropout_p g = Ok (e, g') /\
    Encoder_wf (Z.to_nat max_len) (Z.to_nat d) e /\
    Encoder.num_encoder e = num_encoder /\
    Forall (fun b => EncoderBlock.layer_norm2 b = initial_LayerNorm d)
      (Encoder.multiencoder e).
Proof.
  intros Hd Hh HL Hhid Hp0 Hp1. unfold Encoder.__init__.
  match goal with
  | |- context [mfor ?l ?body ?s0] =>
      destruct (mfor_inv Z (list EncoderBlock.t)
        (fun k blocks =>
           length blocks = k /\ Forall (Block_wf (Z.to_nat d)) blocks /\
           Forall (fun b => EncoderBlock.layer_norm2 b = initial_LayerNorm d)
             blocks)
        body l 0 s0 g) as [blocks [g1 [E [Hlen [Hall Hnorm]]]]]
  end.
  - split; [reflexivity |]. split; constructor.
  - intros k _ s g0 [Hk [Hs Hn]].
    destruct (Block_init_ok d num_heads hidden_size num_layers dropout_p g0
                Hd Hh Hhid Hp0 Hp1) as [b [g2 [Eb [Wb _]]]].
    bind_step Eb.
    eexists. eexists. split; [reflexivity |]. split; [| split].
    + rewrite length_app. simpl. lia.
    + apply Forall_snoc; assumption.
    + apply Forall_snoc; [assumption |].
      apply (Block_init_layer_norm2 _ _ _ _ _ _ _ _ _ _ Eb).
  - bind_step E. rewrite length_range in Hlen. simpl in Hlen.
    destruct (getPositionEncoding_inv utils.n_default (Z.to_nat max_len)
                (Z.to_nat d)) as [P [EP [HsP _]]].
    rewrite !Z2Nat.id in EP by lia.
    rewrite EP. unfold bind at 1, lift at 1.
    eexists. eexists. split; [reflexivity |]. simpl.
    repeat split; assumption.
Qed.

Lemma mfor_blocks_last (blocks : list EncoderBlock.t) :
  blocks <> [] ->
  forall (x z : Tensor) (g g' : Generator),
    mfor blocks EncoderBlock.forward x g = Ok (z, g') ->
    exists b u g0,
      In b blocks /\ EncoderBlock.forward b u g0 = Ok (z, g').
Proof.
  induction blocks as [| b rest IH]; intros Hne x z g g' H; [contradiction |].
  cbn [mfor] in H. apply bind_inv in H. destruct H as [z1 [g1 [E1 H]]].
  destruct rest as [| b2 rest2].
  - cbn [mfor] in H. unfold ret in H. inversion H; subst.
    exists b, x, g. split; [left; reflexivity | assumption].
  - destruct (IH ltac:(discriminate) z1 z g1 g' H) as [b' [u [g0 [Hin F]]]].
    exists b', u, g0. split; [right; assumption | assumption].
Qed.

(** With at least one block, the output of a freshly constructed Encoder is
    that of its last block's second normalisation: every row sums to 0 and
    has a sum of squares of at most the model width. *)
Theorem Encoder_output_rows_normalised
    (d num_heads num_encoder max_len hidden_size num_layers : Z)
    (dropout_p : prob) (g : Generator)
    (Hd : (0 < d)%Z) (Hheads : (1 <= num_heads)%Z) (HN : (1 <= num_encoder)%Z)
    (HL : (0 <= max_len)%Z) (Hhid : (0 <= hidden_size)%Z)
    (Hp0 : (0 <= dropout_p)%Q) (Hp1 : (dropout_p <= 1)%Q) :
  exists e g',
    Encoder.__init__ d d d num_heads num_encoder max_len hidden_size
      num_layers dropout_p g = Ok (e, g') /\
    forall (x : Tensor) (g1 : Generator),
      shape x = [Z.to_nat max_len; Z.to_nat d] ->
      exists z g2,
        Encoder.forward e x g1 = Ok (z, g2) /\
        shape z = shape x /\
        forall i : nat, i < Z.to_nat max_len ->
          rsum (Z.to_nat d) (fun j => data z [i; j]) = 0%R /\
          (rsum (Z.to_nat d) (fun j => data z [i; j] ^ 2) <= INR (Z.to_nat d))%R.
Proof.
  destruct (Encoder_init_normalising d num_heads num_encoder max_len hidden_size
              num_layers dropout_p g) as [e [g' [E [W [HNe Hnorm]]]]];
    try assumption; try lia.
  exists e, g'. split; [assumption |].
  intros x g1 Hx.
  destruct (Encoder_forward_ok e (Z.to_nat max_len) (Z.to_nat max_len)
              (Z.to_nat d) (Z.to_nat max_len) x g1 W Hx) as [z [g2 [F Hz]]].
  { rewrite broadcast_rows, Nat.eqb_refl. reflexivity. }
  exists z, g2. split; [assumption |]. split; [congruence |].
  intros i _.
  destruct W as [_ [_ Hlen]].
  rewrite (Encoder_forward_unfold e x g1 Hlen) in F.
  apply bind_inv in F. destruct F as [z0 [g0 [_ F]]].
  assert (Hne : Encoder.multiencoder e <> []).
  { intros Hnil. rewrite Hnil in Hlen. simpl in Hlen. lia. }
  destruct (mfor_blocks_last (Encoder.multiencoder e) Hne z0 z g0 g2 F)
    as [b [u [g3 [Hin Fb]]]].
  destruct (Block_forward_last_step b u z g3 g2 Fb) as [v Hv].
  rewrite Forall_forall in Hnorm. rewrite (Hnorm b Hin) in Hv.
  apply (initial_LayerNorm_forward d v z (Z.to_nat max_len) Hd Hv Hz i).
Qed.

Lemma Encoder_output_rows_normalised_witness :
  exists e g',
    Encoder.__init__ 16 16 16 2 2 8 32 4 (1 # 10)%Q ones_generator = Ok (e, g') /\
    forall (x : Tensor) (g1 : Generator),
      shape x = [Z.to_nat 8; Z.to_nat 16] ->
      exists z g2,
        Encoder.forward e x g1 = Ok (z, g2) /\
        shape z = shape x /\
        forall i : nat, i < Z.to_nat 8 ->
          rsum (Z.to_nat 16) (fun j => data z [i; j]) = 0%R /\
          (rsum (Z.to_nat 16) (fun j => data z [i; j] ^ 2) <= INR (Z.to_nat 16))%R.
Proof.
  apply (Encoder_output_rows_normalised 16 2 2 8 32 4 (1 # 10)%Q ones_generator);
    try lia; unfold Qle; simpl; lia.
Defined.

(** ** Attention is equivariant under a permutation of the positions *)

Lemma lsum_app (l1 l2 : list R) : lsum (l1 ++ l2) = (lsum l1 + lsum l2)%R.
Proof.
  induction l1 as [| a l1 IH]; simpl; [ring |].
  fold (lsum (l1 ++ l2)). fold (lsum l1). rewrite IH. ring.
Qed.

Lemma rsum_lsum (n : nat) (f : nat -> R) : rsum n f = lsum (map f (seq 0 n)).
Proof.
  induction n as [| n IH]; [reflexivity |].
  rewrite seq_S, map_app, lsum_app. cbn [rsum]. rewrite IH. simpl. ring.
Qed.

Lemma lsum_Permutation (l l' : list R) : Permutation l l' -> lsum l = lsum l'.
Proof.
  induction 1; simpl; fold lsum in *.
  - reflexivity.
  - rewrite IHPermutation. reflexivity.
  - fold (lsum l). ring.
  - congruence.
Qed.

Lemma NoDup_map_injective_on (sigma : nat -> nat) (l : list nat) :
  (forall i j, In i l -> In j l -> sigma i = sigma j -> i = j) ->
  NoDup l -> NoDup (map sigma l).
Proof.
  intros Hinj Hnd. induction Hnd as [| a l Ha Hnd IH]; simpl; constructor.
  - intros Hin. apply in_map_iff in Hin. destruct Hin as [b [Hb Hbl]].
    assert (b = a) by (apply Hinj; simpl; auto).
    subst b. contradiction.
  - apply IH. intros i j Hi Hj. apply Hinj; simpl; auto.
Qed.

Lemma rsum_permutation (n : nat) (sigma : nat -> nat) (f : nat -> R) :
  (forall i, i < n -> sigma i < n) ->
  (forall i j, i < n -> j < n -> sigma i = sigma j -> i = j) ->
  rsum n (fun c => f (sigma c)) = rsum n f.
Proof.
  intros Hran Hinj. rewrite !rsum_lsum.
  rewrite <- (map_map sigma f). apply lsum_Permutation, Permutation_map.
  apply NoDup_Permutation_bis.
  - apply NoDup_map_injective_on; [| apply seq_NoDup].
    intros i j Hi Hj. apply in_seq in Hi, Hj. apply Hinj; lia.
  - rewrite length_map. lia.
  - intros a Ha. apply in_map_iff in Ha. destruct Ha as [b [Hb Hin]].
    apply in_seq in Hin. apply in_seq. subst a.
    specialize (Hran b). lia.
Qed.

(** Presenting the rows of the input in another order presents the rows of
    the head's output in that same order: AttentionHead.forward has no
    notion of position. *)
Theorem AttentionHead_permutation_equivariant (d : Z) (g : Generator)
    (Hd : (0 <= d)%Z) :
  exists h g',
    AttentionHead.__init__ d d d g = Ok (h, g') /\
    forall (sigma : nat -> nat) (n : nat) (x : Tensor),
      shape x = [n; Z.to_nat d] ->
      (forall i, i < n -> sigma i < n) ->
      (forall i j, i < n -> j < n -> sigma i = sigma j -> i = j) ->
      exists z z',
        AttentionHead.forward h x = Ok z /\
        AttentionHead.forward h (permute_rows sigma x) = Ok z' /\
        forall i j : nat, i < n -> j < Z.to_nat d ->
          data z' [i; j] = data z [sigma i; j].
Proof.
  destruct (Head_init_ok d g Hd) as [h [g' [E W]]].
  exists h, g'. split; [assumption |].
  intros sigma n x Hx Hran Hinj.
  destruct (head_forward_entries h n (Z.to_nat d) x W Hx) as [z [Ez [_ Hz]]].
  destruct (head_forward_entries h n (Z.to_nat d) (permute_rows sigma x) W Hx)
    as [z' [Ez' [_ Hz']]].
  exists z, z'. split; [assumption |]. split; [assumption |].
  intros i j Hi Hj. rewrite Hz' by assumption. rewrite Hz by auto.
  rewrite <- (rsum_permutation n sigma
    (fun c => code_weight h n (Z.to_nat d) x (sigma i) c *
              linear_entry (AttentionHead.V h) (Z.to_nat d) x c j)%R Hran Hinj).
  apply rsum_ext. intros c Hc.
  change (linear_entry (AttentionHead.V h) (Z.to_nat d) (permute_rows sigma x) c j)
    with (linear_entry (AttentionHead.V h) (Z.to_nat d) x (sigma c) j).
  f_equal. unfold code_weight, softmax_row. f_equal.
  change (similarity h (Z.to_nat d) (permute_rows sigma x) i c)
    with (similarity h (Z.to_nat d) x (sigma i) (sigma c)).
  f_equal.
  exact (rsum_permutation n sigma
    (fun c' => exp (similarity h (Z.to_nat d) x (sigma i) c')) Hran Hinj).
Qed.

Lemma AttentionHead_permutation_equivariant_witness :
  exists h g',
    AttentionHead.__init__ 4 4 4 ones_generator = Ok (h, g') /\
    forall (sigma : nat -> nat) (n : nat) (x : Tensor),
      shape x = [n; Z.to_nat 4] ->
      (forall i, i < n -> sigma i < n) ->
      (forall i j, i < n -> j < n -> sigma i = sigma j -> i = j) ->
      exists z z',
        AttentionHead.forward h x = Ok z /\
        AttentionHead.forward h (permute_rows sigma x) = Ok z' /\
        forall i j : nat, i < n -> j < Z.to_nat 4 ->
          data z' [i; j] = data z [sigma i; j].
Proof.
  apply (AttentionHead_permutation_equivariant 4 ones_generator). lia.
Defined.

(** ** Multi-head attention: concatenate, then project *)

Lemma rsum_add (a b : nat) (f : nat -> R) :
  rsum (a + b) f = (rsum a f + rsum b (fun c => f (a + c)%nat))%R.
Proof.
  induction b as [| b IH].
  - rewrite Nat.add_0_r. simpl. ring.
  - rewrite Nat.add_succ_r. cbn [rsum]. rewrite IH. ring.
Qed.

Lemma rsum_mul_split (H d : nat) (f : nat -> R) :
  rsum (H * d) f = rsum H (fun hh => rsum d (fun c => f (hh * d + c))).
Proof.
  induction H as [| H IH]; [reflexivity |].
  replace (S H * d) with (H * d + d) by lia.
  rewrite rsum_add, IH. reflexivity.
Qed.

Lemma cat_data_nth (ts : list Tensor) (n d : nat) (dflt : Tensor) :
  Forall (fun t => shape t = [n; d]) ts ->
  forall hh i c, hh < length ts -> c < d ->
    torch.cat_data ts 1 [i; hh * d + c] = data (nth hh ts dflt) [i; c].
Proof.
  induction 1 as [| t ts Ht _ IH]; intros hh i c Hh Hc; [simpl in Hh; lia |].
  cbn [torch.cat_data]. rewrite Ht. cbn [nth].
  destruct hh as [| hh].
  - cbn [Nat.mul Nat.add]. destruct (Nat.ltb_spec c d); [reflexivity | lia].
  - destruct (Nat.ltb_spec (S hh * d + c) d); [lia |].
    cbn [set_nth]. replace (S hh * d + c - d) with (hh * d + c) by lia.
    apply IH; [simpl in Hh; lia | assumption].
Qed.

Lemma firstn_succ_nth (A : Type) (l : list A) (k : nat) (a : A) :
  nth_error l k = Some a -> firstn (S k) l = firstn k l ++ [a].
Proof.
  revert k. induction l as [| b l IH]; intros [| k] H; simpl in *;
    try discriminate.
  - inversion H. reflexivity.
  - rewrite (IH k H). reflexivity.
Qed.

Lemma MHA_forward_heads (m : MultiHeadAttention.t) (n d : nat) (x : Tensor) :
  MHA_wf d m -> shape x = [n; d] ->
  exists zs z,
    Forall2 (fun h zh => AttentionHead.forward h x = Ok zh)
      (MultiHeadAttention.attention_heads m) zs /\
    Forall (fun t => shape t = [n; d]) zs /\
    MultiHeadAttention.forward m x = Ok z /\
    shape z = [n; d] /\
    forall i j : nat,
      data z [i; j] =
        (rsum (length zs * d) (fun k =>
           torch.cat_data zs 1 [i; k] *
           data (nn.Linear.weight (MultiHeadAttention.linear m)) [j; k])
         + data (nn.Linear.bias (MultiHeadAttention.linear m)) [j])%R.
Proof.
  intros [Hne [Hheads Hlin]] Hx. unfold MultiHeadAttention.forward.
  match goal with
  | |- context [for_each _ ?body ?s0] =>
      destruct (for_each_range_inv (list Tensor)
        (fun k zs =>
           Forall2 (fun h zh => AttentionHead.forward h x = Ok zh)
             (firstn k (MultiHeadAttention.attention_heads m)) zs /\
           Forall (fun t => shape t = [n; d]) zs)
        body (length (MultiHeadAttention.attention_heads m)) s0)
        as [zs [E [Hrel Hall]]]
  end.
  - split; constructor.
  - intros k s Hk [Hs Hall].
    destruct (nth_error (MultiHeadAttention.attention_heads m) k) as [h |] eqn:En;
      [| apply nth_error_None in En; lia].
    rewrite (getitem_nth _ _ _ _ En). cbn [rbind].
    assert (Wh : Head_wf d h).
    { rewrite Forall_forall in Hheads. apply Hheads.
      eapply nth_error_In; eassumption. }
    destruct (head_forward_entries h n d x Wh Hx) as [z [Ez [Hz _]]].
    rewrite Ez. cbn [rbind]. eexists. split; [reflexivity |]. split.
    + rewrite (firstn_succ_nth _ _ _ _ En). apply Forall2_app; [assumption |].
      constructor; [assumption | constructor].
    + apply Forall_snoc; assumption.
  - rewrite firstn_all in Hrel. rewrite E. cbn [rbind].
    pose proof (Forall2_length Hrel) as Hlen.
    assert (Hzs : zs <> []).
    { intros ->. simpl in Hlen.
      destruct (MultiHeadAttention.attention_heads m);
        [contradiction | discriminate]. }
    unfold torch.cat. destruct zs as [| t0 rest]; [contradiction |].
    pose proof (cat_data_shape _ n d Hall) as Hsum.
    inversion Hall as [| ? ? H0 Hrest]; subst.
    unfold rank. rewrite H0. cbn [length Nat.ltb Nat.leb].
    assert (Hsame :
      forallb (fun t => torch.same_except 1 [n; d] (shape t)) rest = true).
    { apply forallb_forall. intros t Hin.
      rewrite Forall_forall in Hrest. rewrite (Hrest t Hin).
      unfold torch.same_except, index_eqb.
      destruct (list_eq_dec Nat.eq_dec (set_nth [n; d] 1 0) (set_nth [n; d] 1 0));
        [reflexivity | contradiction]. }
    rewrite Hsame. cbn [rbind].
    erewrite (linear_2d _ (length (t0 :: rest) * d) d n).
    + exists (t0 :: rest). eexists.
      split; [exact Hrel |]. split; [exact Hall |].
      split; [reflexivity |]. split; [reflexivity |].
      intros i j. reflexivity.
    + rewrite <- Hlen. exact Hlin.
    + cbn [shape set_nth]. rewrite Hsum. reflexivity.
Qed.

(** MultiHeadAttention.forward runs every head on the same input,
    concatenates the outputs along the features and applies the merge
    projection: entry (i, j) of the result is the bias plus, for every head
    hh and feature c, that head's output at (i, c) times the merge weight
    at (j, hh * d + c). *)
Theorem MultiHeadAttention_concatenates_then_projects
    (d num_heads : Z) (g : Generator)
    (Hd : (0 <= d)%Z) (Hheads : (1 <= num_heads)%Z) :
  exists m g',
    MultiHeadAttention.__init__ d d d num_heads g = Ok (m, g') /\
    length (MultiHeadAttention.attention_heads m) = Z.to_nat num_heads /\
    forall (x : Tensor) (n : nat),
      shape x = [n; Z.to_nat d] ->
      exists zs z,
        Forall2 (fun h zh => AttentionHead.forward h x = Ok zh)
          (MultiHeadAttention.attention_heads m) zs /\
        MultiHeadAttention.forward m x = Ok z /\
        shape z = [n; Z.to_nat d] /\
        forall i j : nat,
          data z [i; j] =
            (rsum (Z.to_nat num_heads) (fun hh =>
               rsum (Z.to_nat d) (fun c =>
                 data (nth hh zs x) [i; c] *
                 data (nn.Linear.weight (MultiHeadAttention.linear m))
                   [j; (hh * Z.to_nat d + c)%nat]))
             + data (nn.Linear.bias (MultiHeadAttention.linear m)) [j])%R.
Proof.
  destruct (MHA_init_ok d num_heads g Hd Hheads) as [m [g' [E [W Hlen]]]].
  exists m, g'. split; [assumption |]. split; [assumption |].
  intros x n Hx.
  destruct (MHA_forward_heads m n (Z.to_nat d) x W Hx)
    as [zs [z [Hrel [Hall [F [Hz Hdat]]]]]].
  exists zs, z. split; [assumption |]. split; [assumption |].
  split; [assumption |].
  intros i j. rewrite Hdat. f_equal.
  pose proof (Forall2_length Hrel) as Hl.
  rewrite rsum_mul_split, <- Hl, Hlen.
  apply rsum_ext. intros hh Hhh. apply rsum_ext. intros c Hc.
  rewrite (cat_data_nth zs n (Z.to_nat d) x Hall hh i c) by lia.
  reflexivity.
Qed.

Lemma MultiHeadAttention_concatenates_then_projects_witness :
  exists m g',
    MultiHeadAttention.__init__ 16 16 16 2 ones_generator = Ok (m, g') /\
    length (MultiHeadAttention.attention_heads m) = Z.to_nat 2 /\
    forall (x : Tensor) (n : nat),
      shape x = [n; Z.to_nat 16] ->
      exists zs z,
        Forall2 (fun h zh => AttentionHead.forward h x = Ok zh)
          (MultiHeadAttention.attention_heads m) zs /\
        MultiHeadAttention.forward m x = Ok z /\
        shape z = [n; Z.to_nat 16] /\
        forall i j : nat,
          data z [i; j] =
            (rsum (Z.to_nat 2) (fun hh =>
               rsum (Z.to_nat 16) (fun c =>
                 data (nth hh zs x) [i; c] *
                 data (nn.Linear.weight (MultiHeadAttention.linear m))
                   [j; (hh * Z.to_nat 16 + c)%nat]))
             + data (nn.Linear.bias (MultiHeadAttention.linear m)) [j])%R.
Proof.
  apply (MultiHeadAttention_concatenates_then_projects 16 2 ones_generator); lia.
Defined.

(** ** Inputs that Encoder.forward broadcasts *)

Lemma Encoder_forward_broadcast (e : Encoder.t) (L d m : nat) (x : Tensor)
    (g : Generator) :
  Encoder_wf L d e ->
  torch.broadcast_shapes (shape x) [L; d] = Some [m; d] ->
  exists z g', Encoder.forward e x g = Ok (z, g') /\ shape z = [m; d].
Proof.
  intros [He [Hb Hlen]] Hbr.
  rewrite (Encoder_forward_unfold e x g Hlen).
  unfold bind, lift, torch.add, torch.pointwise2. rewrite He, Hbr.
  apply blocks_forward_2d; [assumption | reflexivity].
Qed.

(** The addition x + pos_encoding is the only place where the width of the
    input is compared with the model width, and it broadcasts: an input
    with a single feature per position, or a single vector of the model
    width, is silently expanded to [max_sequence_length, d] and encoded;
    any other width raises. *)
Theorem Encoder_forward_input_width
    (d num_heads num_encoder max_len hidden_size num_layers : Z)
    (dropout_p : prob) (g : Generator)
    (Hd : (1 < d)%Z) (Hheads : (1 <= num_heads)%Z) (HL : (0 <= max_len)%Z)
    (Hhid : (0 <= hidden_size)%Z)
    (Hp0 : (0 <= dropout_p)%Q) (Hp1 : (dropout_p <= 1)%Q) :
  exists e g',
    Encoder.__init__ d d d num_heads num_encoder max_len hidden_size
      num_layers dropout_p g = Ok (e, g') /\
    forall (x : Tensor) (g1 : Generator),
      (shape x = [Z.to_nat max_len; 1] ->
         exists z g2, Encoder.forward e x g1 = Ok (z, g2) /\
                      shape z = [Z.to_nat max_len; Z.to_nat d]) /\
      (shape x = [Z.to_nat d] ->
         exists z g2, Encoder.forward e x g1 = Ok (z, g2) /\
                      shape z = [Z.to_nat max_len; Z.to_nat d]) /\
      (forall w : nat,
         shape x = [Z.to_nat max_len; w] -> w <> Z.to_nat d -> w <> 1 ->
         Encoder.forward e x g1 = Raise size_mismatch).
Proof.
  destruct (Encoder_init_ok d num_heads num_encoder max_len hidden_size
              num_layers dropout_p g) as [e [g' [E [W _]]]];
    try assumption; try lia.
  exists e, g'. split; [assumption |].
  intros x g1. split; [| split].
  - intros Hx. apply (Encoder_forward_broadcast e _ _ _ x g1 W).
    rewrite Hx. unfold torch.broadcast_shapes.
    cbn [rev app torch.broadcast_rev]. rewrite Nat.eqb_refl.
    destruct (Nat.eqb_spec 1 (Z.to_nat d)); [lia | reflexivity].
  - intros Hx. apply (Encoder_forward_broadcast e _ _ _ x g1 W).
    rewrite Hx. unfold torch.broadcast_shapes.
    cbn [rev app torch.broadcast_rev]. rewrite Nat.eqb_refl. reflexivity.
  - intros w Hx Hw Hw1. unfold Encoder.forward. apply bind_raise.
    destruct W as [He _].
    unfold lift, torch.add, torch.pointwise2, torch.broadcast_shapes.
    rewrite He, Hx. cbn [rev app torch.broadcast_rev]. rewrite Nat.eqb_refl.
    destruct (Nat.eqb_spec w (Z.to_nat d)); [contradiction |].
    destruct (Nat.eqb_spec w 1); [contradiction |].
    destruct (Nat.eqb_spec (Z.to_nat d) 1); [lia | reflexivity].
Qed.

Lemma Encoder_forward_input_width_witness :
  exists e g',
    Encoder.__init__ 16 16 16 2 2 8 32 4 (1 # 10)%Q ones_generator = Ok (e, g') /\
    forall (x : Tensor) (g1 : Generator),
      (shape x = [Z.to_nat 8; 1] ->
         exists z g2, Encoder.forward e x g1 = Ok (z, g2) /\
                      shape z = [Z.to_nat 8; Z.to_nat 16]) /\
      (shape x = [Z.to_nat 16] ->
         exists z g2, Encoder.forward e x g1 = Ok (z, g2) /\
                      shape z = [Z.to_nat 8; Z.to_nat 16]) /\
      (forall w : nat,
         shape x = [Z.to_nat 8; w] -> w <> Z.to_nat 16 -> w <> 1 ->
         Encoder.forward e x g1 = Raise size_mismatch).
Proof.
  apply (Encoder_forward_input_width 16 2 2 8 32 4 (1 # 10)%Q ones_generator);
    try lia; unfold Qle; simpl; lia.
Defined.

Example encode_single_feature :
  encode_shape 16 2 2 8 (ones_tensor [8; 1]) = Ok [8; 16].
Proof. vm_compute. reflexivity. Qed.

Example encode_single_vector :
  encode_shape 16 2 2 8 (ones_tensor [16]) = Ok [8; 16].
Proof. vm_compute. reflexivity. Qed.

Example encode_wrong_width :
  encode_shape 16 2 2 8 (ones_tensor [8; 4]) = Raise size_mismatch.
Proof. vm_compute. reflexivity. Qed.

(** * train_BERT.py *)

(** ** Running the batch preparation *)

Example batchify_seven_by_two :
  train_BERT.obind (train_BERT.batchify (train_BERT.of_list [1; 2; 3; 4; 5; 6; 7]%Z) 2)
    (fun b => train_BERT.Return (long_tolist2 b))
  = train_BERT.Return [[1; 4]; [2; 5]; [3; 6]]%Z.
Proof. vm_compute. reflexivity. Qed.

Example get_batch_of_batchified :
  train_BERT.obind (train_BERT.batchify (train_BERT.of_list [1; 2; 3; 4; 5; 6; 7]%Z) 2)
    (fun source =>
       train_BERT.obind (train_BERT.get_batch source 0 5) (fun dt =>
         train_BERT.Return (long_tolist2 (fst dt), long_tolist (snd dt))))
  = train_BERT.Return ([[1; 4]; [2; 5]], [2; 3; 5; 6])%Z.
Proof. vm_compute. reflexivity. Qed.

Example batch_offsets_of_seven_rows :
  train_BERT.batch_offsets (mkLong [7; 2] (fun _ => 0%Z)) 4
  = train_BERT.Return [0; 4]%Z.
Proof. vm_compute. reflexivity. Qed.

Example batchify_zero_batch_size :
  train_BERT.batchify (train_BERT.of_list [1; 2; 3]%Z) 0
  = train_BERT.Throw
      (train_BERT.ZeroDivisionError "integer division or modulo by zero").
Proof. reflexivity. Qed.

(** ** batchify *)

Lemma unravel_1d (k p : nat) : unravel [k] p = [p mod k].
Proof. reflexivity. Qed.

Lemma unravel_2d (a b p : nat) : unravel [a; b] p = [(p / b) mod a; p mod b].
Proof. reflexivity. Qed.

Lemma batchify_entries (data : LongTensor) (N : nat) (bsz : Z)
    (Hdata : lshape data = [N]) (Hbsz : (0 < bsz)%Z) :
  exists b,
    train_BERT.batchify data bsz = train_BERT.Return b /\
    lshape b = [N / Z.to_nat bsz; Z.to_nat bsz] /\
    forall s c : nat, s < N / Z.to_nat bsz -> c < Z.to_nat bsz ->
      ldata b [s; c] = ldata data [c * (N / Z.to_nat bsz) + s].
Proof.
  set (B := Z.to_nat bsz). set (q := N / B).
  assert (HB : 0 < B) by (unfold B; lia).
  assert (Hq : (Z.of_nat N / bsz)%Z = Z.of_nat q).
  { unfold q. rewrite Nat2Z.inj_div. unfold B. rewrite Z2Nat.id by lia.
    reflexivity. }
  assert (HqB : q * B <= N) by (unfold q; rewrite Nat.mul_comm; apply Nat.Div0.mul_div_le).
  unfold train_BERT.batchify, train_BERT.size. rewrite Hdata.
  cbn [nth_error train_BERT.obind]. unfold train_BERT.floordiv.
  destruct (Z.eqb_spec bsz 0); [lia |]. cbn [train_BERT.obind].
  rewrite Hq. unfold train_BERT.slice. rewrite Hdata. cbn [train_BERT.obind].
  unfold train_BERT.slice_bound.
  destruct (Z.ltb_spec (Z.of_nat q * bsz) 0); [nia |].
  replace (Nat.min (Z.to_nat (Z.of_nat q * bsz)) N - 0) with (q * B)
    by (unfold B; nia).
  unfold train_BERT.view2. cbn [lshape numel fold_right].
  destruct (Z.ltb_spec bsz (-1)); [lia |].
  destruct (Z.ltb_spec (Z.of_nat q) (-1)); [lia |]. cbn [orb].
  destruct (Z.eqb_spec bsz (-1)); [lia |]. cbn [andb].
  destruct (Z.eqb_spec (Z.of_nat q) (-1)); [lia |].
  destruct (Z.eqb_spec (bsz * Z.of_nat q) (Z.of_nat (q * B * 1)));
    [| unfold B in *; nia].
  cbn [train_BERT.obind]. unfold train_BERT.t. cbn [lshape train_BERT.obind].
  eexists. split; [reflexivity |]. cbn [lshape]. split.
  - rewrite Nat2Z.id. reflexivity.
  - intros s c Hs Hc. cbn [ldata nth]. rewrite Nat2Z.id. fold B.
    rewrite unravel_1d. cbn [Nat.add].
    rewrite Nat.mod_small by nia. reflexivity.
Qed.

(** For a flat tensor of N tokens and a positive batch size, batchify
    returns a tensor of shape [N // bsz, bsz] whose column b is the b-th
    run of N // bsz consecutive tokens; the N mod bsz tokens that are left
    at the end are dropped. *)
Theorem batchify_layout (data : LongTensor) (N : nat) (bsz : Z)
    (Hdata : lshape data = [N]) (Hbsz : (0 < bsz)%Z) :
  exists b,
    train_BERT.batchify data bsz = train_BERT.Return b /\
    lshape b = [N / Z.to_nat bsz; Z.to_nat bsz] /\
    forall s c : nat, s < N / Z.to_nat bsz -> c < Z.to_nat bsz ->
      ldata b [s; c] = ldata data [c * (N / Z.to_nat bsz) + s].
Proof.
  exact (batchify_entries data N bsz Hdata Hbsz).
Qed.

Lemma batchify_layout_witness :
  exists b,
    train_BERT.batchify (train_BERT.of_list [1; 2; 3; 4; 5; 6; 7]%Z) 2
      = train_BERT.Return b /\
    lshape b = [7 / Z.to_nat 2; Z.to_nat 2] /\
    forall s c : nat, s < 7 / Z.to_nat 2 -> c < Z.to_nat 2 ->
      ldata b [s; c] =
        ldata (train_BERT.of_list [1; 2; 3; 4; 5; 6; 7]%Z) [c * (7 / Z.to_nat 2) + s].
Proof.
  apply (batchify_layout (train_BERT.of_list [1; 2; 3; 4; 5; 6; 7]%Z) 7 2);
    [reflexivity | lia].
Defined.

(** No call with a batch size of zero or less returns: zero divides by
    zero, and a negative size is refused by view, for every tensor. *)
Theorem batchify_rejects_nonpositive_batch_size (data : LongTensor) (bsz : Z)
    (Hbsz : (bsz <= 0)%Z) :
  exists e, train_BERT.batchify data bsz = train_BERT.Throw e.
Proof.
  unfold train_BERT.batchify, train_BERT.size.
  destruct (lshape data) as [| N rest] eqn:Hs;
    [eexists; reflexivity |].
  cbn [nth_error train_BERT.obind]. unfold train_BERT.floordiv.
  destruct (Z.eqb_spec bsz 0); [eexists; reflexivity |].
  cbn [train_BERT.obind]. unfold train_BERT.slice. rewrite Hs.
  cbn [train_BERT.obind]. unfold train_BERT.view2.
  destruct (Z.ltb_spec bsz (-1)); [eexists; reflexivity |].
  assert (bsz = (-1)%Z) by lia. subst bsz.
  assert (Hneg : (Z.of_nat N / -1 = - Z.of_nat N)%Z).
  { change (-1)%Z with (- (1))%Z.
    rewrite Z.div_opp_r_z by (try lia; apply Z.mod_1_r).
    rewrite Z.div_1_r. reflexivity. }
  destruct (Z.ltb_spec (Z.of_nat N / -1) (-1)); [eexists; reflexivity |].
  cbn [orb Z.eqb andb].
  destruct (Z.eqb_spec (Z.of_nat N / -1) (-1)); [eexists; reflexivity |].
  cbn [andb].
  destruct (Z.ltb_spec 0 (Z.of_nat N / -1)).
  - exfalso. lia.
  - cbn [andb]. eexists. reflexivity.
Qed.

Lemma batchify_rejects_nonpositive_batch_size_witness :
  exists e,
    train_BERT.batchify (train_BERT.of_list [1; 2; 3]%Z) (-1) = train_BERT.Throw e.
Proof.
  apply (batchify_rejects_nonpositive_batch_size
           (train_BERT.of_list [1; 2; 3]%Z) (-1)). lia.
Defined.

(** ** get_batch *)

Lemma get_batch_rows (source : LongTensor) (N B : nat)
    (i sq_len : Z)
    (Hsource : lshape source = [N; B])
    (Hi : (0 <= i)%Z) (Hrow : (i + 1 < Z.of_nat N)%Z) (Hsq : (1 <= sq_len)%Z) :
  exists data target,
    train_BERT.get_batch source i sq_len = train_BERT.Return (data, target) /\
    let m := Z.to_nat (Z.min sq_len (Z.of_nat N - 1 - i)) in
    1 <= m /\
    lshape data = [m; B] /\
    lshape target = [B * m] /\
    forall s b : nat, s < m -> b < B ->
      ldata data [s; b] = ldata source [Z.to_nat i + s; b] /\
      ldata target [b * m + s] = ldata source [Z.to_nat i + 1 + s; b].
Proof.
  unfold train_BERT.get_batch, train_BERT.len. rewrite Hsource.
  cbn [train_BERT.obind]. unfold train_BERT.slice. rewrite Hsource.
  cbn [train_BERT.obind]. unfold train_BERT.rearrange_seq_batch.
  cbn [lshape train_BERT.obind].
  set (mz := Z.min sq_len (Z.of_nat N - 1 - i)).
  set (m := Z.to_nat mz).
  assert (Hm1 : 1 <= m) by (unfold m, mz; lia).
  assert (Hm2 : Z.to_nat i + 1 + m <= N) by (unfold m, mz; lia).
  assert (Ha : train_BERT.slice_bound N i = Z.to_nat i).
  { unfold train_BERT.slice_bound. destruct (Z.ltb_spec i 0); lia. }
  assert (Hb : train_BERT.slice_bound N (i + mz) = Z.to_nat i + m).
  { unfold train_BERT.slice_bound. destruct (Z.ltb_spec (i + mz) 0);
      unfold m, mz in *; lia. }
  assert (Ha' : train_BERT.slice_bound N (i + 1) = Z.to_nat i + 1).
  { unfold train_BERT.slice_bound. destruct (Z.ltb_spec (i + 1) 0); lia. }
  assert (Hb' : train_BERT.slice_bound N (i + 1 + mz) = Z.to_nat i + 1 + m).
  { unfold train_BERT.slice_bound. destruct (Z.ltb_spec (i + 1 + mz) 0);
      unfold m, mz in *; lia. }
  rewrite Ha, Hb, Ha', Hb'.
  replace (Z.to_nat i + m - Z.to_nat i) with m by lia.
  replace (Z.to_nat i + 1 + m - (Z.to_nat i + 1)) with m by lia.
  eexists. eexists. split; [reflexivity |].
  cbv zeta. split; [exact Hm1 |]. split; [reflexivity |]. split.
  - cbn [train_BERT.reshape_flat lshape numel fold_right].
    rewrite Nat.mul_1_r. reflexivity.
  - intros s b Hs Hb0. split; [reflexivity |].
    cbn [train_BERT.reshape_flat ldata lshape nth]. rewrite unravel_2d.
    cbn [nth].
    assert (Hdiv : (b * m + s) / m = b).
    { rewrite Nat.div_add_l by lia. rewrite (Nat.div_small s m) by lia. lia. }
    assert (Hmod : (b * m + s) mod m = s).
    { rewrite Nat.add_comm, Nat.Div0.mod_add. apply Nat.mod_small. lia. }
    rewrite Hdiv, Hmod, (Nat.mod_small b B) by lia. reflexivity.
Qed.

(** At an offset i with at least one row after it, get_batch returns
    m = min(sq_len, N - 1 - i) >= 1 rows of the source as data and, as
    target, the rows one position later, laid out batch by batch: the
    target entry for batch b and step s is the token that follows data
    entry (s, b) in column b of the source. *)
Theorem get_batch_target_is_next_token (source : LongTensor) (N B : nat)
    (i sq_len : Z)
    (Hsource : lshape source = [N; B])
    (Hi : (0 <= i)%Z) (Hrow : (i + 1 < Z.of_nat N)%Z) (Hsq : (1 <= sq_len)%Z) :
  exists data target,
    train_BERT.get_batch source i sq_len = train_BERT.Return (data, target) /\
    let m := Z.to_nat (Z.min sq_len (Z.of_nat N - 1 - i)) in
    1 <= m /\
    lshape data = [m; B] /\
    lshape target = [B * m] /\
    forall s b : nat, s < m -> b < B ->
      ldata data [s; b] = ldata source [Z.to_nat i + s; b] /\
      ldata target [b * m + s] = ldata source [Z.to_nat i + 1 + s; b].
Proof.
  exact (get_batch_rows source N B i sq_len Hsource Hi Hrow Hsq).
Qed.

Lemma get_batch_target_is_next_token_witness :
  exists data target,
    train_BERT.get_batch (mkLong [7; 2] (fun idx => Z.of_nat (nth 0 idx 0))) 4 4
      = train_BERT.Return (data, target) /\
    let m := Z.to_nat (Z.min 4 (Z.of_nat 7 - 1 - 4)) in
    1 <= m /\
    lshape data = [m; 2] /\
    lshape target = [2 * m] /\
    forall s b : nat, s < m -> b < 2 ->
      ldata data [s; b] =
        ldata (mkLong [7; 2] (fun idx => Z.of_nat (nth 0 idx 0))) [Z.to_nat 4 + s; b] /\
      ldata target [b * m + s] =
        ldata (mkLong [7; 2] (fun idx => Z.of_nat (nth 0 idx 0)))
          [Z.to_nat 4 + 1 + s; b].
Proof.
  apply (get_batch_target_is_next_token
           (mkLong [7; 2] (fun idx => Z.of_nat (nth 0 idx 0))) 7 2 4 4);
    [reflexivity | lia | lia | lia].
Defined.

(** At an offset with no row after it get_batch does not raise: it returns
    no data rows and an empty target. *)
Theorem get_batch_past_the_end_is_empty (source : LongTensor) (N B : nat)
    (i sq_len : Z)
    (Hsource : lshape source = [N; B])
    (Hi : (0 <= i)%Z) (Hend : (Z.of_nat N - 1 <= i)%Z) (Hsq : (0 <= sq_len)%Z) :
  exists data target,
    train_BERT.get_batch source i sq_len = train_BERT.Return (data, target) /\
    lshape data = [0; B] /\
    lshape target = [0].
Proof.
  unfold train_BERT.get_batch, train_BERT.len. rewrite Hsource.
  cbn [train_BERT.obind]. unfold train_BERT.slice. rewrite Hsource.
  cbn [train_BERT.obind]. unfold train_BERT.rearrange_seq_batch.
  cbn [lshape train_BERT.obind].
  set (mz := Z.min sq_len (Z.of_nat N - 1 - i)).
  assert (Hmz : mz = (Z.of_nat N - 1 - i)%Z) by (unfold mz; lia).
  assert (H1 : train_BERT.slice_bound N (i + mz) - train_BERT.slice_bound N i = 0).
  { unfold train_BERT.slice_bound.
    destruct (Z.ltb_spec (i + mz) 0), (Z.ltb_spec i 0); lia. }
  assert (H2 : train_BERT.slice_bound N (i + 1 + mz)
               - train_BERT.slice_bound N (i + 1) = 0).
  { unfold train_BERT.slice_bound.
    destruct (Z.ltb_spec (i + 1 + mz) 0), (Z.ltb_spec (i + 1) 0); lia. }
  rewrite H1, H2.
  eexists. eexists. split; [reflexivity |]. split; [reflexivity |].
  cbn [train_BERT.reshape_flat lshape numel fold_right].
  rewrite Nat.mul_0_l, Nat.mul_0_r. reflexivity.
Qed.

Lemma get_batch_past_the_end_is_empty_witness :
  exists data target,
    train_BERT.get_batch (mkLong [7; 2] (fun _ => 0%Z)) 6 4
      = train_BERT.Return (data, target) /\
    lshape data = [0; 2] /\
    lshape target = [0].
Proof.
  apply (get_batch_past_the_end_is_empty (mkLong [7; 2] (fun _ => 0%Z)) 7 2 6 4);
    [reflexivity | lia | lia | lia].
Defined.

(** batchify followed by get_batch: every data entry is a token of the
    flat corpus and its target is the token that comes right after it in
    the corpus.  With q = N // bsz, the data entry at step s of batch b is
    token b * q + i + s and its target is token b * q + i + s + 1. *)
Theorem batches_pair_each_token_with_its_successor (flat : LongTensor)
    (N : nat) (bsz i sq_len : Z)
    (Hflat : lshape flat = [N]) (Hbsz : (0 < bsz)%Z)
    (Hi : (0 <= i)%Z) (Hrow : (i + 1 < Z.of_nat (N / Z.to_nat bsz))%Z)
    (Hsq : (1 <= sq_len)%Z) :
  exists source data target,
    train_BERT.batchify flat bsz = train_BERT.Return source /\
    train_BERT.get_batch source i sq_len = train_BERT.Return (data, target) /\
    let q := N / Z.to_nat bsz in
    let m := Z.to_nat (Z.min sq_len (Z.of_nat q - 1 - i)) in
    forall s b : nat, s < m -> b < Z.to_nat bsz ->
      ldata data [s; b] = ldata flat [b * q + Z.to_nat i + s] /\
      ldata target [b * m + s] = ldata flat [b * q + Z.to_nat i + s + 1].
Proof.
  destruct (batchify_entries flat N bsz Hflat Hbsz) as [source [Eb [Hs Hsrc]]].
  destruct (get_batch_rows source (N / Z.to_nat bsz) (Z.to_nat bsz) i sq_len
              Hs Hi Hrow Hsq) as [data [target [Eg [_ [_ [_ Hrows]]]]]].
  exists source, data, target. split; [assumption |]. split; [assumption |].
  cbv zeta. intros s b Hsm Hb.
  destruct (Hrows s b Hsm Hb) as [Hd Ht].
  rewrite Hd, Ht.
  rewrite !Hsrc by (try assumption; lia).
  split; f_equal; f_equal; lia.
Qed.

Lemma batches_pair_each_token_with_its_successor_witness :
  exists source data target,
    train_BERT.batchify (train_BERT.of_list [1; 2; 3; 4; 5; 6; 7]%Z) 2
      = train_BERT.Return source /\
    train_BERT.get_batch source 0 5 = train_BERT.Return (data, target) /\
    let q := 7 / Z.to_nat 2 in
    let m := Z.to_nat (Z.min 5 (Z.of_nat q - 1 - 0)) in
    forall s b : nat, s < m -> b < Z.to_nat 2 ->
      ldata data [s; b] =
        ldata (train_BERT.of_list [1; 2; 3; 4; 5; 6; 7]%Z) [b * q + Z.to_nat 0 + s] /\
      ldata target [b * m + s] =
        ldata (train_BERT.of_list [1; 2; 3; 4; 5; 6; 7]%Z)
          [b * q + Z.to_nat 0 + s + 1].
Proof.
  apply (batches_pair_each_token_with_its_successor
           (train_BERT.of_list [1; 2; 3; 4; 5; 6; 7]%Z) 7 2 0 5);
    [reflexivity | lia | lia | simpl; lia | lia].
Defined.

(** ** data_process *)

Lemma filter_map_commute (A B : Type) (f : A -> B) (p : B -> bool) (l : list A) :
  filter p (map f l) = map f (filter (fun a => p (f a)) l).
Proof.
  induction l as [| a l IH]; simpl; [reflexivity |].
  destruct (p (f a)); simpl; rewrite IH; reflexivity.
Qed.

Lemma concat_filter_nonempty (ls : list (list Z)) :
  concat (filter (fun l => 0 <? length l * 1) ls) = concat ls.
Proof.
  induction ls as [| l ls IH]; simpl; [reflexivity |].
  destruct l as [| a l]; simpl; rewrite IH; reflexivity.
Qed.

Lemma cat_tensors_shape (ls : list (list Z)) :
  fold_right (fun x acc => nth 0 (lshape x) 0 + acc) 0 (map train_BERT.of_list ls)
  = length (concat ls).
Proof.
  induction ls as [| l ls IH]; simpl; [reflexivity |].
  rewrite IH, length_app. reflexivity.
Qed.

Lemma cat_tensors_data (ls : list (list Z)) (k : nat) :
  train_BERT.cat_data (map train_BERT.of_list ls) [k] = nth k (concat ls) 0%Z.
Proof.
  revert k. induction ls as [| l ls IH]; intros k; simpl.
  - destruct k; reflexivity.
  - destruct (Nat.ltb_spec k (length l)).
    + rewrite app_nth1 by assumption. reflexivity.
    + rewrite app_nth2 by assumption. apply IH.
Qed.

Lemma map_nth_seq_id (l : list Z) :
  map (fun k => nth k l 0%Z) (seq 0 (length l)) = l.
Proof.
  apply (nth_ext _ _ 0%Z 0%Z).
  - rewrite length_map, length_seq. reflexivity.
  - intros n Hn. rewrite length_map, length_seq in Hn.
    rewrite (nth_indep _ 0%Z (nth 0 l 0%Z)) by (rewrite length_map, length_seq; assumption).
    rewrite (map_nth (fun k => nth k l 0%Z)), seq_nth by assumption.
    reflexivity.
Qed.

(** The list comprehension of data_process: it yields one tensor per item
    when every token index fits in int64, and raises otherwise. *)
Lemma omap_tensor (Item : Type) (f : Item -> list Z) (raw : list Item) :
  (forallb train_BERT.in_int64 (flat_map f raw) = true ->
     train_BERT.omap (fun item => train_BERT.tensor (f item)) raw
       = train_BERT.Return (map (fun item => train_BERT.of_list (f item)) raw)) /\
  (forallb train_BERT.in_int64 (flat_map f raw) = false ->
     exists e,
       train_BERT.omap (fun item => train_BERT.tensor (f item)) raw
         = train_BERT.Throw e).
Proof.
  induction raw as [| a raw [IHok IHbad]]; cbn [flat_map train_BERT.omap].
  - split; [reflexivity | discriminate].
  - rewrite forallb_app. unfold train_BERT.tensor at 1 3.
    destruct (forallb train_BERT.in_int64 (f a)); cbn [andb train_BERT.obind].
    + split.
      * intros H. rewrite (IHok H). reflexivity.
      * intros H. destruct (IHbad H) as [e He]. rewrite He.
        eexists. reflexivity.
    + split; [discriminate |]. intros _. eexists. reflexivity.
Qed.

(** Concatenating the tensors of the items that have tokens. *)
Lemma cat_of_lists (all : list (list Z)) :
  (concat all = [] ->
     exists e,
       train_BERT.cat (filter (fun x => 0 <? numel (lshape x))
                         (map train_BERT.of_list all)) = train_BERT.Throw e) /\
  (concat all <> [] ->
     exists t,
       train_BERT.cat (filter (fun x => 0 <? numel (lshape x))
                         (map train_BERT.of_list all)) = train_BERT.Return t /\
       lshape t = [length (concat all)] /\
       long_tolist t = concat all).
Proof.
  rewrite filter_map_commute.
  change (fun a : list Z => 0 <? numel (lshape (train_BERT.of_list a)))
    with (fun a : list Z => 0 <? length a * 1).
  rewrite <- (concat_filter_nonempty all).
  remember (filter (fun l : list Z => 0 <? length l * 1) all) as ls eqn:Hls.
  assert (Hne : Forall (fun l : list Z => l <> []) ls).
  { apply Forall_forall. intros l Hl. rewrite Hls in Hl.
    apply filter_In in Hl. destruct Hl as [_ Hl].
    destruct l; [simpl in Hl |]; discriminate. }
  clear Hls. split.
  - intros Hnil. destruct ls as [| l ls']; [eexists; reflexivity |].
    exfalso. inversion Hne as [| ? ? Hl _]; subst.
    simpl in Hnil. destruct l; [contradiction | discriminate].
  - intros Hnn. destruct ls as [| l ls'].
    { simpl in Hnn. contradiction. }
    unfold train_BERT.cat. cbn [map].
    cbn [train_BERT.of_list lshape length Nat.ltb Nat.leb].
    assert (Hsame :
      forallb (fun x => torch.same_except 0 [length l] (lshape x))
        (map train_BERT.of_list ls') = true).
    { apply forallb_forall. intros x Hx.
      apply in_map_iff in Hx. destruct Hx as [a [<- _]]. reflexivity. }
    rewrite Hsame. eexists. split; [reflexivity |].
    cbn [lshape set_nth].
    change (train_BERT.of_list l :: map train_BERT.of_list ls')
      with (map train_BERT.of_list (l :: ls')).
    rewrite cat_tensors_shape. split; [reflexivity |].
    unfold long_tolist. cbn [lshape ldata nth].
    rewrite (map_ext _ (fun k => nth k (concat (l :: ls')) 0%Z)).
    + apply map_nth_seq_id.
    + intros k. rewrite cat_tensors_data. reflexivity.
Qed.

(** When every token index fits in int64, data_process returns the token
    indices of all the items, in order, as one flat tensor; items without
    tokens contribute nothing.  It raises when no item has a token (an
    empty corpus included: torch.cat is given an empty tuple), and when
    some token index does not fit in int64. *)
Theorem data_process_concatenates_tokens (Item Token : Type)
    (raw_text_iter : list Item) (vocab : list Token -> list Z)
    (tokenizer : Item -> list Token) :
  let tokens := flat_map (fun item => vocab (tokenizer item)) raw_text_iter in
  (forallb train_BERT.in_int64 tokens = true -> tokens <> [] ->
     exists t,
       train_BERT.data_process raw_text_iter vocab tokenizer
         = train_BERT.Return t /\
       lshape t = [length tokens] /\
       long_tolist t = tokens) /\
  (tokens = [] ->
     exists e,
       train_BERT.data_process raw_text_iter vocab tokenizer
         = train_BERT.Throw e) /\
  (forallb train_BERT.in_int64 tokens = false ->
     exists e,
       train_BERT.data_process raw_text_iter vocab tokenizer
         = train_BERT.Throw e).
Proof.
  intros tokens. unfold train_BERT.data_process.
  destruct (omap_tensor Item (fun item => vocab (tokenizer item)) raw_text_iter)
    as [Hok Hbad].
  fold tokens in Hok, Hbad.
  assert (Htok : tokens =
            concat (map (fun item => vocab (tokenizer item)) raw_text_iter))
    by (unfold tokens; apply flat_map_concat_map).
  destruct (cat_of_lists (map (fun item => vocab (tokenizer item)) raw_text_iter))
    as [Hnil Hcons].
  rewrite map_map in Hnil, Hcons. rewrite <- Htok in Hnil, Hcons.
  split; [| split].
  - intros Hin Hne. rewrite (Hok Hin). cbn [train_BERT.obind].
    apply Hcons. assumption.
  - intros Hempty.
    assert (Hin : forallb train_BERT.in_int64 tokens = true)
      by (rewrite Hempty; reflexivity).
    rewrite (Hok Hin). cbn [train_BERT.obind]. apply Hnil. assumption.
  - intros Hout. destruct (Hbad Hout) as [e He]. rewrite He.
    eexists. reflexivity.
Qed.

Lemma data_process_concatenates_tokens_witness :
  (exists t,
     train_BERT.data_process [[3; 1]; []; [4]]%Z (fun l : list Z => l)
       (fun l : list Z => l) = train_BERT.Return t /\
     lshape t = [3] /\
     long_tolist t = [3; 1; 4]%Z) /\
  (exists e,
     train_BERT.data_process [[]; []] (fun l : list Z => l)
       (fun l : list Z => l) = train_BERT.Throw e) /\
  (exists e,
     train_BERT.data_process [[3; 1]; [2 ^ 63]]%Z (fun l : list Z => l)
       (fun l : list Z => l) = train_BERT.Throw e).
Proof.
  split; [| split].
  - apply (proj1 (data_process_concatenates_tokens (list Z) Z
             [[3; 1]; []; [4]]%Z (fun l => l) (fun l => l)));
      [reflexivity | discriminate].
  - apply (proj1 (proj2 (data_process_concatenates_tokens (list Z) Z
             [[]; []] (fun l => l) (fun l => l)))).
    reflexivity.
  - apply (proj2 (proj2 (data_process_concatenates_tokens (list Z) Z
             [[3; 1]; [2 ^ 63]]%Z (fun l => l) (fun l => l)))).
    reflexivity.
Defined.

Example data_process_small_corpus :
  train_BERT.obind
    (train_BERT.data_process [[3; 1]; []; [4]]%Z (fun l : list Z => l)
       (fun l : list Z => l))
    (fun t => train_BERT.Return (long_tolist t))
  = train_BERT.Return [3; 1; 4]%Z.
Proof. vm_compute. reflexivity. Qed.

(** ** The offsets of the batches *)

Lemma windows_prefix (M s q : nat) :
  (1 <= q -> (q - 1) * s < M) ->
  concat (map (fun k => seq (k * s) (Nat.min s (M - k * s))) (seq 0 q))
  = seq 0 (Nat.min (q * s) M).
Proof.
  induction q as [| q IH]; intros Hq; [reflexivity |].
  rewrite seq_S, map_app, concat_app. cbn [map concat Nat.add].
  rewrite app_nil_r.
  assert (Hlt : q * s < M) by (specialize (Hq ltac:(lia)); simpl in Hq; nia).
  rewrite IH by (intros; nia).
  replace (Nat.min (q * s) M) with (q * s) by lia.
  replace (Nat.min (S q * s) M) with (q * s + Nat.min s (M - q * s)) by nia.
  symmetry. apply seq_app.
Qed.

Lemma windows_tile (M s : nat) :
  1 <= s ->
  concat (map (fun k => seq (k * s) (Nat.min s (M - k * s)))
            (seq 0 ((M + s - 1) / s)))
  = seq 0 M.
Proof.
  intros Hs.
  pose proof (Nat.div_mod_eq (M + s - 1) s) as Hdm.
  pose proof (Nat.mod_upper_bound (M + s - 1) s ltac:(lia)) as Hr.
  set (q := (M + s - 1) / s) in *. set (r := (M + s - 1) mod s) in *.
  rewrite windows_prefix by (intros; nia).
  f_equal. nia.
Qed.

Lemma batch_offsets_windows (source : LongTensor) (N B : nat)
    (sq_len : Z)
    (Hsource : lshape source = [N; B]) (Hsq : (1 <= sq_len)%Z) :
  exists offsets,
    train_BERT.batch_offsets source sq_len = train_BERT.Return offsets /\
    Forall (fun i => (0 <= i)%Z /\ (i + 1 < Z.of_nat N)%Z) offsets /\
    concat (map (fun i =>
                   seq (Z.to_nat i)
                       (Z.to_nat (Z.min sq_len (Z.of_nat N - 1 - i))))
              offsets)
    = seq 0 (N - 1).
Proof.
  unfold train_BERT.batch_offsets, train_BERT.size. rewrite Hsource.
  cbn [nth_error train_BERT.obind]. unfold train_BERT.range3.
  destruct (Z.eqb_spec sq_len 0); [lia |].
  destruct (Z.ltb_spec 0 sq_len); [| lia].
  set (s := Z.to_nat sq_len). set (M := N - 1).
  assert (Hs : 1 <= s) by (unfold s; lia).
  assert (Hq : Z.to_nat ((Z.of_nat N - 1 - 0 + sq_len - 1) / sq_len)
               = (M + s - 1) / s).
  { destruct N as [| N'].
    - unfold M. cbn [Nat.sub Nat.add].
      rewrite (Nat.div_small (s - 1) s) by lia.
      assert ((Z.of_nat 0 - 1 - 0 + sq_len - 1) / sq_len <= 0)%Z; [| lia].
      apply Z.lt_succ_r. apply Z.div_lt_upper_bound; lia.
    - replace (Z.of_nat (S N') - 1 - 0 + sq_len - 1)%Z
        with (Z.of_nat (M + s - 1)) by (unfold M, s; lia).
      assert (Hss : sq_len = Z.of_nat s) by (unfold s; lia).
      rewrite Hss at 1.
      rewrite <- Nat2Z.inj_div, Nat2Z.id. reflexivity. }
  rewrite Hq. eexists. split; [reflexivity |].
  pose proof (Nat.div_mod_eq (M + s - 1) s) as Hdm.
  pose proof (Nat.mod_upper_bound (M + s - 1) s ltac:(lia)) as Hr.
  assert (Hk : forall k, In k (seq 0 ((M + s - 1) / s)) -> k * s < M).
  { intros k Hin. apply in_seq in Hin. nia. }
  split.
  - apply Forall_forall. intros i Hin. apply in_map_iff in Hin.
    destruct Hin as [k [<- Hin]]. specialize (Hk k Hin).
    unfold s, M in Hk. nia.
  - rewrite map_map. rewrite <- (windows_tile M s Hs).
    f_equal. apply map_ext_in. intros k Hin. specialize (Hk k Hin).
    f_equal; unfold s, M in *; nia.
Qed.

(** train and evaluate call get_batch at the offsets
    range(0, N - 1, sq_len).  For sq_len >= 1 every offset has at least one
    row after it, and the data windows taken at these offsets, of
    min(sq_len, N - 1 - i) rows each, follow one another without gap or
    overlap and cover the rows 0 .. N - 2 of the source: each row except
    the last is used as data exactly once. *)
Theorem batch_offsets_tile_the_source (source : LongTensor) (N B : nat)
    (sq_len : Z)
    (Hsource : lshape source = [N; B]) (Hsq : (1 <= sq_len)%Z) :
  exists offsets,
    train_BERT.batch_offsets source sq_len = train_BERT.Return offsets /\
    Forall (fun i => (0 <= i)%Z /\ (i + 1 < Z.of_nat N)%Z) offsets /\
    concat (map (fun i =>
                   seq (Z.to_nat i)
                       (Z.to_nat (Z.min sq_len (Z.of_nat N - 1 - i))))
              offsets)
    = seq 0 (N - 1).
Proof.
  exact (batch_offsets_windows source N B sq_len Hsource Hsq).
Qed.

Lemma batch_offsets_tile_the_source_witness :
  exists offsets,
    train_BERT.batch_offsets (mkLong [7; 2] (fun _ => 0%Z)) 4
      = train_BERT.Return offsets /\
    Forall (fun i => (0 <= i)%Z /\ (i + 1 < Z.of_nat 7)%Z) offsets /\
    concat (map (fun i =>
                   seq (Z.to_nat i)
                       (Z.to_nat (Z.min 4 (Z.of_nat 7 - 1 - i))))
              offsets)
    = seq 0 (7 - 1).
Proof.
  apply (batch_offsets_tile_the_source (mkLong [7; 2] (fun _ => 0%Z)) 7 2 4);
    [reflexivity | lia].
Defined.

(** ** evaluate *)

Lemma evaluate_step (model : LongTensor -> train_BERT.outcome Tensor)
    (criterion : Tensor -> LongTensor -> train_BERT.outcome R)
    (source : LongTensor) (N B : nat) (sq_len ntokens : Z) (c : R)
    (i : Z) (total : R) :
  lshape source = [N; B] -> (1 <= sq_len)%Z ->
  (forall data, exists out,
     model data = train_BERT.Return out /\
     (0 < ntokens)%Z /\ (Z.of_nat (numel (shape out)) mod ntokens = 0)%Z) ->
  (forall flat targets, criterion flat targets = train_BERT.Return c) ->
  (0 <= i)%Z -> (i + 1 < Z.of_nat N)%Z ->
  train_BERT.obind (train_BERT.get_batch source i sq_len) (fun batch =>
  train_BERT.obind (train_BERT.rearrange_seq_batch (fst batch)) (fun data =>
  train_BERT.obind (train_BERT.size data 0) (fun seq_len =>
  train_BERT.obind (model data) (fun output =>
  train_BERT.obind (evaluation.view_rows output ntokens) (fun output_flat =>
  train_BERT.obind (criterion output_flat (snd batch)) (fun loss =>
    train_BERT.Return (total + IZR seq_len * loss)%R))))))
  = train_BERT.Return (total + INR B * c)%R.
Proof.
  intros Hsource Hsq Hmodel Hcrit Hi0 Hi1.
  destruct (get_batch_rows source N B i sq_len Hsource
              Hi0 Hi1 Hsq) as [data [target [E [_ [Hd _]]]]].
  rewrite E. cbn [train_BERT.obind fst snd].
  unfold train_BERT.rearrange_seq_batch. rewrite Hd.
  cbn [train_BERT.obind]. unfold train_BERT.size.
  cbn [lshape nth_error train_BERT.obind].
  match goal with
  | |- context [model ?d] => destruct (Hmodel d) as [out [Eo [Hnt Hmod]]]
  end.
  rewrite Eo. cbn [train_BERT.obind]. unfold evaluation.view_rows.
  destruct (Z.ltb_spec ntokens (-1)); [lia |].
  destruct (Z.eqb_spec ntokens (-1)); [lia |].
  destruct (Z.ltb_spec 0 ntokens); [| lia].
  rewrite Hmod. cbn [Z.eqb andb train_BERT.obind].
  rewrite Hcrit. cbn [train_BERT.obind].
  rewrite <- INR_IZR_INZ. reflexivity.
Qed.

Lemma evaluate_loop (model : LongTensor -> train_BERT.outcome Tensor)
    (criterion : Tensor -> LongTensor -> train_BERT.outcome R)
    (source : LongTensor) (N B : nat) (sq_len ntokens : Z) (c : R) :
  lshape source = [N; B] -> (1 <= sq_len)%Z ->
  (forall data, exists out,
     model data = train_BERT.Return out /\
     (0 < ntokens)%Z /\ (Z.of_nat (numel (shape out)) mod ntokens = 0)%Z) ->
  (forall flat targets, criterion flat targets = train_BERT.Return c) ->
  forall (offsets : list Z) (total : R),
    Forall (fun i => (0 <= i)%Z /\ (i + 1 < Z.of_nat N)%Z) offsets ->
    evaluation.ofor offsets (fun i total_loss =>
      train_BERT.obind (train_BERT.get_batch source i sq_len) (fun batch =>
      train_BERT.obind (train_BERT.rearrange_seq_batch (fst batch)) (fun data =>
      train_BERT.obind (train_BERT.size data 0) (fun seq_len =>
      train_BERT.obind (model data) (fun output =>
      train_BERT.obind (evaluation.view_rows output ntokens) (fun output_flat =>
      train_BERT.obind (criterion output_flat (snd batch)) (fun loss =>
        train_BERT.Return (total_loss + IZR seq_len * loss)%R)))))))
      total
    = train_BERT.Return (total + INR (length offsets) * (INR B * c))%R.
Proof.
  intros Hsource Hsq Hmodel Hcrit offsets.
  induction offsets as [| i offsets IH]; intros total Hall.
  - simpl. f_equal. ring.
  - inversion Hall as [| ? ? [Hi0 Hi1] Hrest]; subst.
    cbn [evaluation.ofor].
    rewrite (evaluate_step model criterion source N B sq_len ntokens c i total
               Hsource Hsq Hmodel Hcrit Hi0 Hi1).
    cbn [train_BERT.obind]. rewrite IH by assumption. f_equal.
    cbn [length]. rewrite S_INR. ring.
Qed.

(** evaluate multiplies the loss of every batch by data.size(0) read after
    the rearrange to 'batch seq', that is by the batch size B, and divides
    the total by N - 1.  When the criterion gives the same loss c on every
    batch the result is therefore c * B * (number of batches) / (N - 1),
    which is c only when B * (number of batches) = N - 1. *)
Theorem evaluate_weights_losses_by_batch_size
    (model : LongTensor -> train_BERT.outcome Tensor)
    (criterion : Tensor -> LongTensor -> train_BERT.outcome R)
    (eval_data : LongTensor) (N B : nat) (sq_len ntokens : Z) (c : R)
    (Hsource : lshape eval_data = [N; B]) (HN : 2 <= N)
    (Hsq : (1 <= sq_len)%Z)
    (Hmodel : forall data, exists out,
       model data = train_BERT.Return out /\
       (0 < ntokens)%Z /\ (Z.of_nat (numel (shape out)) mod ntokens = 0)%Z)
    (Hcrit : forall flat targets, criterion flat targets = train_BERT.Return c) :
  exists offsets,
    train_BERT.batch_offsets eval_data sq_len = train_BERT.Return offsets /\
    evaluation.evaluate model eval_data criterion sq_len ntokens =
      train_BERT.Return
        (INR (length offsets) * (INR B * c) / INR (N - 1))%R.
Proof.
  destruct (batch_offsets_windows eval_data N B sq_len Hsource Hsq)
    as [offsets [Eo [Hall _]]].
  exists offsets. split; [assumption |].
  unfold train_BERT.batch_offsets in Eo.
  unfold evaluation.evaluate.
  destruct (train_BERT.size eval_data 0) as [n |] eqn:En; [| discriminate].
  cbn [train_BERT.obind] in Eo |- *. rewrite Eo. cbn [train_BERT.obind].
  rewrite (evaluate_loop model criterion eval_data N B sq_len ntokens c
             Hsource Hsq Hmodel Hcrit offsets 0%R Hall).
  cbn [train_BERT.obind]. unfold train_BERT.len. rewrite Hsource.
  cbn [train_BERT.obind].
  destruct (Z.eqb_spec (Z.of_nat N - 1) 0); [lia |].
  f_equal. replace (Z.of_nat N - 1)%Z with (Z.of_nat (N - 1)) by lia.
  rewrite <- INR_IZR_INZ. f_equal. ring.
Qed.

Lemma evaluate_weights_losses_by_batch_size_witness :
  exists offsets,
    train_BERT.batch_offsets (mkLong [7; 2] (fun _ => 0%Z)) 3
      = train_BERT.Return offsets /\
    evaluation.evaluate
      (fun _ => train_BERT.Return (ones_tensor [5]))
      (mkLong [7; 2] (fun _ => 0%Z))
      (fun _ _ => train_BERT.Return 1%R) 3 5 =
      train_BERT.Return
        (INR (length offsets) * (INR 2 * 1) / INR (7 - 1))%R.
Proof.
  apply (evaluate_weights_losses_by_batch_size
           (fun _ => train_BERT.Return (ones_tensor [5]))
           (fun _ _ => train_BERT.Return 1%R)
           (mkLong [7; 2] (fun _ => 0%Z)) 7 2 3 5 1%R).
  - reflexivity.
  - lia.
  - lia.
  - intros data. exists (ones_tensor [5]).
    split; [reflexivity |]. split; [lia | reflexivity].
  - intros flat targets. reflexivity.
Defined.

(** On a source with a single row the loop of evaluate does not run and
    the final division is by len(eval_data) - 1 = 0: evaluate raises
    ZeroDivisionError, whatever the model and the criterion. *)
Theorem evaluate_single_row_divides_by_zero
    (model : LongTensor -> train_BERT.outcome Tensor)
    (criterion : Tensor -> LongTensor -> train_BERT.outcome R)
    (eval_data : LongTensor) (B : nat) (sq_len ntokens : Z)
    (Hsource : lshape eval_data = [1; B]) (Hsq : (sq_len <> 0)%Z) :
  evaluation.evaluate model eval_data criterion sq_len ntokens =
    train_BERT.Throw (train_BERT.ZeroDivisionError "float division by zero").
Proof.
  unfold evaluation.evaluate, train_BERT.size, train_BERT.len.
  rewrite Hsource. cbn [nth_error train_BERT.obind].
  unfold train_BERT.range3.
  destruct (Z.eqb_spec sq_len 0); [contradiction |].
  change (Z.of_nat 1 - 1)%Z with 0%Z.
  assert (Hempty : forall k : Z,
            (k = (0 - 0 + sq_len - 1) / sq_len \/ k = (0 - 0 - sq_len - 1) / (- sq_len))%Z ->
            (0 < sq_len -> k = (0 - 0 + sq_len - 1) / sq_len)%Z ->
            (sq_len < 0 -> k = (0 - 0 - sq_len - 1) / (- sq_len))%Z ->
            Z.to_nat k = 0).
  { intros k _ Hp Hn'.
    destruct (Z.lt_trichotomy sq_len 0) as [Hlt | [Heq | Hgt]]; [| lia |].
    - rewrite (Hn' Hlt). rewrite Z.div_small by lia. reflexivity.
    - rewrite (Hp Hgt). rewrite Z.div_small by lia. reflexivity. }
  destruct (Z.ltb_spec 0 sq_len).
  - rewrite (Hempty _ (or_introl eq_refl)) by (intros; try reflexivity; lia).
    reflexivity.
  - rewrite (Hempty _ (or_intror eq_refl)) by (intros; try reflexivity; lia).
    reflexivity.
Qed.

Lemma evaluate_single_row_divides_by_zero_witness :
  evaluation.evaluate
    (fun _ => train_BERT.Return (ones_tensor [5]))
    (mkLong [1; 2] (fun _ => 0%Z))
    (fun _ _ => train_BERT.Return 1%R) 3 5 =
    train_BERT.Throw (train_BERT.ZeroDivisionError "float division by zero").
Proof.
  apply (evaluate_single_row_divides_by_zero
           (fun _ => train_BERT.Return (ones_tensor [5]))
           (fun _ _ => train_BERT.Return 1%R)
           (mkLong [1; 2] (fun _ => 0%Z)) 2 3 5); [reflexivity | lia].
Defined.
